(** * Bid lifecycle, payment and refund: a model of the server

    A shallow embedding of the server side of the auction-bid platform:
    the storage layer ([server/storage.ts], class [DatabaseStorage]), the
    payment adapter ([server/stripeService.ts], class [StripeService]) and
    the endpoints of [registerRoutes], over the tables and the validators
    of the shared schema ([@shared/schema]).  Asynchronous code is
    modelled sequentially (every [await] runs to completion); the
    database, the clock and the payment gateway are explicit components
    of a [World] that is threaded through a state-and-exception monad.
    The gateway may fail on any call.  The database may refuse a
    statement: it refuses a new bid whose texts do not fit the types of
    their columns, and a user whose e-mail another user holds.  The
    lengths of the other [varchar(n)] columns (the status of a bid, the
    type and the company code of a user) are not checked by the model;
    [fits_status] and [fits_users] say which values fit them.
    Endpoints are modelled after the authentication middleware, which
    hands them the id of the current user.  The ids of users that reach
    the storage layer are ids of rows of [users], so that the foreign
    keys on them hold. *)

From Stdlib Require Import ZArith QArith Qround String Ascii List Lia.
From stdpp Require Import base list sorting.

Local Open Scope Z_scope.

(** ** JavaScript strings and values *)

(** A JavaScript string is a sequence of UTF-16 code units. *)
Abbreviation jsstring := (list N).

Definition str (s : string) : jsstring :=
  List.map N_of_ascii (list_ascii_of_string s).

(** The code units removed by [String.prototype.trim]: the WhiteSpace and
    LineTerminator productions of ECMAScript. *)
Definition is_js_whitespace (c : N) : bool :=
  (N.leb 9 c && N.leb c 13)            (* TAB, LF, VT, FF, CR *)
  || N.eqb c 32                         (* SPACE *)
  || N.eqb c 160                        (* NO-BREAK SPACE *)
  || N.eqb c 5760                       (* OGHAM SPACE MARK *)
  || (N.leb 8192 c && N.leb c 8202)     (* EN QUAD .. HAIR SPACE *)
  || N.eqb c 8232 || N.eqb c 8233       (* LINE / PARAGRAPH SEPARATOR *)
  || N.eqb c 8239                       (* NARROW NO-BREAK SPACE *)
  || N.eqb c 8287                       (* MEDIUM MATHEMATICAL SPACE *)
  || N.eqb c 12288                      (* IDEOGRAPHIC SPACE *)
  || N.eqb c 65279.                     (* ZERO WIDTH NO-BREAK SPACE *)

Fixpoint trimStart (s : jsstring) : jsstring :=
  match s with
  | c :: s' => if is_js_whitespace c then trimStart s' else s
  | [] => []
  end.

Definition trimEnd (s : jsstring) : jsstring := rev (trimStart (rev s)).

Definition trim (s : jsstring) : jsstring := trimEnd (trimStart s).

(** The values a JSON request body can hold under a key ([JsUndefined]
    when the key is absent; [JsObject] stands for arrays and objects,
    which are truthy and have no [trim] method). *)
Inductive JsValue :=
| JsUndefined
| JsNull
| JsBoolean (b : bool)
| JsNumber (q : Q)
| JsString (s : jsstring)
| JsObject.

(** ToBoolean. *)
Definition truthy_string (s : jsstring) : bool :=
  match s with [] => false | _ => true end.

Definition truthy (v : JsValue) : bool :=
  match v with
  | JsUndefined | JsNull => false
  | JsBoolean b => b
  | JsNumber q => negb (Qeq_bool q 0)
  | JsString s => truthy_string s
  | JsObject => true
  end.

(** Truthiness of a [string | null | undefined] value. *)
Definition truthy_opt (o : option jsstring) : bool :=
  match o with Some s => truthy_string s | None => false end.

(** [a || b] on such values. *)
Definition js_or (a b : option jsstring) : option jsstring :=
  if truthy_opt a then a else b.

(** ** Numbers

    The decimal columns are [numeric(10, 2)]: fixed-point amounts with
    two fractional digits and at most eight digits before the point.  A
    [decimal] is the amount in hundredths, so a column holds a [decimal]
    of absolute value below 10^10.  JavaScript numbers are doubles; they
    are written as the rationals they stand for, and an operation is
    written without its rounding error.  For the one computation made
    with them, [Math.round(amount * 100)], this gives the result of the
    doubles for every amount a column can hold (the error of the
    conversion and of the product stays below 10^-5 there, far from the
    next half); it does not for amounts beyond 2^53 hundredths, where not
    every integer is a double. *)
Definition decimal := Z.

(** The amounts a [numeric(10, 2)] column can hold. *)
Definition numeric_10_2 (d : decimal) : Prop := Z.abs d < 10 ^ 10.

(** [Number(d)] for the text of a decimal column. *)
Definition Number (d : decimal) : Q := Qmake d 100.

(** [Math.round]: the nearest integer, ties towards +infinity. *)
Definition Math_round (x : Q) : Z := Qfloor (Qplus x (Qmake 1 2)).

Definition truthy_number (o : option Q) : bool :=
  match o with Some q => negb (Qeq_bool q 0) | None => false end.

(** *** [Number(text)]

    StringToNumber of ECMAScript: white space around the literal is
    dropped, the empty text is zero, and the literal is a decimal one
    (sign, digits, point, exponent, or [Infinity]) or an unsigned
    binary, octal or hexadecimal integer; every other text is [NaN].  The
    value of a literal is kept as written, [digits * 10 ^ exponent], not
    yet rounded to a double. *)
Inductive NumericValue :=
| NaN
| Infinity (negative : bool)
| Finite (negative : bool) (digits : N) (exponent : Z).

Definition is_digit (c : N) : bool := N.leb 48 c && N.leb c 57.

(** The value of a digit in a base up to sixteen. *)
Definition digit_of (radix c : N) : option N :=
  let v :=
    if N.leb 48 c && N.leb c 57 then Some (c - 48)%N
    else if N.leb 65 c && N.leb c 70 then Some (c - 55)%N
    else if N.leb 97 c && N.leb c 102 then Some (c - 87)%N
    else None in
  match v with
  | Some v => if N.ltb v radix then Some v else None
  | None => None
  end.

Fixpoint digits_value (radix acc : N) (s : jsstring) : option N :=
  match s with
  | [] => Some acc
  | c :: s' =>
      match digit_of radix c with
      | Some v => digits_value radix (acc * radix + v)%N s'
      | None => None
      end
  end.

(** The longest prefix of decimal digits, and what follows it. *)
Fixpoint span_digits (s : jsstring) : jsstring * jsstring :=
  match s with
  | c :: s' =>
      if is_digit c
      then let (ds, rest) := span_digits s' in (c :: ds, rest)
      else ([], s)
  | [] => ([], [])
  end.

Definition decimal_value (ds : jsstring) : N :=
  fold_left (fun acc c => (acc * 10 + (c - 48))%N) ds 0%N.

(** ExponentPart, or nothing: [e] or [E], a sign, digits. *)
Definition exponent_part (s : jsstring) : option Z :=
  match s with
  | [] => Some 0
  | c :: s' =>
      if N.eqb c 101 || N.eqb c 69 then
        let signed :=
          match s' with
          | sign :: ds =>
              if N.eqb sign 43 then (false, ds)
              else if N.eqb sign 45 then (true, ds)
              else (false, s')
          | [] => (false, [])
          end in
        match span_digits (snd signed) with
        | (d :: ds, []) =>
            let e := Z.of_N (decimal_value (d :: ds)) in
            Some (if fst signed then - e else e)
        | _ => None
        end
      else None
  end.

(** StrUnsignedDecimalLiteral. *)
Definition unsigned_decimal (negative : bool) (s : jsstring) : NumericValue :=
  if bool_decide (s = str "Infinity") then Infinity negative
  else
    let (whole, rest) := span_digits s in
    let fraction :=
      match rest with
      | c :: rest' => if N.eqb c 46 then span_digits rest' else ([], rest)
      | [] => ([], [])
      end in
    match whole ++ fst fraction with
    | [] => NaN
    | d :: ds =>
        match exponent_part (snd fraction) with
        | Some e =>
            Finite negative (decimal_value (d :: ds))
              (e - Z.of_nat (length (fst fraction)))
        | None => NaN
        end
    end.

(** The radix of a literal that starts with [0b], [0o] or [0x]. *)
Definition radix_of (c : N) : option N :=
  if N.eqb c 98 || N.eqb c 66 then Some 2%N
  else if N.eqb c 111 || N.eqb c 79 then Some 8%N
  else if N.eqb c 120 || N.eqb c 88 then Some 16%N
  else None.

Definition StringToNumber (s : jsstring) : NumericValue :=
  match trim s with
  | [] => Finite false 0 0
  | c :: t =>
      if N.eqb c 43 then unsigned_decimal false t
      else if N.eqb c 45 then unsigned_decimal true t
      else
        match (if N.eqb c 48 then t else []) with
        | p :: ds =>
            match radix_of p, ds with
            | Some radix, _ :: _ =>
                match digits_value radix 0 ds with
                | Some v => Finite false v 0
                | None => NaN
                end
            | Some _, [] => NaN
            | None, _ => unsigned_decimal false (c :: t)
            end
        | [] => unsigned_decimal false (c :: t)
        end
  end.

(** [!isNaN(x) && x > 0] for [x] the double of a value.  A value rounds
    to a double above zero when it is above 2^-1075, half of the smallest
    double; a large value rounds to a large double or to [Infinity]. *)
Definition is_positive_number (v : NumericValue) : bool :=
  match v with
  | NaN => false
  | Infinity negative => negb negative
  | Finite negative digits exponent =>
      negb negative
      && (if 0 <=? exponent
          then negb (N.eqb digits 0)
          else 10 ^ (- exponent) <? Z.of_N digits * 2 ^ 1075)
  end.

(** ** Rows of the [bids] and [bid_history] tables *)

Definition Date := Z.

Record Bid := mkBid {
  id : jsstring;
  customerId : jsstring;
  lotNumber : jsstring;
  maxBidAmount : decimal;
  serviceFee : decimal;
  depositAmount : decimal;
  totalPaid : decimal;
  status : jsstring;
  stripePaymentIntentId : option jsstring;
  stripeDepositRefundId : option jsstring;
  stripeFeeRefundId : option jsstring;
  isRefunded : bool;
  approvedBy : option jsstring;
  approvedAt : option Date;
  rejectedBy : option jsstring;
  rejectedAt : option Date;
  notes : option jsstring;
  createdAt : Date;
  updatedAt : Date
}.

Record BidHistory := mkBidHistory {
  h_id : jsstring;
  h_bidId : jsstring;
  previousStatus : option jsstring;
  newStatus : jsstring;
  changedBy : jsstring;
  h_notes : option jsstring;
  h_createdAt : Date
}.

(** One [column: value] pair of the object given to drizzle's [.set]. *)
Inductive BidSet :=
| set_status (v : jsstring)
| set_notes (v : option jsstring)
| set_updatedAt (v : Date)
| set_approvedBy (v : jsstring)
| set_approvedAt (v : Date)
| set_rejectedBy (v : jsstring)
| set_rejectedAt (v : Date)
| set_stripePaymentIntentId (v : jsstring)
| set_stripeDepositRefundId (v : jsstring)
| set_stripeFeeRefundId (v : jsstring)
| set_isRefunded (v : bool).

Definition assign (a : BidSet) (b : Bid) : Bid :=
  let '(mkBid i c l m sf d t st pi dr fr r ab aa rb ra n ca ua) := b in
  match a with
  | set_status v => mkBid i c l m sf d t v pi dr fr r ab aa rb ra n ca ua
  | set_notes v => mkBid i c l m sf d t st pi dr fr r ab aa rb ra v ca ua
  | set_updatedAt v => mkBid i c l m sf d t st pi dr fr r ab aa rb ra n ca v
  | set_approvedBy v =>
      mkBid i c l m sf d t st pi dr fr r (Some v) aa rb ra n ca ua
  | set_approvedAt v =>
      mkBid i c l m sf d t st pi dr fr r ab (Some v) rb ra n ca ua
  | set_rejectedBy v =>
      mkBid i c l m sf d t st pi dr fr r ab aa (Some v) ra n ca ua
  | set_rejectedAt v =>
      mkBid i c l m sf d t st pi dr fr r ab aa rb (Some v) n ca ua
  | set_stripePaymentIntentId v =>
      mkBid i c l m sf d t st (Some v) dr fr r ab aa rb ra n ca ua
  | set_stripeDepositRefundId v =>
      mkBid i c l m sf d t st pi (Some v) fr r ab aa rb ra n ca ua
  | set_stripeFeeRefundId v =>
      mkBid i c l m sf d t st pi dr (Some v) r ab aa rb ra n ca ua
  | set_isRefunded v => mkBid i c l m sf d t st pi dr fr v ab aa rb ra n ca ua
  end.

(** The whole [.set({...})] object, keys applied in order. *)
Definition assign_all (sets : list BidSet) (b : Bid) : Bid :=
  fold_left (fun acc a => assign a acc) sets b.

(** ** The payment gateway *)

Record Exn := mkExn { name : jsstring; message : jsstring }.

(** [new Error(msg)]. *)
Definition Error (msg : string) : Exn := mkExn (str "Error") (str msg).

Record PaymentIntent := mkPaymentIntent {
  pi_id : jsstring;
  client_secret : option jsstring
}.

Record Refund := mkRefund { refund_id : jsstring }.

(** The requests the server sends to the gateway.  Amounts are in minor
    currency units; a refund without amount is a full refund.  The
    constant [automatic_payment_methods: { enabled: true }] of an intent
    creation is left out. *)
Inductive StripeRequest :=
| paymentIntents_create
    (amount : Z) (currency : jsstring) (metadata : list (jsstring * jsstring))
| paymentIntents_retrieve (paymentIntentId : jsstring)
| refunds_create (payment_intent : jsstring) (amount : option Z).

(** The third-party client.  Its answer to a request may depend on every
    request made before; any answer, failure included, is possible. *)
Record StripeClient := mkStripeClient {
  on_paymentIntents_create :
    list StripeRequest -> Z -> jsstring -> list (jsstring * jsstring) ->
    Exn + PaymentIntent;
  on_paymentIntents_retrieve :
    list StripeRequest -> jsstring -> Exn + PaymentIntent;
  on_refunds_create :
    list StripeRequest -> jsstring -> option Z -> Exn + Refund
}.

(** ** The world *)

(** The tables, the time and the requests sent to the gateway.  [clock]
    is the time the next reading of the clock gives; [ticks] holds, for
    the readings to come, the time that passes between a reading and the
    next one (zero when two readings fall into the same millisecond; no
    time passes once the list is used up). *)
Record World := mkWorld {
  bids : list Bid;
  bidHistory : list BidHistory;
  uuids : nat;                      (* ids handed out so far *)
  clock : Date;
  stripe_log : list StripeRequest;  (* requests sent, oldest first *)
  ticks : list Z
}.

(** The time a reading gives after [n] earlier readings. *)
Fixpoint time_after (n : nat) (now : Date) (ts : list Z) : Date :=
  match n with
  | O => now
  | S n' => time_after n' (now + hd 0 ts) (tl ts)
  end.

Definition clock_after (n : nat) (w : World) : Date :=
  time_after n (clock w) (ticks w).

Definition ticks_after (n : nat) (w : World) : list Z :=
  Nat.iter n (@tl Z) (ticks w).

(** The time of the reading after the next one. *)
Definition later (w : World) : Date := clock w + hd 0 (ticks w).

(** What the process is started with: the gateway client ([null] when
    STRIPE_SECRET_KEY is unset), and the database: its id generator, and
    what it stores for a text that is written to a column of type
    [varchar(n)] or [numeric(10, 2)].  The database is PostgreSQL; it
    refuses ([None]) a text that is too long for a [varchar(n)] column
    and a text that is no number, or too large a number, for a
    [numeric(10, 2)] column, and it stores a number rounded to two
    fractional digits. *)
Record Env := mkEnv {
  stripe : option StripeClient;
  gen_random_uuid : nat -> jsstring;
  varchar : nat -> jsstring -> option jsstring;
  numeric : jsstring -> option decimal
}.

(** ** State and exceptions *)

Definition M (A : Type) : Type := World -> (Exn + A) * World.

Definition ret {A} (a : A) : M A := fun w => (inr a, w).

Definition throw {A} (e : Exn) : M A := fun w => (inl e, w).

Definition bind {A B} (m : M A) (k : A -> M B) : M B :=
  fun w =>
    match m w with
    | (inr a, w') => k a w'
    | (inl e, w') => (inl e, w')
    end.

(** [let* x := m in k] reads [const x = await m; k]. *)
Notation "'let*' x ':=' m 'in' k" := (bind m (fun x => k))
  (at level 10, x name, m at level 200, k at level 200).

(** [new Date()] and the database's [now()]: a reading of the clock. *)
Definition new_Date : M Date :=
  fun w =>
    (inr (clock w),
     mkWorld (bids w) (bidHistory w) (uuids w) (later w) (stripe_log w)
       (tl (ticks w))).

Definition next_uuid (gen : nat -> jsstring) : M jsstring :=
  fun w =>
    (inr (gen (uuids w)),
     mkWorld (bids w) (bidHistory w) (S (uuids w)) (clock w) (stripe_log w)
       (ticks w)).

Definition set_bids (rows : list Bid) : M unit :=
  fun w =>
    (inr tt,
     mkWorld rows (bidHistory w) (uuids w) (clock w) (stripe_log w)
       (ticks w)).

Definition set_bidHistory (rows : list BidHistory) : M unit :=
  fun w =>
    (inr tt,
     mkWorld (bids w) rows (uuids w) (clock w) (stripe_log w) (ticks w)).

Definition get_bids : M (list Bid) := fun w => (inr (bids w), w).

Definition get_bidHistory : M (list BidHistory) :=
  fun w => (inr (bidHistory w), w).

(** Sends a request: it is logged, then answered by the client. *)
Definition send {A} (rq : StripeRequest)
    (answer : list StripeRequest -> Exn + A) : M A :=
  fun w =>
    (answer (stripe_log w),
     mkWorld (bids w) (bidHistory w) (uuids w) (clock w)
       (stripe_log w ++ [rq]) (ticks w)).

(** ** Queries on the tables (drizzle) *)

(** [.where(eq(bids.id, bidId))]. *)
Definition where_id (bidId : jsstring) (rows : list Bid) : list Bid :=
  filter (fun b => id b = bidId) rows.

(** [db.update(bids).set(sets).where(eq(bids.id, bidId))]. *)
Definition update_where_id (sets : list BidSet) (bidId : jsstring)
    (rows : list Bid) : list Bid :=
  List.map (fun b => if decide (id b = bidId) then assign_all sets b else b)
    rows.

(** [db.delete(bids).where(eq(bids.id, bidId))]. *)
Definition delete_where_id (bidId : jsstring) (rows : list Bid) : list Bid :=
  filter (fun b => id b <> bidId) rows.

(** The [bidId] of a history row is declared as
    [references(() => bids.id, { onDelete: "cascade" })]: the rows that
    reference a deleted bid are deleted with it. *)
Definition cascade_bidHistory (deleted : list Bid)
    (rows : list BidHistory) : list BidHistory :=
  filter (fun h => h_bidId h ∉ List.map id deleted) rows.

(** [.orderBy(desc(bidHistory.createdAt))]. *)
Definition desc_createdAt (a b : BidHistory) : Prop :=
  h_createdAt b <= h_createdAt a.

#[local] Instance desc_createdAt_dec a b : Decision (desc_createdAt a b).
Proof. unfold desc_createdAt. apply _. Defined.

Definition orderBy_desc_createdAt (rows : list BidHistory) : list BidHistory :=
  merge_sort desc_createdAt rows.

Definition desc_bid_createdAt (a b : Bid) : Prop :=
  createdAt b <= createdAt a.

#[local] Instance desc_bid_createdAt_dec a b :
  Decision (desc_bid_createdAt a b).
Proof. unfold desc_bid_createdAt. apply _. Defined.

Definition orderBy_desc_bid_createdAt (rows : list Bid) : list Bid :=
  merge_sort desc_bid_createdAt rows.

(** The default of the [serviceFee] column, [.default("215.00")]. *)
Definition default_serviceFee : decimal := 21500.

(** The values the route gives to [db.insert(bids)]:
    [{ ...validatedData, customerId, status, isRefunded }].  The amounts
    are texts; the service fee may be absent, the notes may be absent or
    [null]. *)
Record BidValues := mkBidValues {
  v_customerId : jsstring;
  v_lotNumber : jsstring;
  v_maxBidAmount : jsstring;
  v_serviceFee : option jsstring;
  v_depositAmount : jsstring;
  v_totalPaid : jsstring;
  v_status : jsstring;
  v_notes : option (option jsstring);
  v_isRefunded : bool
}.

(** The error of the database driver: its name is not [ZodError]. *)
Definition DatabaseError (msg : string) : Exn := mkExn (str "error") (str msg).

(** The values given to [db.insert(bidHistory)]. *)
Record BidHistoryValues := mkBidHistoryValues {
  e_bidId : jsstring;
  e_previousStatus : option jsstring;
  e_newStatus : jsstring;
  e_changedBy : jsstring;
  e_notes : option jsstring
}.

(** [updateBidPaymentInfo]'s second argument: every key is optional. *)
Record PaymentInfo := mkPaymentInfo {
  p_stripePaymentIntentId : option jsstring;
  p_stripeDepositRefundId : option jsstring;
  p_stripeFeeRefundId : option jsstring;
  p_isRefunded : option bool
}.

(** [...paymentInfo]: the keys that are present. *)
Definition spread (p : PaymentInfo) : list BidSet :=
  match p_stripePaymentIntentId p with
  | Some v => [set_stripePaymentIntentId v] | None => [] end ++
  match p_stripeDepositRefundId p with
  | Some v => [set_stripeDepositRefundId v] | None => [] end ++
  match p_stripeFeeRefundId p with
  | Some v => [set_stripeFeeRefundId v] | None => [] end ++
  match p_isRefunded p with
  | Some v => [set_isRefunded v] | None => [] end.

(** [bid.status] and [bid.notes], for use where a parameter of the same
    name is in scope. *)
Definition Bid_status : Bid -> jsstring := status.
Definition Bid_notes : Bid -> option jsstring := notes.

Section Server.

Variable env : Env.

(** ** [DatabaseStorage] *)

(** What the database stores for the values of an insertion into
    [bids], column by column: the lot number is a [varchar(100)], the
    four amounts are [numeric(10, 2)], an absent service fee takes the
    default of its column.  [None] when a value is refused. *)
Definition stored_lotNumber (bidData : BidValues) : option jsstring :=
  varchar env 100 (v_lotNumber bidData).

Definition stored_serviceFee (bidData : BidValues) : option decimal :=
  match v_serviceFee bidData with
  | Some fee => numeric env fee
  | None => Some default_serviceFee
  end.

(** [db.insert(bids).values(bidData).returning()]: the statement fails
    when one of the values is refused; otherwise the row gets its id and
    its two timestamps from the database, and the columns that are not
    given start as NULL. *)
Definition createBid (bidData : BidValues) : M Bid :=
  match stored_lotNumber bidData, numeric env (v_maxBidAmount bidData),
        stored_serviceFee bidData, numeric env (v_depositAmount bidData),
        numeric env (v_totalPaid bidData) with
  | Some lot, Some amount, Some fee, Some deposit, Some total =>
      let* uuid := next_uuid (gen_random_uuid env) in
      let* now := new_Date in
      let bid :=
        mkBid uuid (v_customerId bidData) lot amount fee deposit total
          (v_status bidData) None None None (v_isRefunded bidData)
          None None None None (default None (v_notes bidData))
          now now in
      let* rows := get_bids in
      let* _ := set_bids (rows ++ [bid]) in
      ret bid
  | _, _, _, _, _ =>
      throw (DatabaseError "value refused by the type of its column")
  end.

Definition getBid (bidId : jsstring) : M (option Bid) :=
  let* rows := get_bids in
  ret (head (where_id bidId rows)).

Definition getBidsByCustomer (customer : jsstring) : M (list Bid) :=
  let* rows := get_bids in
  ret (orderBy_desc_bid_createdAt
         (filter (fun b => customerId b = customer) rows)).

Definition getAllBids : M (list Bid) :=
  let* rows := get_bids in
  ret (orderBy_desc_bid_createdAt rows).

(** [db.update(bids).set(sets).where(eq(bids.id, bidId)).returning()]. *)
Definition update_bids (sets : list BidSet) (bidId : jsstring)
    : M (list Bid) :=
  let* rows := get_bids in
  let rows' := update_where_id sets bidId rows in
  let* _ := set_bids rows' in
  ret (where_id bidId rows').

Definition createBidHistoryEntry (entry : BidHistoryValues) : M BidHistory :=
  let* uuid := next_uuid (gen_random_uuid env) in
  let* now := new_Date in
  let historyEntry :=
    mkBidHistory uuid (e_bidId entry) (e_previousStatus entry)
      (e_newStatus entry) (e_changedBy entry) (e_notes entry) now in
  let* rows := get_bidHistory in
  let* _ := set_bidHistory (rows ++ [historyEntry]) in
  ret historyEntry.

Definition getBidHistory (bidId : jsstring) : M (list BidHistory) :=
  let* rows := get_bidHistory in
  ret (orderBy_desc_createdAt (filter (fun h => h_bidId h = bidId) rows)).

Definition updateBidStatus (bidId status employeeId : jsstring)
    (notes : option jsstring) : M (option Bid) :=
  let* currentBid := getBid bidId in
  match currentBid with
  | None => ret None
  | Some currentBid =>
      let* now := new_Date in
      let* updated :=
        update_bids
          [set_status status;
           set_notes (js_or notes (Bid_notes currentBid));
           set_updatedAt now]
          bidId in
      let* _ :=
        createBidHistoryEntry
          (mkBidHistoryValues bidId (Some (Bid_status currentBid))
             status employeeId notes) in
      ret (head updated)
  end.

Definition approveBid (bidId employeeId : jsstring) : M (option Bid) :=
  let* currentBid := getBid bidId in
  match currentBid with
  | None => ret None
  | Some currentBid =>
      let* now1 := new_Date in
      let* now2 := new_Date in
      let* updated :=
        update_bids
          [set_status (str "approved");
           set_approvedBy employeeId;
           set_approvedAt now1;
           set_updatedAt now2]
          bidId in
      let* _ :=
        createBidHistoryEntry
          (mkBidHistoryValues bidId (Some (status currentBid))
             (str "approved") employeeId
             (Some (str "Bid approved by employee"))) in
      ret (head updated)
  end.

Definition rejectBid (bidId employeeId notes : jsstring) : M (option Bid) :=
  let* currentBid := getBid bidId in
  match currentBid with
  | None => ret None
  | Some currentBid =>
      let* now1 := new_Date in
      let* now2 := new_Date in
      let* updated :=
        update_bids
          [set_status (str "rejected");
           set_rejectedBy employeeId;
           set_rejectedAt now1;
           set_notes (Some notes);
           set_updatedAt now2]
          bidId in
      let* _ :=
        createBidHistoryEntry
          (mkBidHistoryValues bidId (Some (status currentBid))
             (str "rejected") employeeId (Some notes)) in
      ret (head updated)
  end.

Definition updateBidPaymentInfo (bidId : jsstring)
    (paymentInfo : PaymentInfo) : M (option Bid) :=
  let* now := new_Date in
  let* updated := update_bids (spread paymentInfo ++ [set_updatedAt now]) bidId in
  ret (head updated).

Definition deleteBid (bidId : jsstring) : M unit :=
  let* rows := get_bids in
  let* _ := set_bids (delete_where_id bidId rows) in
  let* history := get_bidHistory in
  set_bidHistory (cascade_bidHistory (where_id bidId rows) history).

(** ** [StripeService] *)

Definition createPaymentIntent (amount : Q) (currency : jsstring)
    (metadata : list (jsstring * jsstring)) : M PaymentIntent :=
  match stripe env with
  | None => throw (Error "Stripe not configured")
  | Some client =>
      let cents := Math_round (Qmult amount (inject_Z 100)) in
      send (paymentIntents_create cents currency metadata)
        (fun log => on_paymentIntents_create client log cents currency metadata)
  end.

Definition createRefund (paymentIntentId : jsstring) (amount : option Q)
    : M Refund :=
  match stripe env with
  | None => throw (Error "Stripe not configured")
  | Some client =>
      let cents :=
        if truthy_number amount
        then option_map (fun a => Math_round (Qmult a (inject_Z 100))) amount
        else None in
      send (refunds_create paymentIntentId cents)
        (fun log => on_refunds_create client log paymentIntentId cents)
  end.

Definition getPaymentIntent (paymentIntentId : jsstring) : M PaymentIntent :=
  match stripe env with
  | None => throw (Error "Stripe not configured")
  | Some client =>
      send (paymentIntents_retrieve paymentIntentId)
        (fun log => on_paymentIntents_retrieve client log paymentIntentId)
  end.

Definition refundBidPayment (bidId : jsstring) : M Refund :=
  let* bid := getBid bidId in
  match bid with
  | None => throw (Error "Bid not found")
  | Some bid =>
      match stripePaymentIntentId bid with
      | Some paymentIntentId =>
          if truthy_string paymentIntentId then
            if isRefunded bid
            then throw (Error "This bid has already been refunded")
            else
              let* refund := createRefund paymentIntentId None in
              let* _ :=
                updateBidPaymentInfo bidId
                  (mkPaymentInfo None (Some (refund_id refund))
                     (Some (refund_id refund)) (Some true)) in
              ret refund
          else throw (Error "No payment found for this bid")
      | None => throw (Error "No payment found for this bid")
      end
  end.

End Server.

(** ** HTTP responses *)

Inductive Json :=
| json_message (msg : jsstring)
| json_message_errors (msg : jsstring)
| json_bid (bid : option Bid)
| json_bids (rows : list Bid)
| json_history (rows : list BidHistory)
| json_clientSecret (clientSecret : option jsstring)
| json_message_refund (msg : jsstring) (refund : Refund).

Record Response := mkResponse { statusCode : Z; json : Json }.

(** [res.status(code).json(body)] and [res.json(body)]. *)
Definition res_status_json (code : Z) (body : Json) : Response :=
  mkResponse code body.

Definition res_json (body : Json) : Response := mkResponse 200 body.

(** [res.status(code).json({ message: msg })]. *)
Definition message_json (code : Z) (msg : string) : Response :=
  res_status_json code (json_message (str msg)).

(** A request handler after the authentication middleware: it always
    answers. *)
Definition Handler := World -> Response * World.

(** [try { body } catch (error) { handler }]. *)
Definition try_catch (body : M Response) (handler : Exn -> Response)
    : Handler :=
  fun w =>
    match body w with
    | (inr r, w') => (r, w')
    | (inl error, w') => (handler error, w')
    end.

(** Lifts a validator ([schema.parse]) into the monad. *)
Definition parse {Body A} (schema : Body -> Exn + A) (body : Body) : M A :=
  fun w => (schema body, w).

Definition ZodError : Exn := mkExn (str "ZodError") (str "Invalid input").

Definition TypeError (msg : string) : Exn := mkExn (str "TypeError") (str msg).

(** The values of the [z.enum] of [updateBidStatusSchema]. *)
Definition bidStatusEnum : list jsstring :=
  [str "pending"; str "approved"; str "rejected"; str "winning";
   str "outbid"; str "won"; str "lost"].

(** The body of a status update. *)
Record StatusBody := mkStatusBody {
  body_status : JsValue;
  body_notes : JsValue
}.

(** [z.object({ status: z.enum([...]), notes: z.string().optional() })]:
    the validated status and notes. *)
Definition updateBidStatusSchema (body : StatusBody)
    : Exn + (jsstring * option jsstring) :=
  match body_status body with
  | JsString s =>
      if bool_decide (s ∈ bidStatusEnum) then
        match body_notes body with
        | JsUndefined => inr (s, None)
        | JsString n => inr (s, Some n)
        | _ => inl ZodError
        end
      else inl ZodError
  | _ => inl ZodError
  end.

(** The body of a request for a new bid: the keys the schema reads
    (other keys are stripped). *)
Record BidBody := mkBidBody {
  body_customerId : JsValue;
  body_lotNumber : JsValue;
  body_maxBidAmount : JsValue;
  body_serviceFee : JsValue;
  body_depositAmount : JsValue;
  body_totalPaid : JsValue;
  body_bid_status : JsValue;
  body_bid_notes : JsValue
}.

(** [InsertBid], the validated data of [insertBidSchema]. *)
Record InsertBid := mkInsertBid {
  i_customerId : jsstring;
  i_lotNumber : jsstring;
  i_maxBidAmount : jsstring;
  i_serviceFee : option jsstring;
  i_depositAmount : jsstring;
  i_totalPaid : jsstring;
  i_status : option jsstring;
  i_notes : option (option jsstring)
}.

(** [z.string()], with a smallest and a largest length where given. *)
Definition z_string (least : nat) (most : option nat) (v : JsValue)
    : option jsstring :=
  match v with
  | JsString s =>
      if bool_decide (least <= length s)%nat
         && match most with
            | Some n => bool_decide (length s <= n)%nat
            | None => true
            end
      then Some s
      else None
  | _ => None
  end.

(** [schema.optional()]: the key may be absent. *)
Definition z_optional {A} (schema : JsValue -> option A) (v : JsValue)
    : option (option A) :=
  match v with
  | JsUndefined => Some None
  | _ => option_map Some (schema v)
  end.

(** [schema.nullable()]: the key may hold [null]. *)
Definition z_nullable {A} (schema : JsValue -> option A) (v : JsValue)
    : option (option A) :=
  match v with
  | JsNull => Some None
  | _ => option_map Some (schema v)
  end.

(** [createInsertSchema(bids).omit({...}).extend({ lotNumber,
    maxBidAmount })].  The schema made from the table reads every column
    that is left as a string, with the length of a [varchar(n)] as the
    largest length; a column with a default may be absent, a nullable
    column may be absent or [null].  The two overrides ask for a lot
    number that is not empty and for a max bid amount that
    [Number] reads as a number above zero. *)
Definition insertBidSchema (body : BidBody) : Exn + InsertBid :=
  match z_string 0 None (body_customerId body),
        z_string 1 None (body_lotNumber body),
        z_string 0 None (body_maxBidAmount body),
        z_optional (z_string 0 None) (body_serviceFee body),
        z_string 0 None (body_depositAmount body),
        z_string 0 None (body_totalPaid body),
        z_optional (z_string 0 (Some 20%nat)) (body_bid_status body),
        z_optional (z_nullable (z_string 0 None)) (body_bid_notes body) with
  | Some customerId, Some lotNumber, Some maxBidAmount, Some serviceFee,
    Some depositAmount, Some totalPaid, Some status, Some notes =>
      if is_positive_number (StringToNumber maxBidAmount)
      then
        inr (mkInsertBid customerId lotNumber maxBidAmount serviceFee
               depositAmount totalPaid status notes)
      else inl ZodError
  | _, _, _, _, _, _, _, _ => inl ZodError
  end.

Section Routes.

Variable env : Env.

(** POST /api/customer/bids *)
Definition post_customer_bids (currentUser_id : jsstring) (body : BidBody)
    : Handler :=
  try_catch
    (let* validatedData := parse insertBidSchema body in
     let customerId := currentUser_id in
     let* bid :=
       createBid env
         (mkBidValues customerId (i_lotNumber validatedData)
            (i_maxBidAmount validatedData) (i_serviceFee validatedData)
            (i_depositAmount validatedData) (i_totalPaid validatedData)
            (str "pending") (i_notes validatedData) false) in
     ret (res_status_json 201 (json_bid (Some bid))))
    (fun error =>
       if bool_decide (name error = str "ZodError")
       then res_status_json 400 (json_message_errors (str "Invalid bid data"))
       else message_json 500 "Failed to create bid").

(** GET /api/customer/bids *)
Definition get_customer_bids (currentUser_id : jsstring) : Handler :=
  try_catch
    (let* customerBids := getBidsByCustomer currentUser_id in
     ret (res_json (json_bids customerBids)))
    (fun _ => message_json 500 "Failed to fetch bids").

(** POST /api/customer/bids/:bidId/create-payment-intent *)
Definition post_create_payment_intent (currentUser_id bidId : jsstring)
    : Handler :=
  try_catch
    (let* bid := getBid bidId in
     match bid with
     | None => ret (message_json 404 "Bid not found")
     | Some bid =>
         if bool_decide (customerId bid <> currentUser_id)
         then ret (message_json 403 "Forbidden")
         else
           let create :=
             let* paymentIntent :=
               createPaymentIntent env (Number (totalPaid bid)) (str "usd")
                 [(str "bidId", id bid);
                  (str "customerId", customerId bid);
                  (str "lotNumber", lotNumber bid)] in
             let* _ :=
               updateBidPaymentInfo bidId
                 (mkPaymentInfo (Some (pi_id paymentIntent)) None None None) in
             ret (res_json (json_clientSecret (client_secret paymentIntent)))
           in
           match stripePaymentIntentId bid with
           | Some paymentIntentId =>
               if truthy_string paymentIntentId then
                 let* existingIntent := getPaymentIntent env paymentIntentId in
                 ret (res_json
                        (json_clientSecret (client_secret existingIntent)))
               else create
           | None => create
           end
     end)
    (fun _ => message_json 500 "Failed to create payment intent").

(** POST /api/employee/bids/:bidId/refund *)
Definition post_refund (bidId : jsstring) : Handler :=
  try_catch
    (let* bid := getBid bidId in
     match bid with
     | None => ret (message_json 404 "Bid not found")
     | Some bid =>
         if bool_decide (status bid <> str "outbid")
            && bool_decide (status bid <> str "lost")
         then ret (message_json 400 "Only outbid or lost bids can be refunded")
         else
           if isRefunded bid
           then ret (message_json 400 "Bid has already been refunded")
           else
             let* refund := refundBidPayment env bidId in
             ret (res_json
                    (json_message_refund
                       (str "Refund processed successfully") refund))
     end)
    (fun error =>
       res_status_json 500
         (json_message
            (if truthy_string (message error)
             then message error
             else str "Failed to process refund"))).

(** GET /api/customer/bids/:bidId *)
Definition get_customer_bid (currentUser_id bidId : jsstring) : Handler :=
  try_catch
    (let* bid := getBid bidId in
     match bid with
     | None => ret (message_json 404 "Bid not found")
     | Some bid =>
         if bool_decide (customerId bid <> currentUser_id)
         then ret (message_json 403 "Forbidden")
         else ret (res_json (json_bid (Some bid)))
     end)
    (fun _ => message_json 500 "Failed to fetch bid").

(** GET /api/customer/bids/:bidId/history *)
Definition get_customer_bid_history (currentUser_id bidId : jsstring)
    : Handler :=
  try_catch
    (let* bid := getBid bidId in
     match bid with
     | None => ret (message_json 404 "Bid not found")
     | Some bid =>
         if bool_decide (customerId bid <> currentUser_id)
         then ret (message_json 403 "Forbidden")
         else
           let* history := getBidHistory bidId in
           ret (res_json (json_history history))
     end)
    (fun _ => message_json 500 "Failed to fetch bid history").

(** GET /api/employee/bids *)
Definition get_employee_bids : Handler :=
  try_catch
    (let* allBids := getAllBids in
     ret (res_json (json_bids allBids)))
    (fun _ => message_json 500 "Failed to fetch bids").

(** POST /api/employee/bids/:bidId/approve *)
Definition post_approve (currentUser_id bidId : jsstring) : Handler :=
  try_catch
    (let employeeId := currentUser_id in
     let* bid := getBid bidId in
     match bid with
     | None => ret (message_json 404 "Bid not found")
     | Some bid =>
         if bool_decide (status bid <> str "pending")
         then ret (message_json 400 "Only pending bids can be approved")
         else
           let* approvedBid := approveBid env bidId employeeId in
           ret (res_json (json_bid approvedBid))
     end)
    (fun _ => message_json 500 "Failed to approve bid").

(** POST /api/employee/bids/:bidId/reject, with [notes] the value of
    [req.body.notes]. *)
Definition post_reject (currentUser_id bidId : jsstring) (notes : JsValue)
    : Handler :=
  try_catch
    (let employeeId := currentUser_id in
     if negb (truthy notes)
     then ret (message_json 400 "Rejection reason is required")
     else
       match notes with
       | JsString notes =>
           if negb (truthy_string (trim notes))
           then ret (message_json 400 "Rejection reason is required")
           else
             let* bid := getBid bidId in
             match bid with
             | None => ret (message_json 404 "Bid not found")
             | Some bid =>
                 if bool_decide (status bid <> str "pending")
                 then
                   ret (message_json 400 "Only pending bids can be rejected")
                 else
                   let* rejectedBid :=
                     rejectBid env bidId employeeId notes in
                   ret (res_json (json_bid rejectedBid))
             end
       | _ => throw (TypeError "notes.trim is not a function")
       end)
    (fun _ => message_json 500 "Failed to reject bid").

(** PATCH /api/employee/bids/:bidId/status *)
Definition patch_status (currentUser_id bidId : jsstring) (body : StatusBody)
    : Handler :=
  try_catch
    (let* validatedData := parse updateBidStatusSchema body in
     let employeeId := currentUser_id in
     let* bid := getBid bidId in
     match bid with
     | None => ret (message_json 404 "Bid not found")
     | Some bid =>
         let* updatedBid :=
           updateBidStatus env bidId (fst validatedData) employeeId
             (snd validatedData) in
         ret (res_json (json_bid updatedBid))
     end)
    (fun error =>
       if bool_decide (name error = str "ZodError")
       then
         res_status_json 400
           (json_message_errors (str "Invalid status update data"))
       else message_json 500 "Failed to update bid status").

(** DELETE /api/employee/bids/:bidId *)
Definition delete_bid (bidId : jsstring) : Handler :=
  try_catch
    (let* bid := getBid bidId in
     match bid with
     | None => ret (message_json 404 "Bid not found")
     | Some bid =>
         if bool_decide (status bid <> str "won")
            && bool_decide (status bid <> str "lost")
         then ret (message_json 400 "Only won or lost bids can be deleted")
         else
           let* _ := deleteBid bidId in
           ret (res_json (json_message (str "Bid deleted successfully")))
     end)
    (fun _ => message_json 500 "Failed to delete bid").

End Routes.

(** ** A concrete deployment, for running the model *)

(** Ids of the database: a prefix and the serial number as one digit. *)
Definition serial_uuid (n : nat) : jsstring := str "uuid-" ++ [N.of_nat (48 + n)].

(** A gateway that accepts everything; ids and secrets are numbered by the
    length of the request log. *)
Definition accepting_client : StripeClient :=
  mkStripeClient
    (fun log _ _ _ =>
       inr (mkPaymentIntent (str "pi_" ++ [N.of_nat (48 + length log)])
              (Some (str "pi_secret_" ++ [N.of_nat (48 + length log)]))))
    (fun _ paymentIntentId =>
       inr (mkPaymentIntent paymentIntentId
              (Some (str "secret_of_" ++ paymentIntentId))))
    (fun log _ _ =>
       inr (mkRefund (str "re_" ++ [N.of_nat (48 + length log)]))).

(** A gateway that rejects every call. *)
Definition StripeError : Exn :=
  mkExn (str "StripeAPIError") (str "The gateway rejected the call").

Definition rejecting_client : StripeClient :=
  mkStripeClient (fun _ _ _ _ => inl StripeError) (fun _ _ => inl StripeError)
    (fun _ _ _ => inl StripeError).

(** A database that keeps a text that fits its column, and reads an
    amount that is written as digits, with a point and one or two more
    digits if any, and has at most eight digits before the point. *)
Definition fits (n : nat) (s : jsstring) : option jsstring :=
  if bool_decide (length s <= n)%nat then Some s else None.

Definition plain_amount (s : jsstring) : option decimal :=
  let (whole, rest) := span_digits s in
  let hundredths :=
    match whole, rest with
    | [], _ => None
    | _, [] => Some 0%N
    | _, [dot; a] =>
        if N.eqb dot 46 && is_digit a
        then Some (decimal_value [a] * 10)%N else None
    | _, [dot; a; b] =>
        if N.eqb dot 46 && is_digit a && is_digit b
        then Some (decimal_value [a; b]) else None
    | _, _ => None
    end in
  match hundredths with
  | Some h =>
      let d := Z.of_N (decimal_value whole * 100 + h) in
      if d <? 10 ^ 10 then Some d else None
  | None => None
  end.

Definition live_env : Env :=
  mkEnv (Some accepting_client) serial_uuid fits plain_amount.
Definition failing_env : Env :=
  mkEnv (Some rejecting_client) serial_uuid fits plain_amount.
Definition unconfigured_env : Env := mkEnv None serial_uuid fits plain_amount.

(** In the examples a millisecond passes between two readings of the
    clock, unless said otherwise. *)
Definition steady : list Z := repeat 1 64.

Definition empty_world : World := mkWorld [] [] 0 1000 [] steady.

(** A bid on lot LOT-1 with a ceiling of 1000.00, in the given state. *)
Definition lot1_bid (st : string) (intent : option jsstring) (refunded : bool)
    (note : option jsstring) : Bid :=
  mkBid (str "bid-1") (str "customer-A") (str "LOT-1") 100000 21500 10000
    31500 (str st) intent None None refunded None None None None note 900 900.

Definition world_of (rows : list Bid) : World :=
  mkWorld rows [] 0 1000 [] steady.

(** A world in which the clock is read several times within one
    millisecond. *)
Definition swift_world_of (rows : list Bid) : World :=
  mkWorld rows [] 0 1000 [] [0; 0; 0; 1].

(** The body the new-bid page posts: the page computes the deposit and
    the total in the browser and posts them, as texts with two
    fractional digits, with the fee, the status and the id of the
    customer. *)
Definition posted_bid (customer lot amount fee deposit total : string)
    : BidBody :=
  mkBidBody (JsString (str customer)) (JsString (str lot))
    (JsString (str amount)) (JsString (str fee)) (JsString (str deposit))
    (JsString (str total)) (JsString (str "pending")) JsUndefined.

(** The values the route hands to [createBid]. *)
Definition values_of (customer : jsstring) (validatedData : InsertBid)
    : BidValues :=
  mkBidValues customer (i_lotNumber validatedData)
    (i_maxBidAmount validatedData) (i_serviceFee validatedData)
    (i_depositAmount validatedData) (i_totalPaid validatedData)
    (str "pending") (i_notes validatedData) false.

(** ** Blank rejection notes *)

Definition whitespace_only (s : jsstring) : bool := forallb is_js_whitespace s.

(** Notes that are missing, empty or made of white space only. *)
Definition blank_notes (v : JsValue) : bool :=
  match v with
  | JsUndefined | JsNull => true
  | JsString s => whitespace_only s
  | _ => false
  end.

(** The [notes] key of a request body: absent, or a string. *)
Definition notes_value (notes : option jsstring) : JsValue :=
  match notes with Some n => JsString n | None => JsUndefined end.

(** The metadata that tags a payment intent with its bid. *)
Definition intent_metadata (bid : Bid) : list (jsstring * jsstring) :=
  [(str "bidId", id bid);
   (str "customerId", customerId bid);
   (str "lotNumber", lotNumber bid)].

(** [round(0.10 * m, 2)] for an amount [m], both in hundredths. *)
Definition ten_percent (m : decimal) : decimal :=
  Math_round (Qmult (Qmake 1 10) (inject_Z m)).

(** ** The three status-changing operations, as one *)

Inductive StatusChange :=
| Approve
| Reject (notes : jsstring)
| Update (status : jsstring) (notes : option jsstring).

(** The status an operation writes fits its column, a [varchar(20)]:
    [approved] and [rejected] do, and so does every value of the enum
    that the route lets through; a generic update that is called with a
    longer status is refused by the database. *)
Definition fits_status (op : StatusChange) : Prop :=
  match op with
  | Approve | Reject _ => True
  | Update status _ => (length status <= 20)%nat
  end.

Definition change_status (env : Env) (op : StatusChange)
    (bidId employeeId : jsstring) : M (option Bid) :=
  match op with
  | Approve => approveBid env bidId employeeId
  | Reject notes => rejectBid env bidId employeeId notes
  | Update status notes => updateBidStatus env bidId status employeeId notes
  end.

(** Unfolds the monadic code of the storage layer and the adapter. *)
Ltac run_M :=
  cbv beta iota zeta delta
    [approveBid rejectBid updateBidStatus updateBidPaymentInfo deleteBid
     createBid getBid getBidHistory update_bids createBidHistoryEntry
     createRefund createPaymentIntent getPaymentIntent refundBidPayment
     bind ret throw parse new_Date next_uuid get_bids set_bids
     get_bidHistory set_bidHistory send try_catch
     later clock_after ticks_after time_after Nat.iter];
  cbn [bids bidHistory uuids clock stripe_log ticks
       e_bidId e_previousStatus e_newStatus e_changedBy e_notes
       v_customerId v_lotNumber v_maxBidAmount v_serviceFee v_depositAmount
       v_totalPaid v_status v_notes v_isRefunded].

(** ** Examples *)

(** Worlds and runs used as examples. *)
Definition bid1 : jsstring := str "bid-1".
Definition employee1 : jsstring := str "employee-1".
Definition customerA : jsstring := str "customer-A".

Definition pending_bid : Bid := lot1_bid "pending" None false None.
Definition pending_world : World := world_of [pending_bid].

Definition lost_paid_bid : Bid :=
  lot1_bid "lost" (Some (str "pi_9")) false None.
Definition lost_paid_world : World := world_of [lost_paid_bid].

Definition noted_bid : Bid :=
  lot1_bid "winning" None false (Some (str "call the customer")).
Definition noted_world : World := world_of [noted_bid].

(** pending -> won, in one generic status update. *)
Definition won_bid : option Bid :=
  Eval vm_compute in
    match fst (change_status live_env (Update (str "won") None) bid1
                 employee1 pending_world) with
    | inr b => b
    | inl _ => None
    end.
Definition won_world : World :=
  Eval vm_compute in
    snd (change_status live_env (Update (str "won") None) bid1 employee1
           pending_world).

Definition approved_response : Response :=
  Eval vm_compute in fst (post_approve live_env employee1 bid1 pending_world).
Definition approved_world : World :=
  Eval vm_compute in snd (post_approve live_env employee1 bid1 pending_world).

Definition rejected_response : Response :=
  Eval vm_compute in
    fst (post_reject live_env employee1 bid1
           (JsString (str "lot withdrawn")) pending_world).
Definition rejected_world : World :=
  Eval vm_compute in
    snd (post_reject live_env employee1 bid1
           (JsString (str "lot withdrawn")) pending_world).

Definition intent_response : Response :=
  Eval vm_compute in
    fst (post_create_payment_intent live_env customerA bid1 pending_world).
Definition intent_world : World :=
  Eval vm_compute in
    snd (post_create_payment_intent live_env customerA bid1 pending_world).

Definition refund_response : Response :=
  Eval vm_compute in fst (post_refund live_env bid1 lost_paid_world).
Definition refunded_world : World :=
  Eval vm_compute in snd (post_refund live_env bid1 lost_paid_world).

Definition refusing_world : World :=
  Eval vm_compute in
    snd (createRefund failing_env (str "pi_9") None lost_paid_world).

Definition deleted_response : Response :=
  Eval vm_compute in fst (delete_bid bid1 won_world).
Definition deleted_world : World :=
  Eval vm_compute in snd (delete_bid bid1 won_world).

Definition sold_bid : option Bid :=
  Eval vm_compute in
    match fst (updateBidStatus live_env bid1 (str "won") employee1
                 (Some (str "sold")) noted_world) with
    | inr b => b
    | inl _ => None
    end.
Definition sold_world : World :=
  Eval vm_compute in
    snd (updateBidStatus live_env bid1 (str "won") employee1
           (Some (str "sold")) noted_world).

(** The request of the scenario: lot LOT-1, a ceiling of 1000.00, and the
    amounts the client's form computes for it. *)
Definition lot1_form : BidBody :=
  posted_bid "customer-B" "LOT-1" "1000.00" "215.00" "100.00" "315.00".

(** ** Users and the audit log of employee accounts

    The [users] and [employee_actions] tables and the endpoints that work
    on them.  They share nothing with the bid endpoints, and are run on a
    store of their own. *)

Record User := mkUser {
  u_id : jsstring;
  email : option jsstring;
  firstName : option jsstring;
  lastName : option jsstring;
  profileImageUrl : option jsstring;
  userType : option jsstring;
  companyCode : option jsstring;
  idDocumentUrl : option jsstring;
  addressDocumentUrl : option jsstring;
  isVerified : bool;
  isActive : bool;
  u_createdAt : Date;
  u_updatedAt : Date
}.

Record EmployeeAction := mkEmployeeAction {
  a_id : jsstring;
  employeeId : jsstring;
  actionType : jsstring;
  performedBy : jsstring;
  a_notes : option jsstring;
  a_createdAt : Date
}.

(** The two tables, the ids handed out and the time: [a_clock] is the
    time the next reading of the clock gives, [a_ticks] the time that
    passes between a reading and the next one, for the readings to come. *)
Record Accounts := mkAccounts {
  users : list User;
  employeeActions : list EmployeeAction;
  a_uuids : nat;
  a_clock : Date;
  a_ticks : list Z
}.

Definition a_clock_after (n : nat) (w : Accounts) : Date :=
  time_after n (a_clock w) (a_ticks w).

Definition a_ticks_after (n : nat) (w : Accounts) : list Z :=
  Nat.iter n (@tl Z) (a_ticks w).

(** The time of the reading after the next one. *)
Definition a_later (w : Accounts) : Date := a_clock w + hd 0 (a_ticks w).

(** The object given to [upsertUser]: every key may be absent ([None]),
    and a present key of a nullable column may hold [null]. *)
Record UpsertUser := mkUpsertUser {
  d_id : option jsstring;
  d_email : option (option jsstring);
  d_firstName : option (option jsstring);
  d_lastName : option (option jsstring);
  d_profileImageUrl : option (option jsstring);
  d_userType : option (option jsstring);
  d_companyCode : option (option jsstring);
  d_idDocumentUrl : option (option jsstring);
  d_addressDocumentUrl : option (option jsstring);
  d_isVerified : option bool;
  d_isActive : option bool;
  d_createdAt : option Date;
  d_updatedAt : option Date
}.

(** The defaults of the columns of [users] that have one, apart from the
    id and the timestamps. *)
Record UserDefaults := mkUserDefaults {
  default_userType : option jsstring;
  default_isVerified : bool;
  default_isActive : bool
}.

(** The defaults the table is declared with: [.default("customer")],
    [.default(false)] and [.default(true)]. *)
Definition users_defaults : UserDefaults :=
  mkUserDefaults (Some (str "customer")) false true.

(** [...user]: every column of the row as a present key. *)
Definition spread_user (u : User) : UpsertUser :=
  mkUpsertUser (Some (u_id u)) (Some (email u)) (Some (firstName u))
    (Some (lastName u)) (Some (profileImageUrl u)) (Some (userType u))
    (Some (companyCode u)) (Some (idDocumentUrl u))
    (Some (addressDocumentUrl u)) (Some (isVerified u)) (Some (isActive u))
    (Some (u_createdAt u)) (Some (u_updatedAt u)).

(** [.set({ ...userData, updatedAt: now })] on a row: keys that are
    absent or undefined are skipped. *)
Definition set_user (d : UpsertUser) (now : Date) (u : User) : User :=
  mkUser (default (u_id u) (d_id d))
    (default (email u) (d_email d))
    (default (firstName u) (d_firstName d))
    (default (lastName u) (d_lastName d))
    (default (profileImageUrl u) (d_profileImageUrl d))
    (default (userType u) (d_userType d))
    (default (companyCode u) (d_companyCode d))
    (default (idDocumentUrl u) (d_idDocumentUrl d))
    (default (addressDocumentUrl u) (d_addressDocumentUrl d))
    (default (isVerified u) (d_isVerified d))
    (default (isActive u) (d_isActive d))
    (default (u_createdAt u) (d_createdAt d))
    now.

(** [.values(userData)] as a new row: absent keys take the default of
    their column. *)
Definition new_user (defaults : UserDefaults) (d : UpsertUser)
    (uuid : jsstring) (now : Date) : User :=
  mkUser (default uuid (d_id d))
    (default None (d_email d))
    (default None (d_firstName d))
    (default None (d_lastName d))
    (default None (d_profileImageUrl d))
    (default (default_userType defaults) (d_userType d))
    (default None (d_companyCode d))
    (default None (d_idDocumentUrl d))
    (default None (d_addressDocumentUrl d))
    (default (default_isVerified defaults) (d_isVerified d))
    (default (default_isActive defaults) (d_isActive d))
    (default now (d_createdAt d))
    (default now (d_updatedAt d)).

(** State and exceptions over the accounts. *)
Definition MA (A : Type) : Type := Accounts -> (Exn + A) * Accounts.

Definition retA {A} (a : A) : MA A := fun w => (inr a, w).

Definition bindA {A B} (m : MA A) (k : A -> MA B) : MA B :=
  fun w =>
    match m w with
    | (inr a, w') => k a w'
    | (inl e, w') => (inl e, w')
    end.

Notation "'let+' x ':=' m 'in' k" := (bindA m (fun x => k))
  (at level 10, x name, m at level 200, k at level 200).

Definition throwA {A} (e : Exn) : MA A := fun w => (inl e, w).

Definition new_DateA : MA Date :=
  fun w =>
    (inr (a_clock w),
     mkAccounts (users w) (employeeActions w) (a_uuids w) (a_later w)
       (tl (a_ticks w))).

Definition next_uuidA (gen : nat -> jsstring) : MA jsstring :=
  fun w =>
    (inr (gen (a_uuids w)),
     mkAccounts (users w) (employeeActions w) (S (a_uuids w)) (a_clock w)
       (a_ticks w)).

Definition get_users : MA (list User) := fun w => (inr (users w), w).

Definition set_users (rows : list User) : MA unit :=
  fun w =>
    (inr tt,
     mkAccounts rows (employeeActions w) (a_uuids w) (a_clock w)
       (a_ticks w)).

Definition get_employeeActions : MA (list EmployeeAction) :=
  fun w => (inr (employeeActions w), w).

Definition set_employeeActions (rows : list EmployeeAction) : MA unit :=
  fun w =>
    (inr tt,
     mkAccounts (users w) rows (a_uuids w) (a_clock w) (a_ticks w)).

(** [.where(eq(users.id, id))]. *)
Definition where_user_id (userId : jsstring) (rows : list User) : list User :=
  filter (fun u => u_id u = userId) rows.

(** [db.update(users).set(...).where(eq(users.id, id))]. *)
Definition update_users_where_id (f : User -> User) (userId : jsstring)
    (rows : list User) : list User :=
  List.map (fun u => if decide (u_id u = userId) then f u else u) rows.

(** The e-mails that are held by a row. *)
Definition emails (rows : list User) : list jsstring := omap email rows.

(** The constraints of the [users] table: the id is the primary key, and
    [email] is declared [.unique()] (two rows may both have none). *)
Definition users_constraints (rows : list User) : Prop :=
  NoDup (List.map u_id rows) /\ NoDup (emails rows).

#[local] Instance users_constraints_dec rows :
  Decision (users_constraints rows).
Proof. unfold users_constraints. apply _. Defined.

(** The values of a statement fit the columns of [users]: a user type
    that is given is a text of at most 20 units (the column is a
    [varchar(20)] and [notNull]), and a company code that is given has at
    most 50 (the column is a [varchar(50)]).  The database refuses
    values that do not fit. *)
Definition fits_users (d : UpsertUser) : Prop :=
  match d_userType d with
  | Some (Some type) => (length type <= 20)%nat
  | Some None => False
  | None => True
  end /\
  match d_companyCode d with
  | Some (Some code) => (length code <= 50)%nat
  | _ => True
  end.

(** The e-mail a statement writes to the row of a user is held by the
    row of another user. *)
Definition email_taken (userId : jsstring) (written : option jsstring)
    (rows : list User) : Prop :=
  exists address,
    written = Some address /\
    address ∈ emails (filter (fun u => u_id u <> userId) rows).

#[local] Instance email_taken_dec userId written rows :
  Decision (email_taken userId written rows).
Proof.
  unfold email_taken. destruct written as [address|].
  - destruct (decide (address
                      ∈ emails (filter (fun u => u_id u <> userId) rows)))
      as [Hin|Hnot].
    + left. now exists address.
    + right. intros (a & [= <-] & Hin). contradiction.
  - right. intros (a & Ha & _). discriminate.
Defined.

(** Writes the table a statement leads to, unless two of its rows hold
    the same e-mail: then the database refuses the statement.  (A table
    that breaks its own constraints is no state of the database; on such
    a table the statement is let through.) *)
Definition commit_users (rows' : list User) : MA unit :=
  let+ rows := get_users in
  if bool_decide (users_constraints rows)
     && negb (bool_decide (NoDup (emails rows')))
  then
    throwA
      (DatabaseError "duplicate key value violates unique constraint")
  else set_users rows'.

(** [.orderBy(desc(employeeActions.createdAt))]. *)
Definition desc_action_createdAt (a b : EmployeeAction) : Prop :=
  a_createdAt b <= a_createdAt a.

#[local] Instance desc_action_createdAt_dec a b :
  Decision (desc_action_createdAt a b).
Proof. unfold desc_action_createdAt. apply _. Defined.

(** The values given to [db.insert(employeeActions)]. *)
Record EmployeeActionValues := mkEmployeeActionValues {
  n_employeeId : jsstring;
  n_actionType : jsstring;
  n_performedBy : jsstring;
  n_notes : option jsstring
}.

(** [user.companyCode], for use where a parameter of the same name is in
    scope. *)
Definition User_companyCode : User -> option jsstring := companyCode.

(** The row written by [updateUserStatus]: the active flag and the update
    time are set. *)
Definition with_status (active : bool) (now : Date) (u : User) : User :=
  mkUser (u_id u) (email u) (firstName u) (lastName u) (profileImageUrl u)
    (userType u) (companyCode u) (idDocumentUrl u) (addressDocumentUrl u)
    (isVerified u) active (u_createdAt u) now.

Section AccountsServer.

Variable gen_uuid : nat -> jsstring.
Variable defaults : UserDefaults.

(** The order in which a query without [ORDER BY] returns the rows of
    [users] is up to the database (a row that was updated may come
    later than it did before): [scan] gives the rows in that order. *)
Variable scan : Accounts -> list User.

Definition getUser (userId : jsstring) : MA (option User) :=
  let+ rows := get_users in
  retA (head (where_user_id userId rows)).

(** [db.insert(users).values(userData).onConflictDoUpdate({ target:
    users.id, set: { ...userData, updatedAt: new Date() } }).returning()]:
    the row with the id of [userData] is updated when there is one, a new
    row is added otherwise.  The conflict target is the id alone: an
    e-mail that another row holds makes the statement fail. *)
Definition upsertUser (userData : UpsertUser) : MA (option User) :=
  let+ now := new_DateA in
  let+ userId :=
    match d_id userData with
    | Some userId => retA userId
    | None => next_uuidA gen_uuid
    end in
  let+ rows := get_users in
  match where_user_id userId rows with
  | [] =>
      let+ inserted := new_DateA in
      let user := new_user defaults userData userId inserted in
      let+ _ := commit_users (rows ++ [user]) in
      retA (Some user)
  | _ :: _ =>
      let rows' := update_users_where_id (set_user userData now) userId rows in
      let+ _ := commit_users rows' in
      retA (head (where_user_id userId rows'))
  end.

(** [db.select().from(users).where(eq(users.userType, userType))], with
    no [orderBy]. *)
Definition getUsersByType (type : jsstring) : MA (list User) :=
  fun w => (inr (filter (fun u => userType u = Some type) (scan w)), w).

Definition updateUserStatus (userId : jsstring) (active : bool)
    : MA (option User) :=
  let+ now := new_DateA in
  let+ rows := get_users in
  let rows' := update_users_where_id (with_status active now) userId rows in
  let+ _ := set_users rows' in
  retA (head (where_user_id userId rows')).

Definition createEmployeeAction (action : EmployeeActionValues)
    : MA EmployeeAction :=
  let+ uuid := next_uuidA gen_uuid in
  let+ now := new_DateA in
  let employeeAction :=
    mkEmployeeAction uuid (n_employeeId action) (n_actionType action)
      (n_performedBy action) (n_notes action) now in
  let+ rows := get_employeeActions in
  let+ _ := set_employeeActions (rows ++ [employeeAction]) in
  retA employeeAction.

Definition getEmployeeActions (employee : jsstring)
    : MA (list EmployeeAction) :=
  let+ rows := get_employeeActions in
  retA (merge_sort desc_action_createdAt
          (filter (fun a => employeeId a = employee) rows)).

End AccountsServer.

(** ** The account endpoints *)

Inductive AccountJson :=
| json_text (msg : jsstring)
| json_user (user : option User)
| json_users (rows : list User)
| json_actions (rows : list EmployeeAction).

Record AccountResponse := mkAccountResponse {
  a_statusCode : Z;
  a_json : AccountJson
}.

Definition text_json (code : Z) (msg : string) : AccountResponse :=
  mkAccountResponse code (json_text (str msg)).

Definition AccountHandler := Accounts -> AccountResponse * Accounts.

Definition try_catchA (body : MA AccountResponse)
    (handler : Exn -> AccountResponse) : AccountHandler :=
  fun w =>
    match body w with
    | (inr r, w') => (r, w')
    | (inl error, w') => (handler error, w')
    end.

(** [v === s] for a string [s]. *)
Definition strict_eq_string (v : JsValue) (s : jsstring) : bool :=
  match v with JsString t => bool_decide (t = s) | _ => false end.

(** The string held by a value that passed a [===] test against one. *)
Definition string_of (v : JsValue) : jsstring :=
  match v with JsString t => t | _ => [] end.

(** [process.env.COMPANY_CODE || "0037"]. *)
Definition COMPANY_CODE (env_COMPANY_CODE : option jsstring) : jsstring :=
  match env_COMPANY_CODE with
  | Some code => if truthy_string code then code else str "0037"
  | None => str "0037"
  end.

(** The fields of the onboarding form and the files multer stored. *)
Record OnboardingBody := mkOnboardingBody {
  body_userType : JsValue;
  body_companyCode : JsValue
}.

Record UploadedFile := mkUploadedFile { filename : jsstring }.

Record Files := mkFiles {
  idDocument : option (list UploadedFile);
  addressDocument : option (list UploadedFile)
}.

(** [files?.idDocument] and [files?.addressDocument]. *)
Definition files_idDocument (files : option Files)
    : option (list UploadedFile) :=
  match files with Some f => idDocument f | None => None end.

Definition files_addressDocument (files : option Files)
    : option (list UploadedFile) :=
  match files with Some f => addressDocument f | None => None end.

(** [field?.[0]?.filename]. *)
Definition first_filename (field : option (list UploadedFile))
    : option jsstring :=
  match field with
  | Some (file :: _) => Some (filename file)
  | _ => None
  end.

(** The [updateData] object of the onboarding endpoint: [userType] is
    always set; the other keys may be absent, and a document url that is
    set may be undefined. *)
Record UpdateData := mkUpdateData {
  up_userType : jsstring;
  up_companyCode : option jsstring;
  up_isVerified : option bool;
  up_idDocumentUrl : option (option jsstring);
  up_addressDocumentUrl : option (option jsstring)
}.

(** [{ ...user, ...updateData }]. *)
Definition spread_user_updateData (user : User) (updateData : UpdateData)
    : UpsertUser :=
  mkUpsertUser (Some (u_id user)) (Some (email user))
    (Some (firstName user)) (Some (lastName user))
    (Some (profileImageUrl user))
    (Some (Some (up_userType updateData)))
    (match up_companyCode updateData with
     | Some code => Some (Some code)
     | None => Some (companyCode user)
     end)
    (match up_idDocumentUrl updateData with
     | Some url => option_map Some url
     | None => Some (idDocumentUrl user)
     end)
    (match up_addressDocumentUrl updateData with
     | Some url => option_map Some url
     | None => Some (addressDocumentUrl user)
     end)
    (match up_isVerified updateData with
     | Some verified => Some verified
     | None => Some (isVerified user)
     end)
    (Some (isActive user)) (Some (u_createdAt user))
    (Some (u_updatedAt user)).

(** The [updateData] the onboarding endpoint builds: [{ userType }],
    then the keys of an employee, then the keys of a customer. *)
Definition build_updateData (userType companyCode : JsValue)
    (files : option Files) : UpdateData :=
  if strict_eq_string userType (str "employee") then
    mkUpdateData (string_of userType)
      (Some (string_of companyCode)) (Some true) None None
  else
    if strict_eq_string userType (str "customer")
       && bool_decide (is_Some files)
    then
      mkUpdateData (string_of userType) None (Some true)
        (Some (first_filename (files_idDocument files)))
        (Some (first_filename (files_addressDocument files)))
    else mkUpdateData (string_of userType) None None None None.

Section AccountRoutes.

Variable gen_uuid : nat -> jsstring.
Variable defaults : UserDefaults.
Variable env_COMPANY_CODE : option jsstring.
Variable scan : Accounts -> list User.

(** GET /api/auth/user *)
Definition get_auth_user (userId : jsstring) : AccountHandler :=
  try_catchA
    (let+ user := getUser userId in
     match user with
     | None => retA (text_json 404 "User not found")
     | Some user => retA (mkAccountResponse 200 (json_user (Some user)))
     end)
    (fun _ => text_json 500 "Failed to fetch user").

(** POST /api/onboarding/complete *)
Definition post_onboarding_complete (userId : jsstring)
    (body : OnboardingBody) (files : option Files) : AccountHandler :=
  try_catchA
    (let userType := body_userType body in
     let companyCode := body_companyCode body in
     if negb (strict_eq_string userType (str "customer")
              || strict_eq_string userType (str "employee"))
     then retA (text_json 400 "Invalid user type")
     else
       if strict_eq_string userType (str "employee")
          && (negb (truthy companyCode)
              || negb (strict_eq_string companyCode
                         (COMPANY_CODE env_COMPANY_CODE)))
       then retA (text_json 400 "Invalid company code")
       else
         if strict_eq_string userType (str "customer")
            && (negb (bool_decide (is_Some (files_idDocument files)))
                || negb (bool_decide (is_Some (files_addressDocument files))))
         then retA (text_json 400 "ID and address documents are required")
         else
           let updateData := build_updateData userType companyCode files in
           let+ user := getUser userId in
           match user with
           | None => retA (text_json 404 "User not found")
           | Some user =>
               let+ updatedUser :=
                 upsertUser gen_uuid defaults
                   (spread_user_updateData user updateData) in
               retA (mkAccountResponse 200 (json_user updatedUser))
           end)
    (fun _ => text_json 500 "Failed to complete onboarding").

(** GET /api/admin/employees *)
Definition get_admin_employees : AccountHandler :=
  try_catchA
    (let+ employees := getUsersByType scan (str "employee") in
     retA (mkAccountResponse 200 (json_users employees)))
    (fun _ => text_json 500 "Failed to fetch employees").

(** DELETE /api/admin/employees/:employeeId *)
Definition delete_admin_employee (currentUser_id employeeId : jsstring)
    : AccountHandler :=
  try_catchA
    (let superAdminId := currentUser_id in
     let+ employee := getUser employeeId in
     match employee with
     | None => retA (text_json 404 "Employee not found")
     | Some employee =>
         if bool_decide (userType employee <> Some (str "employee"))
         then retA (text_json 400 "Can only delete employee accounts")
         else
           let+ _ := updateUserStatus employeeId false in
           let+ _ :=
             createEmployeeAction gen_uuid
               (mkEmployeeActionValues employeeId (str "deleted")
                  superAdminId
                  (Some (str "Employee account deactivated by super admin")))
           in
           retA (text_json 200 "Employee account deleted successfully")
     end)
    (fun _ => text_json 500 "Failed to delete employee").

(** GET /api/admin/employees/:employeeId/actions *)
Definition get_admin_employee_actions (employeeId : jsstring)
    : AccountHandler :=
  try_catchA
    (let+ actions := getEmployeeActions employeeId in
     retA (mkAccountResponse 200 (json_actions actions)))
    (fun _ => text_json 500 "Failed to fetch employee actions").

End AccountRoutes.

(** ** Sequences of requests to the bid endpoints *)

Inductive BidRequest :=
| GetCustomerBids (customer : jsstring)
| PostCustomerBids (customer : jsstring) (body : BidBody)
| PostCreatePaymentIntent (customer bidId : jsstring)
| PostRefund (bidId : jsstring)
| GetCustomerBid (customer bidId : jsstring)
| GetCustomerBidHistory (customer bidId : jsstring)
| GetEmployeeBids
| PostApprove (employee bidId : jsstring)
| PostReject (employee bidId : jsstring) (notes : JsValue)
| PatchStatus (employee bidId : jsstring) (body : StatusBody)
| DeleteBid (bidId : jsstring).

Section Serving.

Variable env : Env.

(** The endpoint a request is routed to. *)
Definition handle (rq : BidRequest) : Handler :=
  match rq with
  | GetCustomerBids customer => get_customer_bids customer
  | PostCustomerBids customer body => post_customer_bids env customer body
  | PostCreatePaymentIntent customer bidId =>
      post_create_payment_intent env customer bidId
  | PostRefund bidId => post_refund env bidId
  | GetCustomerBid customer bidId => get_customer_bid customer bidId
  | GetCustomerBidHistory customer bidId =>
      get_customer_bid_history customer bidId
  | GetEmployeeBids => get_employee_bids
  | PostApprove employee bidId => post_approve env employee bidId
  | PostReject employee bidId notes => post_reject env employee bidId notes
  | PatchStatus employee bidId body => patch_status env employee bidId body
  | DeleteBid bidId => delete_bid bidId
  end.

(** The requests are served one after the other. *)
Definition serve (rqs : list BidRequest) (w : World) : World :=
  fold_left (fun w rq => snd (handle rq w)) rqs w.

End Serving.

(** Whether a request asks for the deletion of the given bid. *)
Definition deletes (bidId : jsstring) (rq : BidRequest) : bool :=
  match rq with
  | DeleteBid target => bool_decide (target = bidId)
  | _ => false
  end.

(** No request of the sequence asks for the deletion of the bid. *)
Definition never_deleted (bidId : jsstring) (rqs : list BidRequest)
    : bool :=
  forallb (fun rq => negb (deletes bidId rq)) rqs.

(** The bid is in the table after every request of the sequence: none
    of them removes it.  (A request for its deletion that is refused
    leaves it there.) *)
Fixpoint stays (env : Env) (bidId : jsstring) (rqs : list BidRequest)
    (w : World) : bool :=
  match rqs with
  | [] => true
  | rq :: rqs' =>
      bool_decide
        (is_Some (head (where_id bidId (bids (snd (handle env rq w))))))
      && stays env bidId rqs' (snd (handle env rq w))
  end.

(** Whether a request goes to one of the two payment endpoints. *)
Definition is_payment_request (rq : BidRequest) : bool :=
  match rq with
  | PostCreatePaymentIntent _ _ | PostRefund _ => true
  | _ => false
  end.

(** The history rows of one bid, in the order of the table. *)
Definition history_of (bidId : jsstring) (rows : list BidHistory)
    : list BidHistory :=
  filter (fun h => h_bidId h = bidId) rows.

(** The entries link up: the first starts from [first], each one starts
    from the status the one before it ends in, and the last ends in
    [last]. *)
Fixpoint links (first : jsstring) (entries : list BidHistory)
    (last : jsstring) : Prop :=
  match entries with
  | [] => last = first
  | entry :: entries' =>
      previousStatus entry = Some first /\
      links (newStatus entry) entries' last
  end.

(** The columns that are given at creation. *)
Definition same_creation (b b' : Bid) : Prop :=
  id b' = id b /\
  customerId b' = customerId b /\
  lotNumber b' = lotNumber b /\
  maxBidAmount b' = maxBidAmount b /\
  serviceFee b' = serviceFee b /\
  depositAmount b' = depositAmount b /\
  totalPaid b' = totalPaid b /\
  createdAt b' = createdAt b.

(** What a request may do to the two tables: nothing, one insertion
    into [bids], one update of the rows of one bid together with at most
    one new history row for it, or the deletion of a bid with its
    history. *)
Inductive table_effect (rq : BidRequest) (w w' : World) : Prop :=
| effect_none :
    bids w' = bids w -> bidHistory w' = bidHistory w -> table_effect rq w w'
| effect_insert (bid : Bid) :
    bids w' = bids w ++ [bid] -> bidHistory w' = bidHistory w ->
    table_effect rq w w'
| effect_update (target : jsstring) (cur : Bid) (sets : list BidSet)
    (entries : list BidHistory) :
    head (where_id target (bids w)) = Some cur ->
    bids w' = update_where_id sets target (bids w) ->
    bidHistory w' = bidHistory w ++ entries ->
    same_creation cur (assign_all sets cur) ->
    (isRefunded cur = true -> isRefunded (assign_all sets cur) = true) ->
    (truthy_opt (stripePaymentIntentId cur) = true ->
     stripePaymentIntentId (assign_all sets cur) = stripePaymentIntentId cur) ->
    Forall (fun entry => h_bidId entry = target) entries ->
    links (status cur) entries (status (assign_all sets cur)) ->
    (length entries <= 1)%nat ->
    table_effect rq w w'
| effect_delete (target : jsstring) :
    rq = DeleteBid target ->
    bids w' = delete_where_id target (bids w) ->
    bidHistory w'
    = cascade_bidHistory (where_id target (bids w)) (bidHistory w) ->
    table_effect rq w w'.

(** What a request may send to the gateway: at most one call, and none
    unless it goes to a payment endpoint. *)
Definition log_effect (rq : BidRequest) (w w' : World) : Prop :=
  exists sent,
    stripe_log w' = stripe_log w ++ sent /\
    (length sent <= 1)%nat /\
    (is_payment_request rq = false -> sent = []).

(** ** A day of requests *)

Definition busy_day : list BidRequest :=
  [PostApprove employee1 bid1;
   PostCreatePaymentIntent customerA bid1;
   PatchStatus employee1 bid1
     (mkStatusBody (JsString (str "winning")) JsUndefined);
   PostCustomerBids (str "customer-B") lot1_form;
   PatchStatus employee1 bid1
     (mkStatusBody (JsString (str "lost")) (JsString (str "hammer fell")));
   PostRefund bid1;
   GetCustomerBidHistory customerA bid1;
   DeleteBid (str "another-bid");
   PostRefund bid1].

Definition evening_world : World :=
  Eval vm_compute in serve live_env busy_day
                       pending_world.

Definition evening_bid : option Bid :=
  Eval vm_compute in head (where_id bid1 (bids evening_world)).

(** Requests that come in after the refund of the lost bid. *)
Definition refunded_bid : option Bid :=
  Eval vm_compute in head (where_id bid1 (bids refunded_world)).

Definition late_requests : list BidRequest :=
  [PostCreatePaymentIntent customerA bid1;
   PostRefund bid1;
   PatchStatus employee1 bid1
     (mkStatusBody (JsString (str "won")) JsUndefined);
   PostApprove employee1 bid1;
   DeleteBid (str "another-bid")].

Definition late_world : World :=
  Eval vm_compute in serve live_env late_requests
                       refunded_world.

(** Requests on a refunded bid, among them a request for its deletion
    while it is [outbid], which is refused. *)
Definition guarded_requests : list BidRequest :=
  [PatchStatus employee1 bid1
     (mkStatusBody (JsString (str "outbid")) JsUndefined);
   DeleteBid bid1;
   PostRefund bid1;
   PostCreatePaymentIntent customerA bid1;
   PostApprove employee1 bid1].

Definition guarded_world : World :=
  Eval vm_compute in serve live_env guarded_requests refunded_world.

(** The day of requests, after a request for the deletion of the
    pending bid, which is refused. *)
Definition long_day : list BidRequest := DeleteBid bid1 :: busy_day.

Definition night_world : World :=
  Eval vm_compute in serve live_env long_day pending_world.

(** The bid a request names, if it names one. *)
Definition target_of (rq : BidRequest) : option jsstring :=
  match rq with
  | PostCreatePaymentIntent _ bidId | PostRefund bidId
  | GetCustomerBid _ bidId | GetCustomerBidHistory _ bidId
  | PostApprove _ bidId | PostReject _ bidId _ | PatchStatus _ bidId _
  | DeleteBid bidId => Some bidId
  | _ => None
  end.

(** Whether the body of a request passes the checks that come before
    the lookup of the bid. *)
Definition body_accepted (rq : BidRequest) : bool :=
  match rq with
  | PostReject _ _ (JsString reason) => negb (whitespace_only reason)
  | PostReject _ _ _ => false
  | PatchStatus _ _ body =>
      match updateBidStatusSchema body with inr _ => true | inl _ => false end
  | _ => true
  end.

(** A request with a lot number of 101 characters, one more than the
    column holds. *)
Definition overlong_lot : jsstring := repeat 76%N 101.

Definition overlong_form : BidBody :=
  mkBidBody (JsString (str "customer-B")) (JsString overlong_lot)
    (JsString (str "1000.00")) (JsString (str "215.00"))
    (JsString (str "100.00")) (JsString (str "315.00"))
    (JsString (str "pending")) JsUndefined.

(** ** Accounts used as examples *)

Definition ghost : jsstring := str "no-such-bid".

Definition won_paid_bid : Bid :=
  lot1_bid "won" (Some (str "pi_9")) false None.
Definition won_paid_world : World := world_of [won_paid_bid].

Definition account (userId : string) (type : option jsstring)
    (code : option jsstring) (verified : bool) : User :=
  mkUser (str userId) (Some (str userId ++ str "@example.com")) None None
    None type code None None verified true 100 100.

Definition ann : User := account "ann" (Some (str "customer")) None false.
Definition bob : User :=
  account "bob" (Some (str "employee")) (Some (str "0037")) true.
Definition root : User :=
  account "root" (Some (str "super_admin")) None true.

Definition office : Accounts := mkAccounts [ann; bob; root] [] 0 500 steady.

Definition plain_defaults : UserDefaults := users_defaults.

(** A database that returns the rows of a query without [ORDER BY] in
    the order of their last update: a row that is updated moves to the
    end. *)
Definition by_updatedAt (a b : User) : Prop := u_updatedAt a <= u_updatedAt b.

#[local] Instance by_updatedAt_dec a b : Decision (by_updatedAt a b).
Proof. unfold by_updatedAt. apply _. Defined.

Definition last_updated_last (w : Accounts) : list User :=
  merge_sort by_updatedAt (users w).

(** An office with two employees. *)
Definition carl : User :=
  account "carl" (Some (str "employee")) (Some (str "0037")) true.

Definition staffed_office : Accounts :=
  mkAccounts [ann; bob; carl; root] [] 0 500 steady.

Definition id_scan : UploadedFile := mkUploadedFile (str "idDocument-1.png").
Definition bill_scan : UploadedFile :=
  mkUploadedFile (str "addressDocument-2.png").

(** The list of employees of the office with two of them, before and
    after the first one is deactivated. *)
Definition listed_before : list User :=
  Eval vm_compute in
    match a_json (fst (get_admin_employees last_updated_last staffed_office))
    with
    | json_users rows => rows
    | _ => []
    end.

Definition listed_after : list User :=
  Eval vm_compute in
    match a_json
            (fst (get_admin_employees last_updated_last
                    (snd (delete_admin_employee serial_uuid (str "root")
                            (str "bob") staffed_office))))
    with
    | json_users rows => rows
    | _ => []
    end.

(** A new user who gives the e-mail of bob. *)
Definition dora_with_the_email_of_bob : UpsertUser :=
  mkUpsertUser (Some (str "dora")) (Some (Some (str "bob@example.com")))
    None None None None None None None None None None None.

Definition ann_as_customer : UpsertUser :=
  mkUpsertUser (Some (str "ann")) None None None None
    (Some (Some (str "customer"))) None None None (Some true) None None None.

(** * Properties *)

(** ** Strings *)

Lemma trimStart_nil_iff (s : jsstring) :
  trimStart s = [] <-> whitespace_only s = true.
Proof.
  induction s as [|c s IH]; simpl; [tauto|].
  destruct (is_js_whitespace c) eqn:Hc; simpl; [exact IH|].
  split; discriminate.
Qed.

Lemma trimStart_head (s : jsstring) (c : N) (t : jsstring) :
  trimStart s = c :: t -> is_js_whitespace c = false.
Proof.
  induction s as [|a s IH]; simpl; [discriminate|].
  destruct (is_js_whitespace a) eqn:Ha; [exact IH|].
  intros [= -> _]. exact Ha.
Qed.

Lemma whitespace_only_rev (s : jsstring) :
  whitespace_only (rev s) = whitespace_only s.
Proof.
  unfold whitespace_only. induction s as [|c s IH]; simpl; [reflexivity|].
  rewrite forallb_app, IH. simpl. rewrite andb_true_r. apply andb_comm.
Qed.

Lemma trim_nil_iff (s : jsstring) :
  trim s = [] <-> whitespace_only s = true.
Proof.
  unfold trim, trimEnd. split.
  - intros H. apply (f_equal (@rev N)) in H. rewrite rev_involutive in H.
    simpl in H. apply trimStart_nil_iff in H.
    rewrite whitespace_only_rev in H.
    destruct (trimStart s) as [|c t] eqn:E.
    + now apply trimStart_nil_iff.
    + apply trimStart_head in E. simpl in H. rewrite E in H. discriminate.
  - intros H. apply trimStart_nil_iff in H. rewrite H. reflexivity.
Qed.

Lemma truthy_trim (s : jsstring) :
  truthy_string (trim s) = negb (whitespace_only s).
Proof.
  destruct (whitespace_only s) eqn:E.
  - apply trim_nil_iff in E. rewrite E. reflexivity.
  - destruct (trim s) eqn:T; [|reflexivity].
    apply trim_nil_iff in T. congruence.
Qed.

(** ** Numbers *)

Lemma Math_round_cents (d : decimal) :
  Math_round (Qmult (Number d) (inject_Z 100)) = d.
Proof.
  unfold Math_round, Number, Qfloor, Qmult, Qplus, inject_Z. simpl.
  symmetry. apply (Z.div_unique _ _ _ 100); lia.
Qed.

(** ** Updates of rows *)

Lemma id_assign (a : BidSet) (b : Bid) : id (assign a b) = id b.
Proof. destruct b, a; reflexivity. Qed.

Lemma id_assign_all (sets : list BidSet) (b : Bid) :
  id (assign_all sets b) = id b.
Proof.
  unfold assign_all. revert b.
  induction sets as [|a sets IH]; intros b; simpl; [reflexivity|].
  now rewrite IH, id_assign.
Qed.

Lemma where_id_update (sets : list BidSet) (bidId : jsstring)
    (rows : list Bid) :
  where_id bidId (update_where_id sets bidId rows)
  = List.map (assign_all sets) (where_id bidId rows).
Proof.
  unfold where_id, update_where_id.
  induction rows as [|b rows IH]; [reflexivity|].
  cbn [List.map]. rewrite !filter_cons.
  destruct (decide (id b = bidId)) as [E|E].
  - rewrite decide_True by now rewrite id_assign_all.
    cbn [List.map]. now rewrite IH.
  - rewrite decide_False by exact E. exact IH.
Qed.

Lemma head_where_id_update (sets : list BidSet) (bidId : jsstring)
    (rows : list Bid) :
  head (where_id bidId (update_where_id sets bidId rows))
  = option_map (assign_all sets) (head (where_id bidId rows)).
Proof.
  rewrite where_id_update. now destruct (where_id bidId rows).
Qed.

Lemma where_id_delete (bidId : jsstring) (rows : list Bid) :
  where_id bidId (delete_where_id bidId rows) = [].
Proof.
  unfold where_id, delete_where_id.
  induction rows as [|b rows IH]; [reflexivity|].
  rewrite filter_cons. destruct (decide (id b <> bidId)) as [E|E].
  - rewrite filter_cons_False by exact E. exact IH.
  - exact IH.
Qed.

Lemma head_where_id_id (bidId : jsstring) (rows : list Bid) (b : Bid) :
  head (where_id bidId rows) = Some b -> id b = bidId.
Proof.
  intros H. assert (Hin : b ∈ where_id bidId rows).
  { destruct (where_id bidId rows); [discriminate|].
    injection H as ->. apply list_elem_of_here. }
  apply list_elem_of_filter in Hin. tauto.
Qed.

Lemma cascade_removes (bidId : jsstring) (rows : list Bid) (b : Bid)
    (history : list BidHistory) :
  head (where_id bidId rows) = Some b ->
  filter (fun h => h_bidId h = bidId)
    (cascade_bidHistory (where_id bidId rows) history) = [].
Proof.
  intros H. unfold cascade_bidHistory.
  assert (Hin : bidId ∈ List.map id (where_id bidId rows)).
  { destruct (where_id bidId rows) as [|x l] eqn:E; [discriminate|].
    injection H as ->. simpl.
    assert (Hb : b ∈ where_id bidId rows) by (rewrite E; apply list_elem_of_here).
    apply list_elem_of_filter in Hb. destruct Hb as [-> _].
    apply list_elem_of_here. }
  induction history as [|h history IH]; [reflexivity|].
  rewrite filter_cons. destruct (decide (h_bidId h ∉ _)) as [E|E].
  - rewrite filter_cons_False; [exact IH|].
    intros Heq. apply E. rewrite Heq. exact Hin.
  - exact IH.
Qed.

(** ** The storage layer, operation by operation *)

Lemma getBid_run (bidId : jsstring) (w : World) :
  getBid bidId w = (inr (head (where_id bidId (bids w))), w).
Proof. reflexivity. Qed.

Lemma approveBid_run (env : Env) (bidId employeeId : jsstring) (w : World)
    (cur : Bid) :
  head (where_id bidId (bids w)) = Some cur ->
  let sets :=
    [set_status (str "approved"); set_approvedBy employeeId;
     set_approvedAt (clock w); set_updatedAt (later w)] in
  approveBid env bidId employeeId w
  = (inr (Some (assign_all sets cur)),
     mkWorld (update_where_id sets bidId (bids w))
       (bidHistory w ++
        [mkBidHistory (gen_random_uuid env (uuids w)) bidId
           (Some (status cur)) (str "approved") employeeId
           (Some (str "Bid approved by employee")) (clock_after 2 w)])
       (S (uuids w)) (clock_after 3 w) (stripe_log w)
       (ticks_after 3 w)).
Proof.
  intros H sets. run_M. rewrite H. run_M.
  now rewrite head_where_id_update, H.
Qed.

Lemma rejectBid_run (env : Env) (bidId employeeId notes : jsstring)
    (w : World) (cur : Bid) :
  head (where_id bidId (bids w)) = Some cur ->
  let sets :=
    [set_status (str "rejected"); set_rejectedBy employeeId;
     set_rejectedAt (clock w); set_notes (Some notes);
     set_updatedAt (later w)] in
  rejectBid env bidId employeeId notes w
  = (inr (Some (assign_all sets cur)),
     mkWorld (update_where_id sets bidId (bids w))
       (bidHistory w ++
        [mkBidHistory (gen_random_uuid env (uuids w)) bidId
           (Some (status cur)) (str "rejected") employeeId
           (Some notes) (clock_after 2 w)])
       (S (uuids w)) (clock_after 3 w) (stripe_log w)
       (ticks_after 3 w)).
Proof.
  intros H sets. run_M. rewrite H. run_M.
  now rewrite head_where_id_update, H.
Qed.

Lemma updateBidStatus_run (env : Env) (bidId status employeeId : jsstring)
    (notes : option jsstring) (w : World) (cur : Bid) :
  head (where_id bidId (bids w)) = Some cur ->
  let sets :=
    [set_status status; set_notes (js_or notes (Bid_notes cur));
     set_updatedAt (clock w)] in
  updateBidStatus env bidId status employeeId notes w
  = (inr (Some (assign_all sets cur)),
     mkWorld (update_where_id sets bidId (bids w))
       (bidHistory w ++
        [mkBidHistory (gen_random_uuid env (uuids w)) bidId
           (Some (Bid_status cur)) status employeeId notes (later w)])
       (S (uuids w)) (clock_after 2 w) (stripe_log w)
       (ticks_after 2 w)).
Proof.
  intros H sets. run_M. rewrite H. run_M.
  now rewrite head_where_id_update, H.
Qed.

Lemma change_status_none (env : Env) (op : StatusChange)
    (bidId employeeId : jsstring) (w : World) :
  head (where_id bidId (bids w)) = None ->
  change_status env op bidId employeeId w = (inr None, w).
Proof.
  intros H. destruct op; cbn [change_status]; run_M; now rewrite H.
Qed.

Lemma updateBidPaymentInfo_run (bidId : jsstring) (p : PaymentInfo)
    (w : World) :
  let sets := spread p ++ [set_updatedAt (clock w)] in
  updateBidPaymentInfo bidId p w
  = (inr (option_map (assign_all sets) (head (where_id bidId (bids w)))),
     mkWorld (update_where_id sets bidId (bids w)) (bidHistory w) (uuids w)
       (later w) (stripe_log w) (tl (ticks w))).
Proof.
  intros sets. run_M. now rewrite head_where_id_update.
Qed.

Lemma deleteBid_run (bidId : jsstring) (w : World) :
  deleteBid bidId w
  = (inr tt,
     mkWorld (delete_where_id bidId (bids w))
       (cascade_bidHistory (where_id bidId (bids w)) (bidHistory w))
       (uuids w) (clock w) (stripe_log w) (ticks w)).
Proof. reflexivity. Qed.

(** ** History of status changes *)

(** C3. Every successful status-changing operation on a bid (approve,
    reject, generic status update) appends exactly one entry to the bid
    history; its previous status is the status the bid had immediately
    before the call and its new status is the status the bid has
    immediately after the call.  Each of the three operations succeeds
    on every bid that is in the table, and on no other, when the status
    it writes fits the column, and leaves the bid in the status it
    stands for: [approved], [rejected], or the status it is given. *)
Theorem status_change_appends_one_history_entry
    (env : Env) (op : StatusChange) (bidId employeeId : jsstring)
    (w : World) :
  (forall before,
     getBid bidId w = (inr (Some before), w) ->
     fits_status op ->
     exists after entry w',
       change_status env op bidId employeeId w = (inr (Some after), w') /\
       getBid bidId w' = (inr (Some after), w') /\
       status after
       = match op with
         | Approve => str "approved"
         | Reject _ => str "rejected"
         | Update status _ => status
         end /\
       bidHistory w' = bidHistory w ++ [entry] /\
       h_bidId entry = bidId /\
       changedBy entry = employeeId /\
       previousStatus entry = Some (status before) /\
       newStatus entry = status after) /\
  (forall updated w',
     change_status env op bidId employeeId w = (inr (Some updated), w') ->
     exists before, getBid bidId w = (inr (Some before), w)).
Proof.
  split.
  - intros cur. rewrite getBid_run. intros [= Hcur] _.
    destruct op as [|notes|status notes]; cbn [change_status].
    + rewrite (approveBid_run env _ _ _ _ Hcur).
      do 3 eexists. split; [reflexivity|].
      rewrite getBid_run. cbn [bids bidHistory].
      rewrite head_where_id_update, Hcur.
      repeat split; destruct cur; reflexivity.
    + rewrite (rejectBid_run env _ _ _ _ _ Hcur).
      do 3 eexists. split; [reflexivity|].
      rewrite getBid_run. cbn [bids bidHistory].
      rewrite head_where_id_update, Hcur.
      repeat split; destruct cur; reflexivity.
    + rewrite (updateBidStatus_run env _ _ _ _ _ _ Hcur).
      do 3 eexists. split; [reflexivity|].
      rewrite getBid_run. cbn [bids bidHistory].
      rewrite head_where_id_update, Hcur.
      repeat split; destruct cur; reflexivity.
  - intros updated w' Hrun. rewrite getBid_run.
    destruct (head (where_id bidId (bids w))) as [cur|] eqn:Hcur;
      [now exists cur|].
    rewrite change_status_none in Hrun by exact Hcur. discriminate.
Qed.

(** ** Approval *)

Lemma post_approve_run (env : Env) (currentUser_id bidId : jsstring)
    (w : World) :
  post_approve env currentUser_id bidId w
  = match head (where_id bidId (bids w)) with
    | None => (message_json 404 "Bid not found", w)
    | Some bid =>
        if bool_decide (status bid <> str "pending")
        then (message_json 400 "Only pending bids can be approved", w)
        else
          match approveBid env bidId currentUser_id w with
          | (inr approvedBid, w') => (res_json (json_bid approvedBid), w')
          | (inl _, w') => (message_json 500 "Failed to approve bid", w')
          end
    end.
Proof.
  unfold post_approve, try_catch, bind at 1. rewrite getBid_run.
  destruct (head (where_id bidId (bids w))) as [bid|]; [|reflexivity].
  destruct (bool_decide (status bid <> str "pending")); [reflexivity|].
  unfold bind at 1.
  now destruct (approveBid env bidId currentUser_id w) as [[e|b] w1].
Qed.

Lemma approved_is_not_pending : str "approved" <> str "pending".
Proof. intros H. vm_compute in H. discriminate. Qed.

(** C4. Approve succeeds only on a bid whose current status is
    [pending]; on success the bid carries the approver's id, the time of
    approval and the status [approved], one history entry with the note
    "Bid approved by employee" is recorded, and a second approve of the
    same bid fails with "Only pending bids can be approved".  On a bid in
    any other status approve fails with that message and changes
    nothing. *)
Theorem approve_only_from_pending
    (env : Env) (employeeId bidId : jsstring) (w w' : World) (r : Response) :
  post_approve env employeeId bidId w = (r, w') ->
  (statusCode r = 200 <->
   exists bid,
     getBid bidId w = (inr (Some bid), w) /\ status bid = str "pending") /\
  (statusCode r = 200 ->
   exists approved entry,
     r = res_json (json_bid (Some approved)) /\
     getBid bidId w' = (inr (Some approved), w') /\
     status approved = str "approved" /\
     approvedBy approved = Some employeeId /\
     approvedAt approved = Some (clock w) /\
     bidHistory w' = bidHistory w ++ [entry] /\
     h_bidId entry = bidId /\
     previousStatus entry = Some (str "pending") /\
     newStatus entry = str "approved" /\
     changedBy entry = employeeId /\
     h_notes entry = Some (str "Bid approved by employee") /\
     forall again : jsstring,
       post_approve env again bidId w'
       = (message_json 400 "Only pending bids can be approved", w')) /\
  (forall bid,
     getBid bidId w = (inr (Some bid), w) ->
     status bid <> str "pending" ->
     r = message_json 400 "Only pending bids can be approved" /\ w' = w).
Proof.
  rewrite post_approve_run, !getBid_run.
  destruct (head (where_id bidId (bids w))) as [cur|] eqn:Hcur.
  2:{ intros [= <- <-].
      split; [split; [discriminate | intros (bid & [=] & _)] |].
      split; [discriminate | intros bid [=]]. }
  destruct (bool_decide_reflect (status cur <> str "pending")) as [Hst|Hst].
  { intros [= <- <-].
    split; [split; [discriminate|] |].
    - intros (bid & [= <-] & Hp). contradiction.
    - split; [discriminate | intros bid [= <-] _; now split]. }
  assert (Hp : status cur = str "pending")
    by (destruct (decide (status cur = str "pending")); tauto).
  rewrite (approveBid_run env _ _ _ _ Hcur). intros [= <- <-].
  split; [|split].
  - split; [intros _; now exists cur | reflexivity].
  - intros _. do 2 eexists. cbn [bids bidHistory].
    rewrite head_where_id_update, Hcur, Hp.
    repeat split; try (destruct cur; reflexivity).
    intros again. rewrite post_approve_run. cbn [bids].
    rewrite head_where_id_update, Hcur. cbn [option_map].
    rewrite bool_decide_true; [reflexivity|].
    destruct cur; exact approved_is_not_pending.
  - intros bid [= <-] Hne. contradiction.
Qed.

(** ** Rejection *)

Lemma post_reject_run (env : Env) (currentUser_id bidId : jsstring)
    (notes : JsValue) (w : World) :
  post_reject env currentUser_id bidId notes w
  = if negb (truthy notes)
    then (message_json 400 "Rejection reason is required", w)
    else
      match notes with
      | JsString reason =>
          if negb (truthy_string (trim reason))
          then (message_json 400 "Rejection reason is required", w)
          else
            match head (where_id bidId (bids w)) with
            | None => (message_json 404 "Bid not found", w)
            | Some bid =>
                if bool_decide (status bid <> str "pending")
                then (message_json 400 "Only pending bids can be rejected", w)
                else
                  match rejectBid env bidId currentUser_id reason w with
                  | (inr rejectedBid, w') =>
                      (res_json (json_bid rejectedBid), w')
                  | (inl _, w') =>
                      (message_json 500 "Failed to reject bid", w')
                  end
            end
      | _ => (message_json 500 "Failed to reject bid", w)
      end.
Proof.
  unfold post_reject, try_catch.
  destruct (negb (truthy notes)); [reflexivity|].
  destruct notes as [| |b|q|reason|]; try reflexivity.
  destruct (negb (truthy_string (trim reason))); [reflexivity|].
  unfold bind at 1. rewrite getBid_run.
  destruct (head (where_id bidId (bids w))) as [bid|]; [|reflexivity].
  destruct (bool_decide (status bid <> str "pending")); [reflexivity|].
  unfold bind at 1.
  now destruct (rejectBid env bidId currentUser_id reason w) as [[e|b] w1].
Qed.

(** C5. Reject fails with the validation error "Rejection reason is
    required" whenever the supplied notes are missing, empty or made of
    white space only, whatever the state of the bid and even when no such
    bid exists.  With a reason that is not blank, reject succeeds exactly
    on a bid whose status is [pending], and then the bid carries the
    rejecter's id, the time of rejection, the notes as supplied and the
    status [rejected]. *)
Theorem reject_requires_reason_and_pending
    (env : Env) (employeeId bidId : jsstring) (notes : JsValue)
    (w w' : World) (r : Response) :
  post_reject env employeeId bidId notes w = (r, w') ->
  (blank_notes notes = true ->
   r = message_json 400 "Rejection reason is required" /\ w' = w) /\
  (forall reason,
     notes = JsString reason ->
     whitespace_only reason = false ->
     (statusCode r = 200 <->
      exists bid,
        getBid bidId w = (inr (Some bid), w) /\ status bid = str "pending") /\
     (statusCode r = 200 ->
      exists rejected,
        r = res_json (json_bid (Some rejected)) /\
        getBid bidId w' = (inr (Some rejected), w') /\
        status rejected = str "rejected" /\
        rejectedBy rejected = Some employeeId /\
        rejectedAt rejected = Some (clock w) /\
        Bid_notes rejected = Some reason)).
Proof.
  rewrite post_reject_run. intros Hrun. split.
  - intros Hblank.
    destruct notes as [| |b|q|reason|]; try discriminate Hblank;
      cbn [truthy negb] in Hrun; try (injection Hrun as <- <-; now split).
    cbn [blank_notes] in Hblank.
    destruct (negb (truthy_string reason));
      [injection Hrun as <- <-; now split|].
    rewrite truthy_trim, Hblank in Hrun. cbn [negb] in Hrun.
    injection Hrun as <- <-. now split.
  - intros reason -> Hreason. cbn [truthy] in Hrun.
    assert (Hne : truthy_string reason = true).
    { destruct reason; [discriminate Hreason | reflexivity]. }
    rewrite Hne, truthy_trim, Hreason in Hrun. cbn [negb] in Hrun.
    rewrite !getBid_run.
    destruct (head (where_id bidId (bids w))) as [cur|] eqn:Hcur.
    2:{ injection Hrun as <- <-.
        split; [split; [discriminate | intros (bid & [=] & _)] | discriminate]. }
    destruct (bool_decide_reflect (status cur <> str "pending")) as [Hst|Hst].
    { injection Hrun as <- <-.
      split; [split; [discriminate|] | discriminate].
      intros (bid & [= <-] & Hp). contradiction. }
    assert (Hp : status cur = str "pending")
      by (destruct (decide (status cur = str "pending")); tauto).
    rewrite (rejectBid_run env _ _ _ _ _ Hcur) in Hrun.
    injection Hrun as <- <-. split.
    + split; [intros _; now exists cur | reflexivity].
    + intros _. eexists. cbn [bids].
      rewrite head_where_id_update, Hcur.
      repeat split; destruct cur; reflexivity.
Qed.

(** ** Generic status update *)

Lemma patch_status_run (env : Env) (currentUser_id bidId : jsstring)
    (body : StatusBody) (w : World) :
  patch_status env currentUser_id bidId body w
  = match updateBidStatusSchema body with
    | inl error =>
        (if bool_decide (name error = str "ZodError")
         then res_status_json 400
                (json_message_errors (str "Invalid status update data"))
         else message_json 500 "Failed to update bid status", w)
    | inr validatedData =>
        match head (where_id bidId (bids w)) with
        | None => (message_json 404 "Bid not found", w)
        | Some bid =>
            match updateBidStatus env bidId (fst validatedData)
                    currentUser_id (snd validatedData) w with
            | (inr updatedBid, w') => (res_json (json_bid updatedBid), w')
            | (inl error, w') =>
                (if bool_decide (name error = str "ZodError")
                 then res_status_json 400
                        (json_message_errors
                           (str "Invalid status update data"))
                 else message_json 500 "Failed to update bid status", w')
            end
        end
    end.
Proof.
  unfold patch_status, try_catch, bind at 1, parse.
  destruct (updateBidStatusSchema body) as [error|data]; [reflexivity|].
  unfold bind at 1. rewrite getBid_run.
  destruct (head (where_id bidId (bids w))) as [bid|]; [|reflexivity].
  unfold bind at 1.
  now destruct (updateBidStatus env bidId (fst data) currentUser_id
                  (snd data) w) as [[e|b] w1].
Qed.

Lemma updateBidStatusSchema_accepts (target : jsstring)
    (notes : option jsstring) :
  target ∈ bidStatusEnum ->
  updateBidStatusSchema (mkStatusBody (JsString target) (notes_value notes))
  = inr (target, notes).
Proof.
  intros Hin. unfold updateBidStatusSchema. cbn [body_status body_notes].
  rewrite bool_decide_true by exact Hin. now destruct notes.
Qed.

Lemma updateBidStatusSchema_rejects (target : jsstring) (notes : JsValue) :
  target ∉ bidStatusEnum ->
  updateBidStatusSchema (mkStatusBody (JsString target) notes) = inl ZodError.
Proof.
  intros Hin. unfold updateBidStatusSchema. cbn [body_status body_notes].
  now rewrite bool_decide_false by exact Hin.
Qed.

(** C6. For every existing bid, whatever its current status, and every
    target status of the enum, the generic status update succeeds: the
    bid takes the target status and one history entry records the
    previous status, the new status and the acting employee.  Only
    membership in the enum is checked: a target outside of it is refused
    with a validation error and nothing changes. *)
Theorem status_update_checks_enum_only
    (env : Env) (employeeId bidId target : jsstring) (w : World) (bid : Bid) :
  getBid bidId w = (inr (Some bid), w) ->
  (forall notes : option jsstring,
     target ∈ bidStatusEnum ->
     exists updated entry w',
       patch_status env employeeId bidId
         (mkStatusBody (JsString target) (notes_value notes)) w
       = (res_json (json_bid (Some updated)), w') /\
       getBid bidId w' = (inr (Some updated), w') /\
       status updated = target /\
       bidHistory w' = bidHistory w ++ [entry] /\
       h_bidId entry = bidId /\
       previousStatus entry = Some (status bid) /\
       newStatus entry = target /\
       changedBy entry = employeeId) /\
  (forall notes : JsValue,
     target ∉ bidStatusEnum ->
     patch_status env employeeId bidId (mkStatusBody (JsString target) notes) w
     = (res_status_json 400
          (json_message_errors (str "Invalid status update data")), w)).
Proof.
  rewrite getBid_run. intros [= Hcur]. split.
  - intros notes Hin. rewrite patch_status_run.
    rewrite (updateBidStatusSchema_accepts _ _ Hin), Hcur.
    cbn [fst snd]. rewrite (updateBidStatus_run env _ _ _ _ _ _ Hcur).
    do 3 eexists. split; [reflexivity|].
    rewrite getBid_run. cbn [bids bidHistory].
    rewrite head_where_id_update, Hcur.
    repeat split; destruct bid; reflexivity.
  - intros notes Hout. rewrite patch_status_run.
    now rewrite (updateBidStatusSchema_rejects _ _ Hout).
Qed.

(** ** Deletion *)

Lemma delete_bid_run (bidId : jsstring) (w : World) :
  delete_bid bidId w
  = match head (where_id bidId (bids w)) with
    | None => (message_json 404 "Bid not found", w)
    | Some bid =>
        if bool_decide (status bid <> str "won")
           && bool_decide (status bid <> str "lost")
        then (message_json 400 "Only won or lost bids can be deleted", w)
        else
          (res_json (json_message (str "Bid deleted successfully")),
           snd (deleteBid bidId w))
    end.
Proof.
  unfold delete_bid, try_catch, bind at 1. rewrite getBid_run.
  destruct (head (where_id bidId (bids w))) as [bid|]; [|reflexivity].
  now destruct (bool_decide (status bid <> str "won")
                && bool_decide (status bid <> str "lost")).
Qed.

Lemma get_customer_bid_absent (customer bidId : jsstring) (w : World) :
  head (where_id bidId (bids w)) = None ->
  get_customer_bid customer bidId w = (message_json 404 "Bid not found", w).
Proof.
  intros H. unfold get_customer_bid, try_catch, bind at 1.
  now rewrite getBid_run, H.
Qed.

Lemma get_customer_bid_history_absent (customer bidId : jsstring)
    (w : World) :
  head (where_id bidId (bids w)) = None ->
  get_customer_bid_history customer bidId w
  = (message_json 404 "Bid not found", w).
Proof.
  intros H. unfold get_customer_bid_history, try_catch, bind at 1.
  now rewrite getBid_run, H.
Qed.

Lemma not_won_and_not_lost (st : jsstring) :
  bool_decide (st <> str "won") && bool_decide (st <> str "lost") = false
  <-> st = str "won" \/ st = str "lost".
Proof.
  destruct (decide (st = str "won")) as [E|E],
           (decide (st = str "lost")) as [F|F].
  - rewrite bool_decide_false by tauto. cbn. tauto.
  - rewrite bool_decide_false by tauto. cbn. tauto.
  - rewrite (bool_decide_false (st <> str "lost")) by tauto.
    rewrite andb_false_r. tauto.
  - rewrite !bool_decide_true by assumption. cbn.
    split; [discriminate | tauto].
Qed.

(** C8. Delete succeeds only on a bid whose status is [won] or [lost];
    on a bid in any other status it fails with a validation error and
    changes nothing.  After a successful delete neither the bid nor any
    of its history entries can be reached: fetching the bid by id finds
    nothing, the history query for its id is empty, and the bid and
    history endpoints answer that the bid is not found. *)
Theorem delete_only_won_or_lost
    (bidId : jsstring) (w w' : World) (r : Response) :
  delete_bid bidId w = (r, w') ->
  (statusCode r = 200 <->
   exists bid,
     getBid bidId w = (inr (Some bid), w) /\
     (status bid = str "won" \/ status bid = str "lost")) /\
  (forall bid,
     getBid bidId w = (inr (Some bid), w) ->
     status bid <> str "won" -> status bid <> str "lost" ->
     r = message_json 400 "Only won or lost bids can be deleted" /\ w' = w) /\
  (statusCode r = 200 ->
   getBid bidId w' = (inr None, w') /\
   getBidHistory bidId w' = (inr [], w') /\
   forall customer : jsstring,
     get_customer_bid customer bidId w'
     = (message_json 404 "Bid not found", w') /\
     get_customer_bid_history customer bidId w'
     = (message_json 404 "Bid not found", w')).
Proof.
  rewrite delete_bid_run, !getBid_run.
  destruct (head (where_id bidId (bids w))) as [cur|] eqn:Hcur.
  2:{ intros [= <- <-].
      split; [split; [discriminate | intros (bid & [=] & _)] |].
      split; [intros bid [=] | discriminate]. }
  destruct (bool_decide (status cur <> str "won")
            && bool_decide (status cur <> str "lost")) eqn:Hguard.
  - intros [= <- <-].
    split; [split; [discriminate|] |].
    + intros (bid & [= <-] & Hst). apply not_won_and_not_lost in Hst.
      congruence.
    + split; [intros bid [= <-] _ _; now split | discriminate].
  - apply not_won_and_not_lost in Hguard. rewrite deleteBid_run.
    intros [= <- <-]. split; [|split].
    + split; [intros _; now exists cur | reflexivity].
    + intros bid [= <-] Hw Hl. tauto.
    + intros _. cbn [bids]. rewrite where_id_delete.
      split; [reflexivity|]. split.
      * unfold getBidHistory. run_M.
        now rewrite (cascade_removes _ _ _ _ Hcur).
      * intros customer.
        rewrite get_customer_bid_absent, get_customer_bid_history_absent;
          [now split | | ]; cbn [bids]; now rewrite where_id_delete.
Qed.

(** ** Refund *)

(** The columns written by a successful refund. *)
Lemma refund_sets_frame (refundId : jsstring) (now : Date) (bid : Bid) :
  let refunded :=
    assign_all
      [set_stripeDepositRefundId refundId; set_stripeFeeRefundId refundId;
       set_isRefunded true; set_updatedAt now] bid in
  isRefunded refunded = true /\
  stripeDepositRefundId refunded = Some refundId /\
  stripeFeeRefundId refunded = Some refundId /\
  status refunded = status bid /\
  stripePaymentIntentId refunded = stripePaymentIntentId bid.
Proof. destruct bid. repeat split. Qed.

Lemma createRefund_full_run (env : Env) (paymentIntentId : jsstring)
    (w : World) :
  createRefund env paymentIntentId None w
  = match stripe env with
    | None => (inl (Error "Stripe not configured"), w)
    | Some client =>
        (on_refunds_create client (stripe_log w) paymentIntentId None,
         mkWorld (bids w) (bidHistory w) (uuids w) (clock w)
           (stripe_log w ++ [refunds_create paymentIntentId None]) (ticks w))
    end.
Proof. unfold createRefund. now destruct (stripe env). Qed.

Lemma refundBidPayment_run (env : Env) (bidId : jsstring) (w : World) :
  refundBidPayment env bidId w
  = match head (where_id bidId (bids w)) with
    | None => (inl (Error "Bid not found"), w)
    | Some bid =>
        match stripePaymentIntentId bid with
        | Some paymentIntentId =>
            if truthy_string paymentIntentId then
              if isRefunded bid
              then (inl (Error "This bid has already been refunded"), w)
              else
                match createRefund env paymentIntentId None w with
                | (inr refund, w1) =>
                    (inr refund,
                     snd (updateBidPaymentInfo bidId
                            (mkPaymentInfo None (Some (refund_id refund))
                               (Some (refund_id refund)) (Some true)) w1))
                | (inl e, w1) => (inl e, w1)
                end
            else (inl (Error "No payment found for this bid"), w)
        | None => (inl (Error "No payment found for this bid"), w)
        end
    end.
Proof.
  unfold refundBidPayment, bind at 1. rewrite getBid_run.
  destruct (head (where_id bidId (bids w))) as [bid|]; [|reflexivity].
  destruct (stripePaymentIntentId bid) as [pid|]; [|reflexivity].
  destruct (truthy_string pid); [|reflexivity].
  destruct (isRefunded bid); [reflexivity|].
  unfold bind at 1.
  destruct (createRefund env pid None w) as [[e|refund] w1]; [reflexivity|].
  unfold bind at 1. rewrite updateBidPaymentInfo_run. reflexivity.
Qed.

Lemma post_refund_run (env : Env) (bidId : jsstring) (w : World) :
  post_refund env bidId w
  = match head (where_id bidId (bids w)) with
    | None => (message_json 404 "Bid not found", w)
    | Some bid =>
        if bool_decide (status bid <> str "outbid")
           && bool_decide (status bid <> str "lost")
        then (message_json 400 "Only outbid or lost bids can be refunded", w)
        else
          if isRefunded bid
          then (message_json 400 "Bid has already been refunded", w)
          else
            match refundBidPayment env bidId w with
            | (inr refund, w') =>
                (res_json
                   (json_message_refund
                      (str "Refund processed successfully") refund), w')
            | (inl error, w') =>
                (res_status_json 500
                   (json_message
                      (if truthy_string (message error)
                       then message error
                       else str "Failed to process refund")), w')
            end
    end.
Proof.
  unfold post_refund, try_catch, bind at 1. rewrite getBid_run.
  destruct (head (where_id bidId (bids w))) as [bid|]; [|reflexivity].
  destruct (bool_decide (status bid <> str "outbid")
            && bool_decide (status bid <> str "lost")); [reflexivity|].
  destruct (isRefunded bid); [reflexivity|].
  unfold bind at 1.
  now destruct (refundBidPayment env bidId w) as [[e|refund] w1].
Qed.

Lemma not_outbid_and_not_lost (st : jsstring) :
  bool_decide (st <> str "outbid") && bool_decide (st <> str "lost") = false
  <-> st = str "outbid" \/ st = str "lost".
Proof.
  destruct (decide (st = str "outbid")) as [E|E],
           (decide (st = str "lost")) as [F|F].
  - rewrite bool_decide_false by tauto. cbn. tauto.
  - rewrite bool_decide_false by tauto. cbn. tauto.
  - rewrite (bool_decide_false (st <> str "lost")) by tauto.
    rewrite andb_false_r. tauto.
  - rewrite !bool_decide_true by assumption. cbn.
    split; [discriminate | tauto].
Qed.

(** The refund endpoint on a bid that passes every guard, when the
    gateway issues the refund. *)
Lemma post_refund_success (env : Env) (bidId : jsstring) (w : World)
    (bid : Bid) (paymentIntentId : jsstring) (client : StripeClient)
    (refund : Refund) :
  head (where_id bidId (bids w)) = Some bid ->
  status bid = str "outbid" \/ status bid = str "lost" ->
  isRefunded bid = false ->
  stripePaymentIntentId bid = Some paymentIntentId ->
  truthy_string paymentIntentId = true ->
  stripe env = Some client ->
  on_refunds_create client (stripe_log w) paymentIntentId None = inr refund ->
  post_refund env bidId w
  = (res_json
       (json_message_refund (str "Refund processed successfully") refund),
     mkWorld
       (update_where_id
          (spread (mkPaymentInfo None (Some (refund_id refund))
                     (Some (refund_id refund)) (Some true))
           ++ [set_updatedAt (clock w)]) bidId (bids w))
       (bidHistory w) (uuids w) (later w)
       (stripe_log w ++ [refunds_create paymentIntentId None])
       (tl (ticks w))).
Proof.
  intros Hcur Hst Href Hpid Htruthy Hclient Hanswer.
  rewrite post_refund_run, Hcur.
  apply not_outbid_and_not_lost in Hst. rewrite Hst, Href.
  rewrite refundBidPayment_run, Hcur, Hpid, Htruthy, Href.
  rewrite createRefund_full_run, Hclient, Hanswer.
  now rewrite updateBidPaymentInfo_run.
Qed.

Lemma post_refund_200_inv (env : Env) (bidId : jsstring) (w w' : World)
    (r : Response) :
  post_refund env bidId w = (r, w') ->
  statusCode r = 200 ->
  exists bid paymentIntentId client refund,
    head (where_id bidId (bids w)) = Some bid /\
    (status bid = str "outbid" \/ status bid = str "lost") /\
    isRefunded bid = false /\
    stripePaymentIntentId bid = Some paymentIntentId /\
    truthy_string paymentIntentId = true /\
    stripe env = Some client /\
    on_refunds_create client (stripe_log w) paymentIntentId None = inr refund.
Proof.
  rewrite post_refund_run, refundBidPayment_run.
  destruct (head (where_id bidId (bids w))) as [bid|] eqn:Hcur;
    [|intros [= <- _]; discriminate].
  destruct (bool_decide (status bid <> str "outbid")
            && bool_decide (status bid <> str "lost")) eqn:Hst;
    [intros [= <- _]; discriminate|].
  destruct (isRefunded bid) eqn:Href; [intros [= <- _]; discriminate|].
  destruct (stripePaymentIntentId bid) as [pid|] eqn:Hpid;
    [|intros [= <- _]; discriminate].
  destruct (truthy_string pid) eqn:Htruthy; [|intros [= <- _]; discriminate].
  rewrite createRefund_full_run.
  destruct (stripe env) as [client|] eqn:Hclient;
    [|intros [= <- _]; discriminate].
  destruct (on_refunds_create client (stripe_log w) pid None)
    as [e|refund] eqn:Hanswer; [intros [= <- _]; discriminate|].
  intros _ _. exists bid, pid, client, refund.
  apply not_outbid_and_not_lost in Hst. tauto.
Qed.

(** C1. The refund operation succeeds only when the bid exists, its
    status is [outbid] or [lost], it is not yet refunded and a
    payment-intent id is stored; each violated condition gives its own
    error (bid not found, only outbid or lost bids can be refunded,
    already refunded, no payment found).  On success exactly one request
    for a full refund is sent to the gateway, the gateway issues the
    refund, the bid is marked refunded, both refund references hold the
    id of the refund the gateway issued, which is also the refund of the
    answer, and an immediate second refund of the same bid fails as
    already refunded.
    With every condition met, the operation succeeds as soon as the
    gateway issues the refund. *)
Theorem refund_guards_and_effects
    (env : Env) (bidId : jsstring) (w w' : World) (r : Response) :
  post_refund env bidId w = (r, w') ->
  (statusCode r = 200 ->
   exists bid paymentIntentId client refund refunded,
     getBid bidId w = (inr (Some bid), w) /\
     (status bid = str "outbid" \/ status bid = str "lost") /\
     isRefunded bid = false /\
     stripePaymentIntentId bid = Some paymentIntentId /\
     paymentIntentId <> [] /\
     stripe env = Some client /\
     stripe_log w' = stripe_log w ++ [refunds_create paymentIntentId None] /\
     on_refunds_create client (stripe_log w) paymentIntentId None
     = inr refund /\
     r = res_json
           (json_message_refund (str "Refund processed successfully") refund) /\
     getBid bidId w' = (inr (Some refunded), w') /\
     isRefunded refunded = true /\
     stripeDepositRefundId refunded = Some (refund_id refund) /\
     stripeFeeRefundId refunded = Some (refund_id refund) /\
     post_refund env bidId w'
     = (message_json 400 "Bid has already been refunded", w')) /\
  (getBid bidId w = (inr None, w) ->
   r = message_json 404 "Bid not found" /\ w' = w) /\
  (forall bid,
     getBid bidId w = (inr (Some bid), w) ->
     (status bid <> str "outbid" -> status bid <> str "lost" ->
      r = message_json 400 "Only outbid or lost bids can be refunded" /\
      w' = w) /\
     (status bid = str "outbid" \/ status bid = str "lost" ->
      isRefunded bid = true ->
      r = message_json 400 "Bid has already been refunded" /\ w' = w) /\
     (status bid = str "outbid" \/ status bid = str "lost" ->
      isRefunded bid = false ->
      truthy_opt (stripePaymentIntentId bid) = false ->
      r = message_json 500 "No payment found for this bid" /\ w' = w) /\
     (forall paymentIntentId client refund,
        status bid = str "outbid" \/ status bid = str "lost" ->
        isRefunded bid = false ->
        stripePaymentIntentId bid = Some paymentIntentId ->
        paymentIntentId <> [] ->
        stripe env = Some client ->
        on_refunds_create client (stripe_log w) paymentIntentId None
        = inr refund ->
        statusCode r = 200)).
Proof.
  intros Hrun. split; [|split].
  - intros H200.
    destruct (post_refund_200_inv _ _ _ _ _ Hrun H200)
      as (bid & pid & client & refund &
          Hcur & Hst & Href & Hpid & Htruthy & Hclient & Hanswer).
    rewrite (post_refund_success _ _ _ _ _ _ _
               Hcur Hst Href Hpid Htruthy Hclient Hanswer) in Hrun.
    injection Hrun as <- <-.
    pose proof (refund_sets_frame (refund_id refund) (clock w) bid)
      as (Hr & Hd & Hf & Hs & _).
    exists bid, pid, client, refund. eexists.
    rewrite !getBid_run.
    cbn [bids stripe_log spread app p_stripePaymentIntentId
         p_stripeDepositRefundId p_stripeFeeRefundId p_isRefunded].
    rewrite head_where_id_update, Hcur. cbn [option_map].
    repeat split; try assumption; try reflexivity.
    + intros ->. discriminate.
    + rewrite post_refund_run. cbn [bids].
      rewrite head_where_id_update, Hcur. cbn [option_map].
      rewrite Hs, Hr. apply not_outbid_and_not_lost in Hst. now rewrite Hst.
  - rewrite post_refund_run in Hrun. rewrite getBid_run. intros [= Hcur].
    rewrite Hcur in Hrun. injection Hrun as <- <-. now split.
  - intros bid. pose proof Hrun as Hrun0.
    rewrite post_refund_run in Hrun. rewrite getBid_run.
    intros [= Hcur]. rewrite Hcur in Hrun.
    split; [|split; [|split]].
    + intros Hnot_outbid Hnot_lost.
      rewrite !bool_decide_true in Hrun by assumption.
      cbn [andb] in Hrun. injection Hrun as <- <-. now split.
    + intros Hst Href. apply not_outbid_and_not_lost in Hst.
      rewrite Hst, Href in Hrun. injection Hrun as <- <-. now split.
    + intros Hst Href Hfalsy. apply not_outbid_and_not_lost in Hst.
      rewrite Hst, Href, refundBidPayment_run, Hcur in Hrun.
      unfold truthy_opt in Hfalsy.
      destruct (stripePaymentIntentId bid) as [pid|];
        [rewrite Hfalsy in Hrun|]; injection Hrun as <- <-; now split.
    + intros pid client refund Hst Href Hpid Hne Hclient Hanswer.
      assert (Htruthy : truthy_string pid = true)
        by (destruct pid; [contradiction | reflexivity]).
      rewrite (post_refund_success _ _ _ _ _ _ _
                 Hcur Hst Href Hpid Htruthy Hclient Hanswer) in Hrun0.
      now injection Hrun0 as <- _.
Qed.

(** C10. The bid is marked refunded only after the gateway call has
    succeeded: when the refund of a bid reaches the gateway and
    [createRefund] throws, the refund operation throws the same error and
    the table of bids is exactly as before, so the bid still has the
    refunded flag, the deposit-refund id and the fee-refund id it had. *)
Theorem failed_gateway_refund_leaves_bid_unchanged
    (env : Env) (bidId : jsstring) (w w1 : World) (bid : Bid)
    (paymentIntentId : jsstring) (e : Exn) :
  getBid bidId w = (inr (Some bid), w) ->
  stripePaymentIntentId bid = Some paymentIntentId ->
  paymentIntentId <> [] ->
  isRefunded bid = false ->
  createRefund env paymentIntentId None w = (inl e, w1) ->
  refundBidPayment env bidId w = (inl e, w1) /\
  bids w1 = bids w /\
  exists after,
    getBid bidId w1 = (inr (Some after), w1) /\
    isRefunded after = isRefunded bid /\
    stripeDepositRefundId after = stripeDepositRefundId bid /\
    stripeFeeRefundId after = stripeFeeRefundId bid.
Proof.
  rewrite getBid_run. intros [= Hcur] Hpid Hne Href Hfail.
  assert (Htruthy : truthy_string paymentIntentId = true)
    by (destruct paymentIntentId; [contradiction | reflexivity]).
  rewrite refundBidPayment_run, Hcur, Hpid, Htruthy, Href, Hfail.
  assert (Hbids : bids w1 = bids w).
  { rewrite createRefund_full_run in Hfail.
    destruct (stripe env) as [client|]; now injection Hfail as _ <-. }
  split; [reflexivity|]. split; [exact Hbids|].
  exists bid. rewrite getBid_run, Hbids, Hcur. now repeat split.
Qed.

(** ** Payment intents *)

Lemma getPaymentIntent_run (env : Env) (paymentIntentId : jsstring)
    (w : World) :
  getPaymentIntent env paymentIntentId w
  = match stripe env with
    | None => (inl (Error "Stripe not configured"), w)
    | Some client =>
        (on_paymentIntents_retrieve client (stripe_log w) paymentIntentId,
         mkWorld (bids w) (bidHistory w) (uuids w) (clock w)
           (stripe_log w ++ [paymentIntents_retrieve paymentIntentId]) (ticks w))
    end.
Proof. unfold getPaymentIntent. now destruct (stripe env). Qed.

Lemma createPaymentIntent_run (env : Env) (total : decimal)
    (currency : jsstring) (metadata : list (jsstring * jsstring))
    (w : World) :
  createPaymentIntent env (Number total) currency metadata w
  = match stripe env with
    | None => (inl (Error "Stripe not configured"), w)
    | Some client =>
        (on_paymentIntents_create client (stripe_log w) total currency
           metadata,
         mkWorld (bids w) (bidHistory w) (uuids w) (clock w)
           (stripe_log w ++ [paymentIntents_create total currency metadata]) (ticks w))
    end.
Proof.
  unfold createPaymentIntent. destruct (stripe env); [|reflexivity].
  now rewrite Math_round_cents.
Qed.

(** The endpoint on a bid of the caller that already stores an intent. *)
Lemma post_create_payment_intent_existing (env : Env)
    (currentUser_id bidId : jsstring) (w : World) (bid : Bid)
    (paymentIntentId : jsstring) :
  head (where_id bidId (bids w)) = Some bid ->
  customerId bid = currentUser_id ->
  stripePaymentIntentId bid = Some paymentIntentId ->
  truthy_string paymentIntentId = true ->
  post_create_payment_intent env currentUser_id bidId w
  = match getPaymentIntent env paymentIntentId w with
    | (inr existingIntent, w') =>
        (res_json (json_clientSecret (client_secret existingIntent)), w')
    | (inl _, w') =>
        (message_json 500 "Failed to create payment intent", w')
    end.
Proof.
  intros Hcur Howner Hpid Htruthy.
  unfold post_create_payment_intent, try_catch, bind at 1.
  rewrite getBid_run, Hcur, bool_decide_false by tauto.
  rewrite Hpid, Htruthy. unfold bind at 1.
  now destruct (getPaymentIntent env paymentIntentId w) as [[e|i] w1].
Qed.

(** The endpoint on a bid of the caller that stores no intent yet. *)
Lemma post_create_payment_intent_fresh (env : Env)
    (currentUser_id bidId : jsstring) (w : World) (bid : Bid) :
  head (where_id bidId (bids w)) = Some bid ->
  customerId bid = currentUser_id ->
  truthy_opt (stripePaymentIntentId bid) = false ->
  post_create_payment_intent env currentUser_id bidId w
  = match createPaymentIntent env (Number (totalPaid bid)) (str "usd")
            (intent_metadata bid) w with
    | (inr paymentIntent, w1) =>
        (res_json (json_clientSecret (client_secret paymentIntent)),
         snd (updateBidPaymentInfo bidId
                (mkPaymentInfo (Some (pi_id paymentIntent)) None None None)
                w1))
    | (inl _, w1) =>
        (message_json 500 "Failed to create payment intent", w1)
    end.
Proof.
  intros Hcur Howner Hfalsy.
  unfold post_create_payment_intent, try_catch, bind at 1.
  rewrite getBid_run, Hcur, bool_decide_false by tauto.
  cbv zeta. unfold intent_metadata, truthy_opt in *.
  destruct (stripePaymentIntentId bid) as [pid|]; [rewrite Hfalsy|];
    unfold bind at 1;
    (destruct (createPaymentIntent env (Number (totalPaid bid)) (str "usd") _ w)
       as [[e|i] w1]; [reflexivity|]);
    unfold bind at 1; rewrite updateBidPaymentInfo_run; reflexivity.
Qed.

Lemma existing_intent_is_fetched (env : Env) (customer bidId : jsstring)
    (w w' : World) (bid : Bid) (paymentIntentId : jsstring) (r : Response) :
  head (where_id bidId (bids w)) = Some bid ->
  customerId bid = customer ->
  stripePaymentIntentId bid = Some paymentIntentId ->
  paymentIntentId <> [] ->
  post_create_payment_intent env customer bidId w = (r, w') ->
  bids w' = bids w /\
  (stripe env = None -> stripe_log w' = stripe_log w) /\
  (forall client,
     stripe env = Some client ->
     stripe_log w'
     = stripe_log w ++ [paymentIntents_retrieve paymentIntentId] /\
     forall intent,
       on_paymentIntents_retrieve client (stripe_log w) paymentIntentId
       = inr intent ->
       r = res_json (json_clientSecret (client_secret intent))).
Proof.
  intros Hcur Howner Hpid Hne.
  assert (Htruthy : truthy_string paymentIntentId = true)
    by (destruct paymentIntentId; [contradiction | reflexivity]).
  rewrite (post_create_payment_intent_existing _ _ _ _ _ _
             Hcur Howner Hpid Htruthy), getPaymentIntent_run.
  destruct (stripe env) as [client|].
  - intros Hrun. split; [|split].
    + destruct (on_paymentIntents_retrieve client (stripe_log w)
                  paymentIntentId); now injection Hrun as _ <-.
    + discriminate.
    + intros c [= <-].
      destruct (on_paymentIntents_retrieve client (stripe_log w)
                  paymentIntentId)
        as [e|intent]; injection Hrun as <- <-;
        (split; [reflexivity|]); intros i Hi; congruence.
  - intros [= <- <-]. split; [reflexivity|].
    split; [reflexivity | discriminate].
Qed.

(** C7. Creating the payment intent of a bid is idempotent.  When the
    bid already stores an intent id, the endpoint only fetches that
    intent from the gateway and answers with its client secret: no
    intent is created and the bid, its stored id included, is unchanged.
    Only when no intent id is stored does it ask the gateway for a new
    intent, for an amount equal to the bid's total paid and tagged with
    the bid; it then stores the new id on the bid and answers with the
    new client secret, and a second call sends nothing but a fetch of
    that id. *)
Theorem payment_intent_created_once
    (env : Env) (customer bidId : jsstring) (w w' : World) (bid : Bid)
    (r : Response) :
  getBid bidId w = (inr (Some bid), w) ->
  customerId bid = customer ->
  post_create_payment_intent env customer bidId w = (r, w') ->
  (forall paymentIntentId,
     stripePaymentIntentId bid = Some paymentIntentId ->
     paymentIntentId <> [] ->
     bids w' = bids w /\
     (stripe env = None -> stripe_log w' = stripe_log w) /\
     (forall client,
        stripe env = Some client ->
        stripe_log w'
        = stripe_log w ++ [paymentIntents_retrieve paymentIntentId] /\
        forall intent,
          on_paymentIntents_retrieve client (stripe_log w) paymentIntentId
          = inr intent ->
          r = res_json (json_clientSecret (client_secret intent)))) /\
  (truthy_opt (stripePaymentIntentId bid) = false ->
   forall client,
     stripe env = Some client ->
     stripe_log w'
     = stripe_log w ++
       [paymentIntents_create (totalPaid bid) (str "usd")
          (intent_metadata bid)] /\
     forall intent,
       on_paymentIntents_create client (stripe_log w) (totalPaid bid)
         (str "usd") (intent_metadata bid) = inr intent ->
       r = res_json (json_clientSecret (client_secret intent)) /\
       exists stored,
         getBid bidId w' = (inr (Some stored), w') /\
         stripePaymentIntentId stored = Some (pi_id intent) /\
         (pi_id intent <> [] ->
          forall r2 w2,
            post_create_payment_intent env customer bidId w' = (r2, w2) ->
            bids w2 = bids w' /\
            stripe_log w2
            = stripe_log w' ++ [paymentIntents_retrieve (pi_id intent)])).
Proof.
  rewrite getBid_run. intros [= Hcur] Howner Hrun. split.
  - intros pid Hpid Hne.
    exact (existing_intent_is_fetched _ _ _ _ _ _ _ _
             Hcur Howner Hpid Hne Hrun).
  - intros Hfalsy client Hclient.
    rewrite (post_create_payment_intent_fresh _ _ _ _ _
               Hcur Howner Hfalsy) in Hrun.
    rewrite createPaymentIntent_run, Hclient in Hrun.
    destruct (on_paymentIntents_create client (stripe_log w) (totalPaid bid)
                (str "usd") (intent_metadata bid)) as [e|created];
      injection Hrun as <- <-.
    { split; [reflexivity | discriminate]. }
    split; [reflexivity|]. intros intent [= <-]. split; [reflexivity|].
    eexists. rewrite getBid_run. cbn [bids].
    rewrite head_where_id_update, Hcur. cbn [option_map].
    split; [reflexivity|]. split; [destruct bid; reflexivity|].
    intros Hne r2 w2 Hsecond.
    eapply existing_intent_is_fetched in Hsecond as (Hb & _ & Hlog).
    + split; [exact Hb|]. exact (proj1 (Hlog client Hclient)).
    + cbn [bids]. rewrite head_where_id_update, Hcur. reflexivity.
    + destruct bid; exact Howner.
    + destruct bid; reflexivity.
    + exact Hne.
Qed.

(** ** Notes of a generic status update *)

(** The claim C9 as it is worded fails on the empty string: notes are
    supplied, yet the bid keeps its prior notes. *)
Lemma empty_notes_do_not_overwrite :
  exists after w',
    updateBidStatus live_env (str "bid-1") (str "won") (str "employee-1")
      (Some (str ""))
      (world_of
         [lot1_bid "winning" None false (Some (str "call the customer"))])
    = (inr (Some after), w') /\
    Bid_notes after = Some (str "call the customer") /\
    Bid_notes after <> Some (str "").
Proof.
  do 2 eexists. split; [reflexivity|]. split; [reflexivity|]. discriminate.
Qed.

(** C9, amended. For every generic status update the notes of the bid
    are overwritten with the supplied notes exactly when notes that are
    not the empty string are supplied, and keep their prior value when
    the update omits notes or supplies the empty string; every field of
    the bid other than the status, the notes and the update timestamp is
    unchanged. *)
Theorem status_update_notes_and_frame
    (env : Env) (bidId status employeeId : jsstring)
    (notes : option jsstring) (w w' : World) (before after : Bid) :
  getBid bidId w = (inr (Some before), w) ->
  updateBidStatus env bidId status employeeId notes w
  = (inr (Some after), w') ->
  (forall n, notes = Some n -> n <> [] -> Bid_notes after = Some n) /\
  (notes = None \/ notes = Some [] -> Bid_notes after = Bid_notes before) /\
  Bid_status after = status /\
  id after = id before /\
  customerId after = customerId before /\
  lotNumber after = lotNumber before /\
  maxBidAmount after = maxBidAmount before /\
  serviceFee after = serviceFee before /\
  depositAmount after = depositAmount before /\
  totalPaid after = totalPaid before /\
  stripePaymentIntentId after = stripePaymentIntentId before /\
  stripeDepositRefundId after = stripeDepositRefundId before /\
  stripeFeeRefundId after = stripeFeeRefundId before /\
  isRefunded after = isRefunded before /\
  approvedBy after = approvedBy before /\
  approvedAt after = approvedAt before /\
  rejectedBy after = rejectedBy before /\
  rejectedAt after = rejectedAt before /\
  createdAt after = createdAt before.
Proof.
  rewrite getBid_run. intros [= Hcur].
  rewrite (updateBidStatus_run env _ _ _ _ _ _ Hcur). intros [= <- _].
  destruct before. cbn. repeat split.
  - intros n -> Hn. destruct n; [contradiction | reflexivity].
  - intros [-> | ->]; reflexivity.
Qed.

(** ** Creation of a bid *)

Lemma insertBidSchema_error (body : BidBody) (error : Exn) :
  insertBidSchema body = inl error -> error = ZodError.
Proof.
  unfold insertBidSchema.
  repeat match goal with
         | |- context [match ?x with Some _ => _ | None => _ end] =>
             destruct x
         | |- context [if ?b then _ else _] => destruct b
         end; congruence.
Qed.

Lemma post_customer_bids_run (env : Env) (customer : jsstring)
    (body : BidBody) (w : World) :
  post_customer_bids env customer body w
  = match insertBidSchema body with
    | inl _ =>
        (res_status_json 400 (json_message_errors (str "Invalid bid data")),
         w)
    | inr validatedData =>
        let bidData := values_of customer validatedData in
        match stored_lotNumber env bidData,
              numeric env (i_maxBidAmount validatedData),
              stored_serviceFee env bidData,
              numeric env (i_depositAmount validatedData),
              numeric env (i_totalPaid validatedData) with
        | Some lot, Some amount, Some fee, Some deposit, Some total =>
            let bid :=
              mkBid (gen_random_uuid env (uuids w)) customer lot amount fee
                deposit total (str "pending") None None None false
                None None None None (default None (i_notes validatedData))
                (clock w) (clock w) in
            (res_status_json 201 (json_bid (Some bid)),
             mkWorld (bids w ++ [bid]) (bidHistory w) (S (uuids w))
               (later w) (stripe_log w) (tl (ticks w)))
        | _, _, _, _, _ => (message_json 500 "Failed to create bid", w)
        end
    end.
Proof.
  unfold post_customer_bids, try_catch, bind at 1, parse.
  destruct (insertBidSchema body) as [error|validatedData] eqn:Hschema.
  - now rewrite (insertBidSchema_error _ _ Hschema).
  - fold (values_of customer validatedData).
    unfold bind, createBid.
    cbn [values_of v_maxBidAmount v_depositAmount v_totalPaid].
    destruct (stored_lotNumber env _); [|reflexivity].
    destruct (numeric env (i_maxBidAmount validatedData)); [|reflexivity].
    destruct (stored_serviceFee env _); [|reflexivity].
    destruct (numeric env (i_depositAmount validatedData)); [|reflexivity].
    destruct (numeric env (i_totalPaid validatedData)); reflexivity.
Qed.

(** C2. The claim does not hold of the code, which stores the amounts of
    the request and computes none of them, although the table declares
    the deposit as 10% of the max bid and the total as the service fee
    plus the deposit.  A request for a ceiling of 1000.00 that carries a
    deposit of 0.01, a total of 0.01 and no service fee passes the
    validation and is answered 201 with a pending bid whose fee is the
    default 215.00, whose deposit is 0.01, not 100.00, and whose total
    is 0.01, not 215.01. *)
Theorem deposit_and_total_are_stored_as_sent :
  exists bid w',
    post_customer_bids live_env (str "customer-A")
      (mkBidBody (JsString (str "customer-A")) (JsString (str "LOT-1"))
         (JsString (str "1000.00")) JsUndefined (JsString (str "0.01"))
         (JsString (str "0.01")) (JsString (str "pending")) JsUndefined)
      empty_world
    = (res_status_json 201 (json_bid (Some bid)), w') /\
    bids w' = [bid] /\
    status bid = str "pending" /\
    maxBidAmount bid = 100000 /\
    serviceFee bid = 21500 /\
    depositAmount bid = 1 /\
    totalPaid bid = 1 /\
    depositAmount bid <> ten_percent (maxBidAmount bid) /\
    totalPaid bid <> serviceFee bid + depositAmount bid.
Proof.
  do 2 eexists. split; [vm_compute; reflexivity|].
  cbn. repeat split; discriminate.
Qed.

(** ** The theorems on the examples *)

(** A pending bid, approved, rejected, and moved to [won] by a generic
    update: each time one history entry, from [pending] to the new
    status. *)
Lemma status_change_appends_one_history_entry_witness :
  getBid bid1 pending_world = (inr (Some pending_bid), pending_world) /\
  (exists after entry w',
     change_status live_env Approve bid1 employee1 pending_world
     = (inr (Some after), w') /\
     status after = str "approved" /\
     bidHistory w' = bidHistory pending_world ++ [entry] /\
     previousStatus entry = Some (str "pending") /\
     newStatus entry = str "approved") /\
  (exists after entry w',
     change_status live_env (Reject (str "lot withdrawn")) bid1 employee1
       pending_world
     = (inr (Some after), w') /\
     status after = str "rejected" /\
     bidHistory w' = bidHistory pending_world ++ [entry] /\
     previousStatus entry = Some (str "pending") /\
     newStatus entry = str "rejected") /\
  (exists after entry,
     change_status live_env (Update (str "won") None) bid1 employee1
       pending_world
     = (inr (Some after), won_world) /\
     won_bid = Some after /\
     bidHistory won_world = bidHistory pending_world ++ [entry] /\
     previousStatus entry = Some (str "pending") /\
     newStatus entry = str "won").
Proof.
  assert (Hbid : getBid bid1 pending_world
                 = (inr (Some pending_bid), pending_world))
    by (vm_compute; reflexivity).
  split; [exact Hbid|]. split; [|split].
  - destruct (proj1 (status_change_appends_one_history_entry live_env
                       Approve bid1 employee1 pending_world)
                pending_bid Hbid ltac:(cbn; lia))
      as (after & entry & w' & Hrun & _ & Hst & Hh & _ & _ & Hp & Hn).
    exists after, entry, w'. rewrite Hst in Hn. now repeat split.
  - destruct (proj1 (status_change_appends_one_history_entry live_env
                       (Reject (str "lot withdrawn")) bid1 employee1
                       pending_world)
                pending_bid Hbid ltac:(cbn; lia))
      as (after & entry & w' & Hrun & _ & Hst & Hh & _ & _ & Hp & Hn).
    exists after, entry, w'. rewrite Hst in Hn. now repeat split.
  - destruct (proj1 (status_change_appends_one_history_entry live_env
                       (Update (str "won") None) bid1 employee1
                       pending_world)
                pending_bid Hbid ltac:(cbn; lia))
      as (after & entry & w' & Hrun & _ & Hst & Hh & _ & _ & Hp & Hn).
    assert (Hwon : change_status live_env (Update (str "won") None) bid1
                     employee1 pending_world
                   = (inr won_bid, won_world)) by (vm_compute; reflexivity).
    rewrite Hwon in Hrun.
    assert (Hafter : won_bid = Some after) by congruence.
    assert (Hworld : won_world = w') by congruence.
    subst w'. exists after, entry. rewrite Hst in Hn.
    split; [rewrite Hwon, Hafter; reflexivity|]. now repeat split.
Defined.

Lemma approve_only_from_pending_witness :
  post_approve live_env employee1 bid1 pending_world
  = (approved_response, approved_world) /\
  statusCode approved_response = 200 /\
  exists approved entry,
    approved_response = res_json (json_bid (Some approved)) /\
    status approved = str "approved" /\
    approvedBy approved = Some employee1 /\
    bidHistory approved_world = bidHistory pending_world ++ [entry] /\
    previousStatus entry = Some (str "pending") /\
    newStatus entry = str "approved" /\
    h_notes entry = Some (str "Bid approved by employee") /\
    post_approve live_env employee1 bid1 approved_world
    = (message_json 400 "Only pending bids can be approved", approved_world).
Proof.
  assert (Hrun : post_approve live_env employee1 bid1 pending_world
                 = (approved_response, approved_world))
    by (vm_compute; reflexivity).
  assert (H200 : statusCode approved_response = 200) by reflexivity.
  split; [exact Hrun|]. split; [exact H200|].
  destruct (approve_only_from_pending live_env employee1 bid1 pending_world
              approved_world approved_response Hrun) as (_ & Hsuccess & _).
  destruct (Hsuccess H200)
    as (approved & entry & Hr & _ & Hst & Hby & _ & Hh & _ & Hprev & Hnew &
        _ & Hnote & Hagain).
  exists approved, entry. repeat split; assumption.
Defined.

Lemma reject_requires_reason_and_pending_witness :
  (post_reject live_env employee1 bid1 (JsString (str "  ")) pending_world
   = (message_json 400 "Rejection reason is required", pending_world)) /\
  post_reject live_env employee1 bid1 (JsString (str "lot withdrawn"))
    pending_world
  = (rejected_response, rejected_world) /\
  whitespace_only (str "lot withdrawn") = false /\
  statusCode rejected_response = 200 /\
  exists rejected,
    rejected_response = res_json (json_bid (Some rejected)) /\
    getBid bid1 rejected_world = (inr (Some rejected), rejected_world) /\
    status rejected = str "rejected" /\
    rejectedBy rejected = Some employee1 /\
    rejectedAt rejected = Some (clock pending_world) /\
    Bid_notes rejected = Some (str "lot withdrawn").
Proof.
  assert (Hblank : post_reject live_env employee1 bid1 (JsString (str "  "))
                     pending_world
                   = (message_json 400 "Rejection reason is required",
                      pending_world)) by (vm_compute; reflexivity).
  assert (Hrun : post_reject live_env employee1 bid1
                   (JsString (str "lot withdrawn")) pending_world
                 = (rejected_response, rejected_world))
    by (vm_compute; reflexivity).
  assert (Hreason : whitespace_only (str "lot withdrawn") = false)
    by reflexivity.
  assert (H200 : statusCode rejected_response = 200) by reflexivity.
  split; [exact Hblank|]. split; [exact Hrun|]. split; [exact Hreason|].
  split; [exact H200|].
  destruct (reject_requires_reason_and_pending live_env employee1 bid1
              (JsString (str "lot withdrawn")) pending_world rejected_world
              rejected_response Hrun) as (_ & Hsuccess).
  destruct (Hsuccess (str "lot withdrawn") eq_refl Hreason) as (_ & Heffects).
  exact (Heffects H200).
Defined.

Lemma status_update_checks_enum_only_witness :
  getBid bid1 pending_world = (inr (Some pending_bid), pending_world) /\
  str "won" ∈ bidStatusEnum /\
  exists updated entry w',
    patch_status live_env employee1 bid1
      (mkStatusBody (JsString (str "won")) (notes_value None)) pending_world
    = (res_json (json_bid (Some updated)), w') /\
    getBid bid1 w' = (inr (Some updated), w') /\
    status updated = str "won" /\
    bidHistory w' = bidHistory pending_world ++ [entry] /\
    h_bidId entry = bid1 /\
    previousStatus entry = Some (status pending_bid) /\
    newStatus entry = str "won" /\
    changedBy entry = employee1.
Proof.
  assert (Hbid : getBid bid1 pending_world
                 = (inr (Some pending_bid), pending_world))
    by (vm_compute; reflexivity).
  assert (Hin : str "won" ∈ bidStatusEnum)
    by (apply (bool_decide_unpack (str "won" ∈ bidStatusEnum));
        vm_compute; exact I).
  split; [exact Hbid|]. split; [exact Hin|].
  exact (proj1 (status_update_checks_enum_only live_env employee1 bid1
                  (str "won") pending_world pending_bid Hbid) None Hin).
Defined.

Lemma payment_intent_created_once_witness :
  getBid bid1 pending_world = (inr (Some pending_bid), pending_world) /\
  customerId pending_bid = customerA /\
  post_create_payment_intent live_env customerA bid1 pending_world
  = (intent_response, intent_world) /\
  stripe_log intent_world
  = [paymentIntents_create 31500 (str "usd") (intent_metadata pending_bid)] /\
  intent_response = res_json (json_clientSecret (Some (str "pi_secret_0"))) /\
  exists stored,
    getBid bid1 intent_world = (inr (Some stored), intent_world) /\
    stripePaymentIntentId stored = Some (str "pi_0") /\
    forall r2 w2,
      post_create_payment_intent live_env customerA bid1 intent_world
      = (r2, w2) ->
      bids w2 = bids intent_world /\
      stripe_log w2
      = stripe_log intent_world ++ [paymentIntents_retrieve (str "pi_0")].
Proof.
  assert (Hbid : getBid bid1 pending_world
                 = (inr (Some pending_bid), pending_world))
    by (vm_compute; reflexivity).
  assert (Howner : customerId pending_bid = customerA) by reflexivity.
  assert (Hrun : post_create_payment_intent live_env customerA bid1
                   pending_world
                 = (intent_response, intent_world))
    by (vm_compute; reflexivity).
  split; [exact Hbid|]. split; [exact Howner|]. split; [exact Hrun|].
  destruct (payment_intent_created_once live_env customerA bid1 pending_world
              intent_world pending_bid intent_response Hbid Howner Hrun)
    as (_ & Hfresh).
  destruct (Hfresh eq_refl accepting_client eq_refl) as (Hlog & Hcreated).
  split; [exact Hlog|].
  destruct (Hcreated
              (mkPaymentIntent (str "pi_0") (Some (str "pi_secret_0")))
              eq_refl) as (Hr & stored & Hget & Hid & Hsecond).
  split; [exact Hr|]. exists stored. split; [exact Hget|].
  split; [exact Hid|]. apply Hsecond. discriminate.
Defined.

Lemma refund_guards_and_effects_witness :
  post_refund live_env bid1 lost_paid_world
  = (refund_response, refunded_world) /\
  statusCode refund_response = 200 /\
  stripe_log refunded_world = [refunds_create (str "pi_9") None] /\
  exists refund refunded,
    on_refunds_create accepting_client [] (str "pi_9") None = inr refund /\
    refund_response
    = res_json
        (json_message_refund (str "Refund processed successfully") refund) /\
    getBid bid1 refunded_world = (inr (Some refunded), refunded_world) /\
    isRefunded refunded = true /\
    stripeDepositRefundId refunded = Some (refund_id refund) /\
    stripeFeeRefundId refunded = Some (refund_id refund) /\
    post_refund live_env bid1 refunded_world
    = (message_json 400 "Bid has already been refunded", refunded_world).
Proof.
  assert (Hrun : post_refund live_env bid1 lost_paid_world
                 = (refund_response, refunded_world))
    by (vm_compute; reflexivity).
  assert (H200 : statusCode refund_response = 200) by reflexivity.
  split; [exact Hrun|]. split; [exact H200|]. split; [reflexivity|].
  destruct (refund_guards_and_effects live_env bid1 lost_paid_world
              refunded_world refund_response Hrun) as (Hsuccess & _).
  destruct (Hsuccess H200)
    as (bid & pid & client & refund & refunded & Hbid & _ & _ & Hpid & _ &
        Hclient & _ & Hanswer & Hr & Hget & Href & Hd & Hf & Hagain).
  assert (Hpi : pid = str "pi_9").
  { rewrite getBid_run in Hbid. vm_compute in Hbid.
    injection Hbid as <-. now injection Hpid as <-. }
  assert (Hc : client = accepting_client) by (now injection Hclient as <-).
  subst pid client.
  exists refund, refunded. repeat split; assumption.
Defined.

Lemma failed_gateway_refund_leaves_bid_unchanged_witness :
  getBid bid1 lost_paid_world = (inr (Some lost_paid_bid), lost_paid_world) /\
  stripePaymentIntentId lost_paid_bid = Some (str "pi_9") /\
  str "pi_9" <> [] /\
  isRefunded lost_paid_bid = false /\
  createRefund failing_env (str "pi_9") None lost_paid_world
  = (inl StripeError, refusing_world) /\
  refundBidPayment failing_env bid1 lost_paid_world
  = (inl StripeError, refusing_world) /\
  bids refusing_world = bids lost_paid_world /\
  exists after,
    getBid bid1 refusing_world = (inr (Some after), refusing_world) /\
    isRefunded after = isRefunded lost_paid_bid /\
    stripeDepositRefundId after = stripeDepositRefundId lost_paid_bid /\
    stripeFeeRefundId after = stripeFeeRefundId lost_paid_bid.
Proof.
  assert (Hbid : getBid bid1 lost_paid_world
                 = (inr (Some lost_paid_bid), lost_paid_world))
    by (vm_compute; reflexivity).
  assert (Hpid : stripePaymentIntentId lost_paid_bid = Some (str "pi_9"))
    by reflexivity.
  assert (Hne : str "pi_9" <> []) by discriminate.
  assert (Href : isRefunded lost_paid_bid = false) by reflexivity.
  assert (Hfail : createRefund failing_env (str "pi_9") None lost_paid_world
                  = (inl StripeError, refusing_world))
    by (vm_compute; reflexivity).
  split; [exact Hbid|]. split; [exact Hpid|]. split; [exact Hne|].
  split; [exact Href|]. split; [exact Hfail|].
  exact (failed_gateway_refund_leaves_bid_unchanged failing_env bid1
           lost_paid_world refusing_world lost_paid_bid (str "pi_9")
           StripeError Hbid Hpid Hne Href Hfail).
Defined.

Lemma delete_only_won_or_lost_witness :
  delete_bid bid1 won_world = (deleted_response, deleted_world) /\
  statusCode deleted_response = 200 /\
  bidHistory won_world <> [] /\
  getBid bid1 deleted_world = (inr None, deleted_world) /\
  getBidHistory bid1 deleted_world = (inr [], deleted_world) /\
  forall customer : jsstring,
    get_customer_bid customer bid1 deleted_world
    = (message_json 404 "Bid not found", deleted_world) /\
    get_customer_bid_history customer bid1 deleted_world
    = (message_json 404 "Bid not found", deleted_world).
Proof.
  assert (Hrun : delete_bid bid1 won_world
                 = (deleted_response, deleted_world))
    by (vm_compute; reflexivity).
  assert (H200 : statusCode deleted_response = 200) by reflexivity.
  split; [exact Hrun|]. split; [exact H200|]. split; [discriminate|].
  destruct (delete_only_won_or_lost bid1 won_world deleted_world
              deleted_response Hrun) as (_ & _ & Hgone).
  exact (Hgone H200).
Defined.

Lemma status_update_notes_and_frame_witness :
  getBid bid1 noted_world = (inr (Some noted_bid), noted_world) /\
  updateBidStatus live_env bid1 (str "won") employee1 (Some (str "sold"))
    noted_world
  = (inr sold_bid, sold_world) /\
  exists after,
    sold_bid = Some after /\
    Bid_notes after = Some (str "sold") /\
    Bid_status after = str "won" /\
    totalPaid after = totalPaid noted_bid /\
    isRefunded after = isRefunded noted_bid.
Proof.
  assert (Hbid : getBid bid1 noted_world
                 = (inr (Some noted_bid), noted_world))
    by (vm_compute; reflexivity).
  assert (Hrun : updateBidStatus live_env bid1 (str "won") employee1
                   (Some (str "sold")) noted_world
                 = (inr sold_bid, sold_world)) by (vm_compute; reflexivity).
  split; [exact Hbid|]. split; [exact Hrun|]. eexists.
  split; [reflexivity|].
  destruct (status_update_notes_and_frame live_env bid1 (str "won") employee1
              (Some (str "sold")) noted_world sold_world noted_bid _
              Hbid Hrun)
    as (Hnotes & _ & Hst & _ & _ & _ & _ & _ & _ & Htotal & _ & _ & _ &
        Href & _).
  split; [apply (Hnotes (str "sold") eq_refl); discriminate|].
  split; [exact Hst|]. split; [exact Htotal | exact Href].
Defined.

(** * Further properties *)

(** ** Rows of other bids *)

Lemma where_id_update_other (sets : list BidSet) (target bidId : jsstring)
    (rows : list Bid) :
  target <> bidId ->
  where_id bidId (update_where_id sets target rows) = where_id bidId rows.
Proof.
  intros Hne. unfold where_id, update_where_id.
  induction rows as [|b rows IH]; [reflexivity|].
  cbn [List.map]. rewrite !filter_cons, IH.
  destruct (decide (id b = target)) as [E|E]; [|reflexivity].
  rewrite id_assign_all.
  destruct (decide (id b = bidId)) as [F|F]; [congruence | reflexivity].
Qed.

Lemma where_id_delete_other (target bidId : jsstring) (rows : list Bid) :
  target <> bidId ->
  where_id bidId (delete_where_id target rows) = where_id bidId rows.
Proof.
  intros Hne. unfold where_id, delete_where_id.
  induction rows as [|b rows IH]; [reflexivity|].
  rewrite !filter_cons.
  destruct (decide (id b <> target)) as [E|E].
  - rewrite filter_cons, IH. reflexivity.
  - rewrite IH. rewrite decide_False; [reflexivity|].
    intros F. apply E. congruence.
Qed.

Lemma head_where_id_app (bidId : jsstring) (rows more : list Bid) (b : Bid) :
  head (where_id bidId rows) = Some b ->
  head (where_id bidId (rows ++ more)) = Some b.
Proof.
  unfold where_id. rewrite filter_app.
  now destruct (filter (fun b => id b = bidId) rows).
Qed.

Lemma history_of_cascade_other (target bidId : jsstring) (rows : list Bid)
    (history : list BidHistory) :
  target <> bidId ->
  history_of bidId (cascade_bidHistory (where_id target rows) history)
  = history_of bidId history.
Proof.
  intros Hne. unfold history_of, cascade_bidHistory.
  induction history as [|h history IH]; [reflexivity|].
  rewrite !filter_cons.
  destruct (decide (h_bidId h ∉ List.map id (where_id target rows)))
    as [E|E].
  - rewrite filter_cons, IH. reflexivity.
  - rewrite IH. rewrite decide_False; [reflexivity|].
    intros F. apply E. intros Hin.
    apply list_elem_of_In, in_map_iff in Hin as (b & Hb & Hin).
    apply list_elem_of_In, list_elem_of_filter in Hin as [Hid _].
    congruence.
Qed.

Lemma history_of_others (bidId target : jsstring)
    (entries : list BidHistory) :
  target <> bidId ->
  Forall (fun entry => h_bidId entry = target) entries ->
  history_of bidId entries = [].
Proof.
  intros Hne Hall. unfold history_of.
  induction Hall as [|h entries Hh _ IH]; [reflexivity|].
  rewrite filter_cons_False by congruence. exact IH.
Qed.

Lemma history_of_own (bidId : jsstring) (entries : list BidHistory) :
  Forall (fun entry => h_bidId entry = bidId) entries ->
  history_of bidId entries = entries.
Proof.
  intros Hall. unfold history_of.
  induction Hall as [|h entries Hh _ IH]; [reflexivity|].
  rewrite filter_cons_True by exact Hh. now rewrite IH.
Qed.

Lemma links_app (first middle last : jsstring)
    (entries more : list BidHistory) :
  links first entries middle -> links middle more last ->
  links first (entries ++ more) last.
Proof.
  revert first. induction entries as [|e entries IH]; intros first; cbn.
  - now intros ->.
  - intros [Hp Hl] Hm. split; [exact Hp|]. now apply IH.
Qed.

(** ** The endpoints, one request at a time *)

Lemma post_create_payment_intent_refused (env : Env)
    (customer bidId : jsstring) (w : World) :
  match head (where_id bidId (bids w)) with
  | None => True
  | Some bid => customerId bid <> customer
  end ->
  snd (post_create_payment_intent env customer bidId w) = w.
Proof.
  intros H. unfold post_create_payment_intent, try_catch, bind at 1.
  rewrite getBid_run.
  destruct (head (where_id bidId (bids w))) as [bid|]; [|reflexivity].
  now rewrite bool_decide_true by exact H.
Qed.

Lemma read_endpoints_run (w : World) (customer bidId : jsstring) :
  snd (get_customer_bids customer w) = w /\
  snd (get_customer_bid customer bidId w) = w /\
  snd (get_customer_bid_history customer bidId w) = w /\
  snd (get_employee_bids w) = w.
Proof.
  repeat split.
  - unfold get_customer_bid, try_catch, bind at 1. rewrite getBid_run.
    destruct (head (where_id bidId (bids w))) as [bid|]; [|reflexivity].
    now destruct (bool_decide (customerId bid <> customer)).
  - unfold get_customer_bid_history, try_catch, bind at 1. rewrite getBid_run.
    destruct (head (where_id bidId (bids w))) as [bid|]; [|reflexivity].
    now destruct (bool_decide (customerId bid <> customer)).
Qed.

Ltac no_effect :=
  split;
  [ exists []; rewrite app_nil_r; repeat split; auto
  | apply effect_none; reflexivity ].

Ltac solve_update bid Hcur :=
  lazymatch goal with
  | |- head _ = Some _ => exact Hcur
  | |- same_creation _ _ => destruct bid; repeat split
  | |- Forall _ _ => repeat constructor
  | |- links _ _ _ => destruct bid; repeat split
  | |- (_ <= _)%nat => cbn; lia
  | |- _ -> _ =>
      first [ solve [intros; congruence]
            | destruct bid; cbn; first [tauto | congruence | reflexivity] ]
  | |- _ = _ => first [reflexivity | rewrite app_nil_r; reflexivity]
  end.

Ltac one_sent rq :=
  eexists [rq]; repeat split; [cbn; lia | discriminate].

Lemma handle_effect (env : Env) (rq : BidRequest)
    (w : World) :
  log_effect rq w (snd (handle env rq w)) /\
  table_effect rq w (snd (handle env rq w)).
Proof.
  destruct rq as [customer|customer body|customer bidId|bidId|customer bidId|
                  customer bidId| |employee bidId|employee bidId notes|
                  employee bidId body|bidId]; cbn [handle].
  - (* GET customer bids *) no_effect.
  - (* POST customer bids *)
    rewrite post_customer_bids_run.
    destruct (insertBidSchema body) as [error|data]; [no_effect|].
    cbv zeta.
    destruct (stored_lotNumber env _); [|no_effect].
    destruct (numeric env (i_maxBidAmount data)); [|no_effect].
    destruct (stored_serviceFee env _); [|no_effect].
    destruct (numeric env (i_depositAmount data)); [|no_effect].
    destruct (numeric env (i_totalPaid data)); [|no_effect].
    split.
    + exists []. rewrite app_nil_r. repeat split; auto.
    + eapply effect_insert; reflexivity.
  - (* POST create-payment-intent *)
    destruct (head (where_id bidId (bids w))) as [bid|] eqn:Hcur.
    2:{ rewrite post_create_payment_intent_refused by now rewrite Hcur.
        split; [|apply effect_none; reflexivity].
        exists []. rewrite app_nil_r. repeat split; auto. }
    destruct (decide (customerId bid = customer)) as [Howner|Howner].
    2:{ rewrite post_create_payment_intent_refused by now rewrite Hcur.
        split; [|apply effect_none; reflexivity].
        exists []. rewrite app_nil_r. repeat split; auto. }
    destruct (truthy_opt (stripePaymentIntentId bid)) eqn:Htruthy.
    + unfold truthy_opt in Htruthy.
      destruct (stripePaymentIntentId bid) as [pid|] eqn:Hpid;
        [|discriminate].
      rewrite (post_create_payment_intent_existing _ _ _ _ _ _
                 Hcur Howner Hpid Htruthy), getPaymentIntent_run.
      destruct (stripe env) as [client|].
      * destruct (on_paymentIntents_retrieve client (stripe_log w) pid);
          (split; [one_sent (paymentIntents_retrieve pid)
                  | apply effect_none; reflexivity]).
      * split; [|apply effect_none; reflexivity].
        exists []. rewrite app_nil_r. repeat split; auto.
    + rewrite (post_create_payment_intent_fresh _ _ _ _ _
                 Hcur Howner Htruthy), createPaymentIntent_run.
      destruct (stripe env) as [client|].
      2:{ split; [|apply effect_none; reflexivity].
          exists []. rewrite app_nil_r. repeat split; auto. }
      destruct (on_paymentIntents_create client (stripe_log w)
                  (totalPaid bid) (str "usd") (intent_metadata bid))
        as [e|intent].
      { split; [|apply effect_none; reflexivity].
        one_sent (paymentIntents_create (totalPaid bid) (str "usd")
                    (intent_metadata bid)). }
      rewrite updateBidPaymentInfo_run. cbn [snd bids clock]. split.
      * one_sent (paymentIntents_create (totalPaid bid) (str "usd")
                    (intent_metadata bid)).
      * eapply (effect_update _ _ _ bidId bid _ []); solve_update bid Hcur.
  - (* POST refund *)
    rewrite post_refund_run.
    destruct (head (where_id bidId (bids w))) as [bid|] eqn:Hcur;
      [|no_effect].
    destruct (bool_decide (status bid <> str "outbid")
              && bool_decide (status bid <> str "lost")); [no_effect|].
    destruct (isRefunded bid) eqn:Href; [no_effect|].
    rewrite refundBidPayment_run, Hcur.
    destruct (stripePaymentIntentId bid) as [pid|] eqn:Hpid; [|no_effect].
    destruct (truthy_string pid) eqn:Htruthy; [|no_effect].
    rewrite Href, createRefund_full_run.
    destruct (stripe env) as [client|]; [|no_effect].
    destruct (on_refunds_create client (stripe_log w) pid None)
      as [e|refund].
    { split; [|apply effect_none; reflexivity].
      one_sent (refunds_create pid None). }
    rewrite updateBidPaymentInfo_run. cbn [snd bids clock]. split.
    + one_sent (refunds_create pid None).
    + eapply (effect_update _ _ _ bidId bid _ []); solve_update bid Hcur.
  - (* GET customer bid *)
    rewrite (proj1 (proj2 (read_endpoints_run w customer bidId))).
    no_effect.
  - (* GET customer bid history *)
    rewrite (proj1 (proj2 (proj2 (read_endpoints_run w customer bidId)))).
    no_effect.
  - (* GET employee bids *) no_effect.
  - (* POST approve *)
    rewrite post_approve_run.
    destruct (head (where_id bidId (bids w))) as [bid|] eqn:Hcur;
      [|no_effect].
    destruct (bool_decide (status bid <> str "pending")); [no_effect|].
    rewrite (approveBid_run env _ _ _ _ Hcur). cbn [snd]. split.
    + exists []. rewrite app_nil_r. repeat split; auto.
    + eapply effect_update; solve_update bid Hcur.
  - (* POST reject *)
    rewrite post_reject_run.
    destruct (negb (truthy notes)); [no_effect|].
    destruct notes as [| |b|q|reason|]; try no_effect.
    destruct (negb (truthy_string (trim reason))); [no_effect|].
    destruct (head (where_id bidId (bids w))) as [bid|] eqn:Hcur;
      [|no_effect].
    destruct (bool_decide (status bid <> str "pending")); [no_effect|].
    rewrite (rejectBid_run env _ _ _ _ _ Hcur). cbn [snd]. split.
    + exists []. rewrite app_nil_r. repeat split; auto.
    + eapply effect_update; solve_update bid Hcur.
  - (* PATCH status *)
    rewrite patch_status_run.
    destruct (updateBidStatusSchema body) as [error|data]; [no_effect|].
    destruct (head (where_id bidId (bids w))) as [bid|] eqn:Hcur;
      [|no_effect].
    rewrite (updateBidStatus_run env _ _ _ _ _ _ Hcur). cbn [snd]. split.
    + exists []. rewrite app_nil_r. repeat split; auto.
    + eapply effect_update; solve_update bid Hcur.
  - (* DELETE bid *)
    rewrite delete_bid_run.
    destruct (head (where_id bidId (bids w))) as [bid|] eqn:Hcur;
      [|no_effect].
    destruct (bool_decide (status bid <> str "won")
              && bool_decide (status bid <> str "lost")); [no_effect|].
    rewrite deleteBid_run. cbn [snd]. split.
    + exists []. rewrite app_nil_r. repeat split; auto.
    + eapply effect_delete; reflexivity.
Qed.

(** One request, seen from a bid that it does not delete. *)
Lemma request_step (env : Env) (rq : BidRequest)
    (w : World) (bidId : jsstring) (b : Bid) :
  head (where_id bidId (bids w)) = Some b ->
  deletes bidId rq = false \/
  is_Some (head (where_id bidId (bids (snd (handle env rq w))))) ->
  exists b' entries,
    head (where_id bidId (bids (snd (handle env rq w))))
    = Some b' /\
    history_of bidId
      (bidHistory (snd (handle env rq w)))
    = history_of bidId (bidHistory w) ++ entries /\
    links (status b) entries (status b') /\
    same_creation b b' /\
    (isRefunded b = true -> isRefunded b' = true) /\
    (truthy_opt (stripePaymentIntentId b) = true ->
     stripePaymentIntentId b' = stripePaymentIntentId b).
Proof.
  intros Hcur Hkeep.
  destruct (handle_effect env rq w) as [_ Heffect].
  destruct Heffect
    as [Hb Hh | bid Hb Hh
        | target cur sets entries Hhead Hb Hh Hsame Href Hpid Hall Hlinks _
        | target Hrq Hb Hh].
  - exists b, []. rewrite Hb, Hh, app_nil_r.
    repeat split; auto.
  - exists b, []. rewrite Hb, Hh, app_nil_r.
    repeat split; auto. now apply head_where_id_app.
  - destruct (decide (target = bidId)) as [->|Hne].
    + assert (cur = b) as -> by congruence.
      exists (assign_all sets b), entries. rewrite Hb, Hh.
      rewrite head_where_id_update, Hcur. unfold history_of at 1.
      rewrite filter_app. fold (history_of bidId entries).
      rewrite (history_of_own _ _ Hall).
      split; [reflexivity|]. split; [reflexivity|]. tauto.
    + exists b, []. rewrite Hb, Hh, (where_id_update_other _ _ _ _ Hne).
      unfold history_of at 1. rewrite filter_app.
      fold (history_of bidId entries).
      rewrite (history_of_others _ _ _ Hne Hall).
      repeat split; auto.
  - subst rq.
    assert (Hne : target <> bidId).
    { intros ->. destruct Hkeep as [Hkeep|Hkeep].
      - cbn in Hkeep. now rewrite bool_decide_true in Hkeep.
      - rewrite Hb, where_id_delete in Hkeep. now destruct Hkeep. }
    exists b, []. rewrite Hb, Hh, (where_id_delete_other _ _ _ Hne).
    rewrite (history_of_cascade_other _ _ _ _ Hne), app_nil_r.
    repeat split; auto.
Qed.

(** A sequence of requests, seen from a bid that none of them deletes. *)
Lemma serve_invariants (env : Env) (rqs : list BidRequest) (bidId : jsstring) :
  forall (w : World) (b : Bid),
    head (where_id bidId (bids w)) = Some b ->
    never_deleted bidId rqs = true ->
    exists b' entries,
      head (where_id bidId (bids (serve env rqs w)))
      = Some b' /\
      history_of bidId (bidHistory (serve env rqs w))
      = history_of bidId (bidHistory w) ++ entries /\
      links (status b) entries (status b') /\
      same_creation b b' /\
      (isRefunded b = true -> isRefunded b' = true) /\
      (truthy_opt (stripePaymentIntentId b) = true ->
       stripePaymentIntentId b' = stripePaymentIntentId b).
Proof.
  induction rqs as [|rq rqs IH]; intros w b Hcur Hkeep.
  - exists b, []. cbn. rewrite app_nil_r. repeat split; auto.
  - cbn in Hkeep. apply andb_true_iff in Hkeep as [Hrq Hrqs].
    apply negb_true_iff in Hrq.
    destruct (request_step env rq w bidId b Hcur (or_introl Hrq))
      as (b1 & es1 & Hcur1 & Hh1 & Hl1 & Hs1 & Hr1 & Hp1).
    destruct (IH _ b1 Hcur1 Hrqs)
      as (b' & es2 & Hcur2 & Hh2 & Hl2 & Hs2 & Hr2 & Hp2).
    exists b', (es1 ++ es2). cbn [serve fold_left].
    fold (serve env rqs
            (snd (handle env rq w))).
    rewrite Hcur2, Hh2, Hh1, app_assoc.
    split; [reflexivity|]. split; [reflexivity|].
    split; [exact (links_app _ _ _ _ _ Hl1 Hl2)|].
    split.
    { unfold same_creation in *. intuition congruence. }
    split; [tauto|].
    intros Ht. rewrite Hp2; [now apply Hp1|].
    now rewrite (Hp1 Ht).
Qed.

(** A sequence of requests, seen from a bid that stays in the table. *)
Lemma serve_invariants_of_stays (env : Env) (rqs : list BidRequest)
    (bidId : jsstring) :
  forall (w : World) (b : Bid),
    head (where_id bidId (bids w)) = Some b ->
    stays env bidId rqs w = true ->
    exists b' entries,
      head (where_id bidId (bids (serve env rqs w))) = Some b' /\
      history_of bidId (bidHistory (serve env rqs w))
      = history_of bidId (bidHistory w) ++ entries /\
      links (status b) entries (status b') /\
      same_creation b b' /\
      (isRefunded b = true -> isRefunded b' = true) /\
      (truthy_opt (stripePaymentIntentId b) = true ->
       stripePaymentIntentId b' = stripePaymentIntentId b).
Proof.
  induction rqs as [|rq rqs IH]; intros w b Hcur Hkeep.
  - exists b, []. cbn. rewrite app_nil_r. repeat split; auto.
  - cbn [stays] in Hkeep. apply andb_true_iff in Hkeep as [Hrq Hrqs].
    apply bool_decide_eq_true in Hrq.
    destruct (request_step env rq w bidId b Hcur (or_intror Hrq))
      as (b1 & es1 & Hcur1 & Hh1 & Hl1 & Hs1 & Hr1 & Hp1).
    destruct (IH _ b1 Hcur1 Hrqs)
      as (b' & es2 & Hcur2 & Hh2 & Hl2 & Hs2 & Hr2 & Hp2).
    exists b', (es1 ++ es2). cbn [serve fold_left].
    fold (serve env rqs (snd (handle env rq w))).
    rewrite Hcur2, Hh2, Hh1, app_assoc.
    split; [reflexivity|]. split; [reflexivity|].
    split; [exact (links_app _ _ _ _ _ Hl1 Hl2)|].
    split.
    { unfold same_creation in *. intuition congruence. }
    split; [tauto|].
    intros Ht. rewrite Hp2; [now apply Hp1|].
    now rewrite (Hp1 Ht).
Qed.

(** ** Invariants of a bid over any sequence of requests *)

(** X1. Whatever requests are served, as long as none asks for the
    deletion of a bid, that bid stays in the table and the columns given
    at its creation (customer, lot number, max bid amount, service fee,
    deposit amount, total paid, creation time) keep their values. *)
Theorem creation_columns_never_change
    (env : Env) (rqs : list BidRequest) (bidId : jsstring) (w : World) (b : Bid) :
  getBid bidId w = (inr (Some b), w) ->
  never_deleted bidId rqs = true ->
  exists b',
    getBid bidId (serve env rqs w)
    = (inr (Some b'), serve env rqs w) /\
    customerId b' = customerId b /\
    lotNumber b' = lotNumber b /\
    maxBidAmount b' = maxBidAmount b /\
    serviceFee b' = serviceFee b /\
    depositAmount b' = depositAmount b /\
    totalPaid b' = totalPaid b /\
    createdAt b' = createdAt b.
Proof.
  rewrite getBid_run. intros [= Hcur] Hkeep.
  destruct (serve_invariants env rqs bidId w b
              Hcur Hkeep) as (b' & _ & Hcur' & _ & _ & Hsame & _).
  exists b'. rewrite getBid_run, Hcur'. unfold same_creation in Hsame.
  tauto.
Qed.

(** X2. The refunded flag is monotonic: once a bid is refunded, no
    sequence of requests that leaves the bid in the table (after each of
    them the bid is still there; a refused request for its deletion is
    such a request) brings the flag back to false. *)
Theorem refunded_flag_is_monotonic
    (env : Env) (rqs : list BidRequest) (bidId : jsstring) (w : World)
    (b : Bid) :
  getBid bidId w = (inr (Some b), w) ->
  isRefunded b = true ->
  stays env bidId rqs w = true ->
  exists b',
    getBid bidId (serve env rqs w) = (inr (Some b'), serve env rqs w) /\
    isRefunded b' = true.
Proof.
  rewrite getBid_run. intros [= Hcur] Href Hkeep.
  destruct (serve_invariants_of_stays env rqs bidId w b Hcur Hkeep)
    as (b' & _ & Hcur' & _ & _ & _ & Hmono & _).
  exists b'. rewrite getBid_run, Hcur'. split; [reflexivity | tauto].
Qed.

(** X3. A payment-intent id, once stored on a bid, is never replaced:
    after any sequence of requests that leaves the bid in the table
    (after each of them the bid is still there), the bid stores the same
    id. *)
Theorem stored_intent_id_is_never_replaced
    (env : Env) (rqs : list BidRequest) (bidId : jsstring) (w : World)
    (b : Bid) (paymentIntentId : jsstring) :
  getBid bidId w = (inr (Some b), w) ->
  stripePaymentIntentId b = Some paymentIntentId ->
  paymentIntentId <> [] ->
  stays env bidId rqs w = true ->
  exists b',
    getBid bidId (serve env rqs w) = (inr (Some b'), serve env rqs w) /\
    stripePaymentIntentId b' = Some paymentIntentId.
Proof.
  rewrite getBid_run. intros [= Hcur] Hpid Hne Hkeep.
  destruct (serve_invariants_of_stays env rqs bidId w b Hcur Hkeep)
    as (b' & _ & Hcur' & _ & _ & _ & _ & Hstable).
  exists b'. rewrite getBid_run, Hcur'. split; [reflexivity|].
  rewrite <- Hpid. apply Hstable. rewrite Hpid.
  destruct paymentIntentId; [contradiction | reflexivity].
Qed.

(** X4. The history of a bid is a gap-free trail.  Over any sequence of
    requests that does not delete the bid (after each of them the bid is
    still in the table), the history rows the bid had are kept as they
    are (also when other bids are deleted), and the rows added for it
    link up: the first starts from the status the bid had, each next one
    starts from the status the one before ended in, and the last ends in
    the status the bid has now. *)
Theorem history_of_a_bid_links_up
    (env : Env) (rqs : list BidRequest) (bidId : jsstring) (w : World)
    (b : Bid) :
  getBid bidId w = (inr (Some b), w) ->
  stays env bidId rqs w = true ->
  exists b' entries,
    getBid bidId (serve env rqs w) = (inr (Some b'), serve env rqs w) /\
    history_of bidId (bidHistory (serve env rqs w))
    = history_of bidId (bidHistory w) ++ entries /\
    links (status b) entries (status b').
Proof.
  rewrite getBid_run. intros [= Hcur] Hkeep.
  destruct (serve_invariants_of_stays env rqs bidId w b Hcur Hkeep)
    as (b' & entries & Hcur' & Hh & Hl & _).
  exists b', entries. rewrite getBid_run, Hcur'. tauto.
Qed.

(** X5. Only the two payment endpoints talk to the gateway, and each
    request makes at most one call: over any sequence of requests the
    log of gateway calls only grows, by no more calls than there are
    payment-intent and refund requests in the sequence. *)
Theorem gateway_calls_are_bounded
    (env : Env) (rqs : list BidRequest) (w : World) :
  exists sent,
    stripe_log (serve env rqs w) = stripe_log w ++ sent /\
    (length sent <= length (List.filter is_payment_request rqs))%nat.
Proof.
  revert w. induction rqs as [|rq rqs IH]; intros w.
  - exists []. cbn. rewrite app_nil_r. split; [reflexivity | lia].
  - destruct (handle_effect env rq w)
      as [(sent1 & Hlog1 & Hlen1 & Hnone) _].
    destruct (IH (snd (handle env rq w)))
      as (sent2 & Hlog2 & Hlen2).
    exists (sent1 ++ sent2). cbn [serve fold_left].
    fold (serve env rqs
            (snd (handle env rq w))).
    rewrite Hlog2, Hlog1, app_assoc. split; [reflexivity|].
    rewrite length_app. cbn [List.filter].
    destruct (is_payment_request rq).
    + cbn [length]. lia.
    + rewrite (Hnone eq_refl). cbn [length]. lia.
Qed.

Lemma creation_columns_never_change_witness :
  getBid bid1 pending_world = (inr (Some pending_bid), pending_world) /\
  never_deleted bid1 busy_day = true /\
  exists b',
    getBid bid1 evening_world = (inr (Some b'), evening_world) /\
    customerId b' = customerA /\
    lotNumber b' = str "LOT-1" /\
    maxBidAmount b' = 100000 /\
    serviceFee b' = 21500 /\
    depositAmount b' = 10000 /\
    totalPaid b' = 31500 /\
    createdAt b' = 900.
Proof.
  assert (Hbid : getBid bid1 pending_world
                 = (inr (Some pending_bid), pending_world))
    by (vm_compute; reflexivity).
  assert (Hkeep : never_deleted bid1 busy_day = true) by reflexivity.
  split; [exact Hbid|]. split; [exact Hkeep|].
  exact (creation_columns_never_change live_env
           busy_day bid1 pending_world pending_bid Hbid Hkeep).
Defined.

Lemma refunded_flag_is_monotonic_witness :
  getBid bid1 refunded_world = (inr refunded_bid, refunded_world) /\
  stays live_env bid1 guarded_requests refunded_world = true /\
  never_deleted bid1 guarded_requests = false /\
  exists b b',
    refunded_bid = Some b /\
    isRefunded b = true /\
    getBid bid1 guarded_world = (inr (Some b'), guarded_world) /\
    isRefunded b' = true.
Proof.
  assert (Hbid : getBid bid1 refunded_world = (inr refunded_bid, refunded_world))
    by (vm_compute; reflexivity).
  assert (Hkeep : stays live_env bid1 guarded_requests refunded_world = true)
    by (vm_compute; reflexivity).
  split; [exact Hbid|]. split; [exact Hkeep|]. split; [reflexivity|].
  eexists.
  destruct (refunded_flag_is_monotonic live_env guarded_requests bid1
              refunded_world _ Hbid eq_refl Hkeep) as (b' & Hget & Href).
  exists b'. split; [reflexivity|]. split; [reflexivity|].
  split; [exact Hget | exact Href].
Defined.

Lemma stored_intent_id_is_never_replaced_witness :
  getBid bid1 refunded_world = (inr refunded_bid, refunded_world) /\
  stays live_env bid1 guarded_requests refunded_world = true /\
  str "pi_9" <> [] /\
  exists b b',
    refunded_bid = Some b /\
    stripePaymentIntentId b = Some (str "pi_9") /\
    getBid bid1 guarded_world = (inr (Some b'), guarded_world) /\
    stripePaymentIntentId b' = Some (str "pi_9").
Proof.
  assert (Hbid : getBid bid1 refunded_world = (inr refunded_bid, refunded_world))
    by (vm_compute; reflexivity).
  assert (Hkeep : stays live_env bid1 guarded_requests refunded_world = true)
    by (vm_compute; reflexivity).
  assert (Hne : str "pi_9" <> []) by discriminate.
  split; [exact Hbid|]. split; [exact Hkeep|]. split; [exact Hne|].
  eexists.
  destruct (stored_intent_id_is_never_replaced live_env guarded_requests
              bid1 refunded_world _ (str "pi_9") Hbid eq_refl Hne Hkeep)
    as (b' & Hget & Hpid).
  exists b'. split; [reflexivity|]. split; [reflexivity|].
  split; [exact Hget | exact Hpid].
Defined.

Lemma history_of_a_bid_links_up_witness :
  getBid bid1 pending_world = (inr (Some pending_bid), pending_world) /\
  stays live_env bid1 long_day pending_world = true /\
  never_deleted bid1 long_day = false /\
  exists b' entries,
    getBid bid1 night_world = (inr (Some b'), night_world) /\
    history_of bid1 (bidHistory night_world)
    = history_of bid1 (bidHistory pending_world) ++ entries /\
    links (str "pending") entries (status b').
Proof.
  assert (Hbid : getBid bid1 pending_world
                 = (inr (Some pending_bid), pending_world))
    by (vm_compute; reflexivity).
  assert (Hkeep : stays live_env bid1 long_day pending_world = true)
    by (vm_compute; reflexivity).
  split; [exact Hbid|]. split; [exact Hkeep|]. split; [reflexivity|].
  exact (history_of_a_bid_links_up live_env long_day bid1 pending_world
           pending_bid Hbid Hkeep).
Defined.

(** ** Unknown bids and bids of other customers *)

(** X6. Every endpoint that names a bid answers 404 "Bid not found" when
    no such bid is stored, and leaves the tables, the clock and the
    gateway log as they were (the request body having passed the checks
    that precede the lookup). *)
Theorem unknown_bid_is_not_found
    (env : Env) (rq : BidRequest) (bidId : jsstring) (w : World) :
  target_of rq = Some bidId ->
  body_accepted rq = true ->
  getBid bidId w = (inr None, w) ->
  handle env rq w
  = (message_json 404 "Bid not found", w).
Proof.
  rewrite getBid_run. intros Htarget Hbody [= Hnone].
  destruct rq as [customer|customer body|customer target|target|
                  customer target|customer target| |employee target|
                  employee target notes|employee target body|target];
    try discriminate Htarget; injection Htarget as ->; cbn [handle].
  - unfold post_create_payment_intent, try_catch, bind at 1.
    now rewrite getBid_run, Hnone.
  - now rewrite post_refund_run, Hnone.
  - now apply get_customer_bid_absent.
  - now apply get_customer_bid_history_absent.
  - now rewrite post_approve_run, Hnone.
  - rewrite post_reject_run.
    destruct notes as [| |b|q|reason|]; try discriminate Hbody.
    cbn [body_accepted] in Hbody. cbn [truthy].
    rewrite truthy_trim. apply negb_true_iff in Hbody. rewrite Hbody.
    assert (Hne : truthy_string reason = true)
      by (destruct reason; [discriminate Hbody | reflexivity]).
    rewrite Hne, Hnone. reflexivity.
  - rewrite patch_status_run. cbn [body_accepted] in Hbody.
    destruct (updateBidStatusSchema body); [discriminate Hbody|].
    now rewrite Hnone.
  - now rewrite delete_bid_run, Hnone.
Qed.

Lemma update_where_id_absent (sets : list BidSet) (bidId : jsstring)
    (rows : list Bid) :
  where_id bidId rows = [] -> update_where_id sets bidId rows = rows.
Proof.
  unfold update_where_id, where_id.
  induction rows as [|b rows IH]; [reflexivity|].
  rewrite filter_cons. cbn [List.map].
  destruct (decide (id b = bidId)); [discriminate|].
  intros H. now rewrite IH.
Qed.

Lemma delete_where_id_absent (bidId : jsstring) (rows : list Bid) :
  where_id bidId rows = [] -> delete_where_id bidId rows = rows.
Proof.
  unfold delete_where_id, where_id.
  induction rows as [|b rows IH]; [reflexivity|].
  rewrite !filter_cons.
  destruct (decide (id b = bidId)); [discriminate|].
  intros H. rewrite decide_True by assumption. now rewrite IH.
Qed.

(** X7. The storage operations write nothing for an id that is not in
    the table: the three status changes return undefined and leave the
    world as it is (no history row is written), the update of the payment
    columns returns undefined and leaves both tables as they are, and a
    deletion leaves both tables as they are. *)
Theorem storage_ignores_unknown_bid
    (env : Env) (bidId employee : jsstring) (op : StatusChange)
    (paymentInfo : PaymentInfo) (w : World) :
  getBid bidId w = (inr None, w) ->
  change_status env op bidId employee w = (inr None, w) /\
  fst (updateBidPaymentInfo bidId paymentInfo w) = inr None /\
  bids (snd (updateBidPaymentInfo bidId paymentInfo w)) = bids w /\
  bidHistory (snd (updateBidPaymentInfo bidId paymentInfo w))
  = bidHistory w /\
  bids (snd (deleteBid bidId w)) = bids w /\
  bidHistory (snd (deleteBid bidId w)) = bidHistory w.
Proof.
  rewrite getBid_run. intros [= Hnone].
  assert (Hrows : where_id bidId (bids w) = []).
  { now destruct (where_id bidId (bids w)). }
  pose proof (fun sets => update_where_id_absent sets _ _ Hrows) as Hupd.
  pose proof (delete_where_id_absent _ _ Hrows) as Hdel.
  split; [now apply change_status_none|].
  rewrite updateBidPaymentInfo_run, deleteBid_run. cbn [fst snd bids bidHistory].
  rewrite Hnone, Hupd, Hdel, Hrows. repeat split.
  unfold cascade_bidHistory. cbn [List.map].
  induction (bidHistory w) as [|h rows IH]; [reflexivity|].
  rewrite filter_cons_True; [now rewrite IH|].
  intros Hin. inversion Hin.
Qed.

(** X8. A bid of another customer is out of reach: reading it, reading
    its history and creating its payment intent all answer 403
    "Forbidden" and change nothing (no call goes to the gateway); for the
    owner the first two answer with the bid and with the history query of
    the bid. *)
Theorem bid_of_another_customer_is_forbidden
    (env : Env) (customer bidId : jsstring) (w : World) (bid : Bid) :
  getBid bidId w = (inr (Some bid), w) ->
  (customerId bid <> customer ->
   get_customer_bid customer bidId w = (message_json 403 "Forbidden", w) /\
   get_customer_bid_history customer bidId w
   = (message_json 403 "Forbidden", w) /\
   post_create_payment_intent env customer bidId w
   = (message_json 403 "Forbidden", w)) /\
  (customerId bid = customer ->
   get_customer_bid customer bidId w = (res_json (json_bid (Some bid)), w) /\
   exists history,
     getBidHistory bidId w = (inr history, w) /\
     get_customer_bid_history customer bidId w
     = (res_json (json_history history), w)).
Proof.
  rewrite getBid_run. intros [= Hcur]. split.
  - intros Hother. repeat split.
    + unfold get_customer_bid, try_catch, bind at 1.
      rewrite getBid_run, Hcur. now rewrite bool_decide_true.
    + unfold get_customer_bid_history, try_catch, bind at 1.
      rewrite getBid_run, Hcur. now rewrite bool_decide_true.
    + unfold post_create_payment_intent, try_catch, bind at 1.
      rewrite getBid_run, Hcur. now rewrite bool_decide_true.
  - intros Howner. split.
    + unfold get_customer_bid, try_catch, bind at 1.
      rewrite getBid_run, Hcur. now rewrite bool_decide_false by tauto.
    + eexists. split; [reflexivity|].
      unfold get_customer_bid_history, try_catch, bind at 1.
      rewrite getBid_run, Hcur. now rewrite bool_decide_false by tauto.
Qed.

(** ** Listings *)

#[local] Instance desc_bid_createdAt_total : Total desc_bid_createdAt.
Proof. intros a b. unfold desc_bid_createdAt. lia. Qed.

#[local] Instance desc_bid_createdAt_trans : Transitive desc_bid_createdAt.
Proof. intros a b c. unfold desc_bid_createdAt. lia. Qed.

#[local] Instance desc_createdAt_total : Total desc_createdAt.
Proof. intros a b. unfold desc_createdAt. lia. Qed.

#[local] Instance desc_createdAt_trans : Transitive desc_createdAt.
Proof. intros a b c. unfold desc_createdAt. lia. Qed.

(** X9. The list of a customer's bids holds exactly the rows of [bids]
    that belong to the customer, each as often as it is in the table, and
    no bid of anybody else; it is ordered newest first. *)
Theorem customer_bids_are_own_and_newest_first
    (customer : jsstring) (w : World) :
  exists rows,
    get_customer_bids customer w = (res_json (json_bids rows), w) /\
    getBidsByCustomer customer w = (inr rows, w) /\
    rows ≡ₚ filter (fun b => customerId b = customer) (bids w) /\
    Forall (fun b => customerId b = customer) rows /\
    StronglySorted (fun a b => createdAt b <= createdAt a) rows.
Proof.
  eexists. split; [reflexivity|]. split; [reflexivity|].
  assert (Hperm : orderBy_desc_bid_createdAt
                    (filter (fun b => customerId b = customer) (bids w))
                  ≡ₚ filter (fun b => customerId b = customer) (bids w))
    by apply merge_sort_Permutation.
  split; [exact Hperm|]. split.
  - rewrite Hperm. apply Forall_forall. intros b Hb.
    apply list_elem_of_filter in Hb. tauto.
  - apply (StronglySorted_merge_sort desc_bid_createdAt).
Qed.

(** X10. The list of all bids for employees is a rearrangement of the
    whole [bids] table, ordered newest first. *)
Theorem employee_bids_are_all_and_newest_first (w : World) :
  exists rows,
    get_employee_bids w = (res_json (json_bids rows), w) /\
    getAllBids w = (inr rows, w) /\
    rows ≡ₚ bids w /\
    StronglySorted (fun a b => createdAt b <= createdAt a) rows.
Proof.
  eexists. split; [reflexivity|]. split; [reflexivity|]. split.
  - apply merge_sort_Permutation.
  - apply (StronglySorted_merge_sort desc_bid_createdAt).
Qed.

(** X11. The history query of a bid returns exactly the history rows of
    that bid, and none of another bid, ordered newest first. *)
Theorem bid_history_is_own_and_newest_first (bidId : jsstring) (w : World) :
  exists rows,
    getBidHistory bidId w = (inr rows, w) /\
    rows ≡ₚ history_of bidId (bidHistory w) /\
    Forall (fun h => h_bidId h = bidId) rows /\
    StronglySorted (fun a b => h_createdAt b <= h_createdAt a) rows.
Proof.
  eexists. split; [reflexivity|].
  assert (Hperm : orderBy_desc_createdAt
                    (filter (fun h => h_bidId h = bidId) (bidHistory w))
                  ≡ₚ history_of bidId (bidHistory w))
    by apply merge_sort_Permutation.
  split; [exact Hperm|]. split.
  - rewrite Hperm. apply Forall_forall. intros h Hh.
    apply list_elem_of_filter in Hh. tauto.
  - apply (StronglySorted_merge_sort desc_createdAt).
Qed.

(** ** A new bid *)

(** X12. Creation of a bid.  A request that passes the validation is
    answered 500 "Failed to create bid", with nothing stored, when the
    database refuses the lot number or one of the amounts; otherwise it
    is answered 201 with the new bid.  The bid holds what the database
    stores for the lot number and the amounts of the request (the fee is
    215.00 when the request has none), the notes of the request, the
    current user as customer and the status [pending], whatever customer
    and status the request names.  When the id the database generates is
    not yet in the table, the bid is the one fetched under its id
    afterwards, and every bid that could be fetched before is fetched
    unchanged; it can be approved at once, and it can be neither refunded
    nor deleted. *)
Theorem created_bid_is_fetched_and_pending
    (env : Env) (customer : jsstring) (body : BidBody)
    (validatedData : InsertBid) (w : World) :
  insertBidSchema body = inr validatedData ->
  let stored_fee :=
    match i_serviceFee validatedData with
    | Some fee => numeric env fee
    | None => Some default_serviceFee
    end in
  (varchar env 100 (i_lotNumber validatedData) = None \/
   numeric env (i_maxBidAmount validatedData) = None \/
   stored_fee = None \/
   numeric env (i_depositAmount validatedData) = None \/
   numeric env (i_totalPaid validatedData) = None ->
   post_customer_bids env customer body w
   = (message_json 500 "Failed to create bid", w)) /\
  (forall lot amount fee deposit total,
     varchar env 100 (i_lotNumber validatedData) = Some lot ->
     numeric env (i_maxBidAmount validatedData) = Some amount ->
     stored_fee = Some fee ->
     numeric env (i_depositAmount validatedData) = Some deposit ->
     numeric env (i_totalPaid validatedData) = Some total ->
     exists bid w',
       post_customer_bids env customer body w
       = (res_status_json 201 (json_bid (Some bid)), w') /\
       bid
       = mkBid (gen_random_uuid env (uuids w)) customer lot amount fee
           deposit total (str "pending") None None None false
           None None None None (default None (i_notes validatedData))
           (clock w) (clock w) /\
       bids w' = bids w ++ [bid] /\
       bidHistory w' = bidHistory w /\
       (getBid (id bid) w = (inr None, w) ->
        getBid (id bid) w' = (inr (Some bid), w') /\
        (forall other b,
           getBid other w = (inr (Some b), w) ->
           getBid other w' = (inr (Some b), w')) /\
        (forall employee,
           statusCode (fst (post_approve env employee (id bid) w')) = 200) /\
        post_refund env (id bid) w'
        = (message_json 400 "Only outbid or lost bids can be refunded", w') /\
        delete_bid (id bid) w'
        = (message_json 400 "Only won or lost bids can be deleted", w'))).
Proof.
  intros Hvalid stored_fee. subst stored_fee.
  assert (Hrun := post_customer_bids_run env customer body w).
  rewrite Hvalid in Hrun. cbv zeta in Hrun.
  unfold stored_lotNumber, stored_serviceFee in Hrun.
  cbn [values_of v_lotNumber v_serviceFee] in Hrun.
  split.
  - intros Hrefused. rewrite Hrun. clear Hrun.
    destruct (varchar env 100 (i_lotNumber validatedData)); [|reflexivity].
    destruct (numeric env (i_maxBidAmount validatedData)); [|reflexivity].
    destruct (match i_serviceFee validatedData with
              | Some fee => numeric env fee
              | None => Some default_serviceFee
              end); [|reflexivity].
    destruct (numeric env (i_depositAmount validatedData)); [|reflexivity].
    destruct (numeric env (i_totalPaid validatedData)); [|reflexivity].
    exfalso. intuition discriminate.
  - intros lot amount fee deposit total Hlot Hamount Hfee Hdeposit Htotal.
    rewrite Hlot, Hamount, Hfee, Hdeposit, Htotal in Hrun.
    do 2 eexists. split; [exact Hrun|].
    split; [reflexivity|]. split; [reflexivity|]. split; [reflexivity|].
    cbn [id]. rewrite getBid_run. intros [= Hfresh].
    assert (Hrows : where_id (gen_random_uuid env (uuids w)) (bids w) = [])
      by now destruct (where_id (gen_random_uuid env (uuids w)) (bids w)).
    assert (Hnew : forall b,
              id b = gen_random_uuid env (uuids w) ->
              head (where_id (gen_random_uuid env (uuids w)) (bids w ++ [b]))
              = Some b).
    { intros b Hid. unfold where_id in *. rewrite filter_app, Hrows.
      now rewrite filter_cons_True. }
    split.
    { rewrite getBid_run. cbn [bids]. now rewrite Hnew. }
    split.
    { intros other b. rewrite !getBid_run. cbn [bids]. intros [= Hb].
      now rewrite (head_where_id_app _ _ _ _ Hb). }
    split.
    { intros employee. rewrite post_approve_run. cbn [bids].
      rewrite Hnew by reflexivity. cbn [status].
      rewrite bool_decide_false by (intros H; now apply H).
      erewrite approveBid_run by (cbn [bids]; now apply Hnew).
      reflexivity. }
    split.
    + rewrite post_refund_run. cbn [bids]. now rewrite Hnew.
    + rewrite delete_bid_run. cbn [bids]. now rewrite Hnew.
Qed.

Lemma rejected_is_not_pending : str "rejected" <> str "pending".
Proof. intros H. vm_compute in H. discriminate. Qed.

(** X13. Approval and rejection exclude each other.  From a pending bid
    either one succeeds, and after one of them has succeeded every
    further approve answers "Only pending bids can be approved" and every
    further reject (with a proper reason) answers "Only pending bids can
    be rejected". *)
Theorem approve_and_reject_exclude_each_other
    (env : Env) (employee bidId reason : jsstring) (w : World) (bid : Bid) :
  getBid bidId w = (inr (Some bid), w) ->
  status bid = str "pending" ->
  whitespace_only reason = false ->
  forall w',
    w' = snd (post_approve env employee bidId w) \/
    w' = snd (post_reject env employee bidId (JsString reason) w) ->
    forall (again : jsstring) (notes : jsstring),
      whitespace_only notes = false ->
      post_approve env again bidId w'
      = (message_json 400 "Only pending bids can be approved", w') /\
      post_reject env again bidId (JsString notes) w'
      = (message_json 400 "Only pending bids can be rejected", w').
Proof.
  rewrite getBid_run. intros [= Hcur] Hpending Hreason w' Hw' again notes
    Hnotes.
  assert (Htruthy : forall s, whitespace_only s = false ->
                              truthy_string s = true)
    by (intros [|c s] H; [discriminate H | reflexivity]).
  assert (Hafter : exists b',
            head (where_id bidId (bids w')) = Some b' /\
            status b' <> str "pending").
  { destruct Hw' as [-> | ->].
    - rewrite post_approve_run, Hcur, Hpending.
      rewrite bool_decide_false by (intros H; now apply H).
      rewrite (approveBid_run env _ _ _ _ Hcur). cbn [snd bids].
      rewrite head_where_id_update, Hcur. eexists. split; [reflexivity|].
      destruct bid. exact approved_is_not_pending.
    - rewrite post_reject_run. cbn [truthy].
      rewrite (Htruthy _ Hreason), truthy_trim, Hreason, Hcur, Hpending.
      cbn [negb]. rewrite bool_decide_false by (intros H; now apply H).
      rewrite (rejectBid_run env _ _ _ _ _ Hcur). cbn [snd bids].
      rewrite head_where_id_update, Hcur. eexists. split; [reflexivity|].
      destruct bid. exact rejected_is_not_pending. }
  destruct Hafter as (b' & Hcur' & Hst). split.
  - rewrite post_approve_run, Hcur'. now rewrite bool_decide_true.
  - rewrite post_reject_run. cbn [truthy].
    rewrite (Htruthy _ Hnotes), truthy_trim, Hnotes, Hcur'. cbn [negb].
    now rewrite bool_decide_true.
Qed.

(** ** The payment adapter *)

(** X14. The amount of a refund.  Without an amount, and also with an
    amount of zero, [createRefund] asks the gateway for a full refund;
    with any other amount of whole hundredths that a decimal column can
    hold (below 10^8 in absolute value, where [Math.round(amount * 100)]
    on doubles gives the hundredths exactly) it asks for exactly that
    many minor units.  Either way one request is sent. *)
Theorem refund_amount_in_minor_units
    (env : Env) (client : StripeClient) (paymentIntentId : jsstring)
    (w : World) :
  stripe env = Some client ->
  let sent cents :=
    (on_refunds_create client (stripe_log w) paymentIntentId cents,
     mkWorld (bids w) (bidHistory w) (uuids w) (clock w)
       (stripe_log w ++ [refunds_create paymentIntentId cents]) (ticks w)) in
  createRefund env paymentIntentId None w = sent None /\
  createRefund env paymentIntentId (Some (Number 0)) w = sent None /\
  forall d : decimal,
    numeric_10_2 d ->
    d <> 0 ->
    createRefund env paymentIntentId (Some (Number d)) w = sent (Some d).
Proof.
  intros Hclient sent. unfold createRefund. rewrite Hclient.
  split; [reflexivity|]. split; [reflexivity|].
  intros d _ Hd. cbn [truthy_number option_map].
  assert (Hnz : Qeq_bool (Number d) 0 = false).
  { apply not_true_is_false. intros H. apply Qeq_bool_iff in H.
    unfold Number, Qeq in H. cbn in H. lia. }
  rewrite Hnz. cbn [negb]. now rewrite Math_round_cents.
Qed.

(** X15. Without a configured gateway client nothing is charged or
    refunded and nothing is stored: the payment-intent and refund
    endpoints leave the world exactly as it was, an eligible refund is
    answered with 500 "Stripe not configured", and the creation of an
    intent with 500 "Failed to create payment intent". *)
Theorem without_stripe_nothing_happens
    (env : Env) (customer bidId : jsstring) (w : World) (bid : Bid) :
  stripe env = None ->
  getBid bidId w = (inr (Some bid), w) ->
  snd (post_refund env bidId w) = w /\
  snd (post_create_payment_intent env customer bidId w) = w /\
  (customerId bid = customer ->
   post_create_payment_intent env customer bidId w
   = (message_json 500 "Failed to create payment intent", w)) /\
  (status bid = str "outbid" \/ status bid = str "lost" ->
   isRefunded bid = false ->
   truthy_opt (stripePaymentIntentId bid) = true ->
   post_refund env bidId w = (message_json 500 "Stripe not configured", w)).
Proof.
  rewrite getBid_run. intros Hnone [= Hcur].
  assert (Hintent : customerId bid = customer ->
            post_create_payment_intent env customer bidId w
            = (message_json 500 "Failed to create payment intent", w)).
  { intros Howner.
    destruct (truthy_opt (stripePaymentIntentId bid)) eqn:Htruthy.
    - unfold truthy_opt in Htruthy.
      destruct (stripePaymentIntentId bid) as [pid|] eqn:Hpid;
        [|discriminate].
      rewrite (post_create_payment_intent_existing _ _ _ _ _ _
                 Hcur Howner Hpid Htruthy), getPaymentIntent_run.
      now rewrite Hnone.
    - rewrite (post_create_payment_intent_fresh _ _ _ _ _
                 Hcur Howner Htruthy), createPaymentIntent_run.
      now rewrite Hnone. }
  assert (Hrefund : post_refund env bidId w
            = if bool_decide (status bid <> str "outbid")
                 && bool_decide (status bid <> str "lost")
              then (message_json 400
                      "Only outbid or lost bids can be refunded", w)
              else if isRefunded bid
                   then (message_json 400 "Bid has already been refunded", w)
                   else if truthy_opt (stripePaymentIntentId bid)
                        then (message_json 500 "Stripe not configured", w)
                        else (message_json 500
                                "No payment found for this bid", w)).
  { rewrite post_refund_run, Hcur, refundBidPayment_run, Hcur.
    destruct (bool_decide (status bid <> str "outbid")
              && bool_decide (status bid <> str "lost")); [reflexivity|].
    destruct (isRefunded bid); [reflexivity|].
    unfold truthy_opt. destruct (stripePaymentIntentId bid) as [pid|];
      [|reflexivity].
    destruct (truthy_string pid); [|reflexivity].
    now rewrite createRefund_full_run, Hnone. }
  split.
  { rewrite Hrefund.
    destruct (bool_decide (status bid <> str "outbid")
              && bool_decide (status bid <> str "lost")); [reflexivity|].
    destruct (isRefunded bid); [reflexivity|].
    now destruct (truthy_opt (stripePaymentIntentId bid)). }
  split.
  { destruct (decide (customerId bid = customer)) as [Howner|Hother].
    - now rewrite (Hintent Howner).
    - apply post_create_payment_intent_refused. now rewrite Hcur. }
  split; [exact Hintent|].
  intros Hst Href Htruthy. rewrite Hrefund.
  apply not_outbid_and_not_lost in Hst. now rewrite Hst, Href, Htruthy.
Qed.

(** X16. [refundBidPayment] itself looks at the payment columns only,
    not at the status: a missing payment is reported first (also for a
    bid that is already refunded), then an earlier refund, and a bid
    with a payment that is not yet refunded is refunded in whatever
    status it is; its status stays what it was. *)
Theorem service_refund_does_not_look_at_status
    (env : Env) (bidId : jsstring) (w : World) (bid : Bid) :
  getBid bidId w = (inr (Some bid), w) ->
  (truthy_opt (stripePaymentIntentId bid) = false ->
   refundBidPayment env bidId w
   = (inl (Error "No payment found for this bid"), w)) /\
  (truthy_opt (stripePaymentIntentId bid) = true ->
   isRefunded bid = true ->
   refundBidPayment env bidId w
   = (inl (Error "This bid has already been refunded"), w)) /\
  (forall paymentIntentId client refund,
     stripePaymentIntentId bid = Some paymentIntentId ->
     paymentIntentId <> [] ->
     isRefunded bid = false ->
     stripe env = Some client ->
     on_refunds_create client (stripe_log w) paymentIntentId None
     = inr refund ->
     exists w' refunded,
       refundBidPayment env bidId w = (inr refund, w') /\
       getBid bidId w' = (inr (Some refunded), w') /\
       isRefunded refunded = true /\
       status refunded = status bid /\
       bidHistory w' = bidHistory w).
Proof.
  rewrite getBid_run. intros [= Hcur].
  rewrite refundBidPayment_run, Hcur. unfold truthy_opt. repeat split.
  - destruct (stripePaymentIntentId bid) as [pid|]; [|reflexivity].
    now intros ->.
  - destruct (stripePaymentIntentId bid) as [pid|]; [|discriminate].
    now intros -> ->.
  - intros pid client refund Hpid Hne Href Hclient Hanswer.
    assert (Htruthy : truthy_string pid = true)
      by (destruct pid; [contradiction | reflexivity]).
    rewrite Hpid, Htruthy, Href, createRefund_full_run, Hclient, Hanswer.
    rewrite updateBidPaymentInfo_run.
    cbn [snd bids bidHistory clock spread app p_stripePaymentIntentId
         p_stripeDepositRefundId p_stripeFeeRefundId p_isRefunded].
    do 2 eexists. split; [reflexivity|]. rewrite getBid_run. cbn [bids].
    rewrite head_where_id_update, Hcur. split; [reflexivity|].
    destruct bid. repeat split.
Qed.

(** X17. When the gateway refuses to create an intent, the endpoint
    answers 500 and stores nothing: the bid still has no intent id, so a
    retry asks the gateway for a new intent again. *)
Theorem failed_intent_creation_stores_nothing
    (env : Env) (customer bidId : jsstring) (w : World) (bid : Bid)
    (client : StripeClient) (e : Exn) :
  getBid bidId w = (inr (Some bid), w) ->
  customerId bid = customer ->
  truthy_opt (stripePaymentIntentId bid) = false ->
  stripe env = Some client ->
  on_paymentIntents_create client (stripe_log w) (totalPaid bid) (str "usd")
    (intent_metadata bid) = inl e ->
  exists w',
    post_create_payment_intent env customer bidId w
    = (message_json 500 "Failed to create payment intent", w') /\
    bids w' = bids w /\
    getBid bidId w' = (inr (Some bid), w') /\
    stripe_log (snd (post_create_payment_intent env customer bidId w'))
    = stripe_log w ++
      [paymentIntents_create (totalPaid bid) (str "usd") (intent_metadata bid);
       paymentIntents_create (totalPaid bid) (str "usd")
         (intent_metadata bid)].
Proof.
  rewrite getBid_run. intros [= Hcur] Howner Hfalsy Hclient Hfail.
  rewrite (post_create_payment_intent_fresh _ _ _ _ _ Hcur Howner Hfalsy).
  rewrite createPaymentIntent_run, Hclient, Hfail.
  eexists. split; [reflexivity|]. cbn [bids]. split; [reflexivity|].
  rewrite getBid_run. cbn [bids]. split; [now rewrite Hcur|].
  rewrite (post_create_payment_intent_fresh env customer bidId _ bid);
    [|exact Hcur|exact Howner|exact Hfalsy].
  rewrite createPaymentIntent_run, Hclient. cbn [stripe_log].
  destruct (on_paymentIntents_create client
              (stripe_log w ++
               [paymentIntents_create (totalPaid bid) (str "usd")
                  (intent_metadata bid)])
              (totalPaid bid) (str "usd") (intent_metadata bid))
    as [e2|intent].
  - cbn [snd stripe_log]. now rewrite <- app_assoc.
  - rewrite updateBidPaymentInfo_run. cbn [snd stripe_log].
    now rewrite <- app_assoc.
Qed.

(** ** What a write changes *)

(** X18. [approveBid] and [rejectBid] check no status themselves, and
    each changes only its own columns: approval writes the status, the
    approver, the approval time and the update time; rejection writes
    the status, the rejecter, the rejection time, the notes and the
    update time.  The time of the decision is the first reading of the
    clock and the update time the second one, which may give the same
    millisecond or a later one.  Amounts, payment columns and the
    columns of the other decision are left as they are. *)
Theorem approve_and_reject_change_their_columns_only
    (env : Env) (bidId employee notes : jsstring) (w : World) (before : Bid) :
  getBid bidId w = (inr (Some before), w) ->
  fst (approveBid env bidId employee w)
  = inr (Some
           (mkBid (id before) (customerId before) (lotNumber before)
              (maxBidAmount before) (serviceFee before)
              (depositAmount before) (totalPaid before) (str "approved")
              (stripePaymentIntentId before) (stripeDepositRefundId before)
              (stripeFeeRefundId before) (isRefunded before)
              (Some employee) (Some (clock w)) (rejectedBy before)
              (rejectedAt before) (Bid_notes before) (createdAt before)
              (later w))) /\
  fst (rejectBid env bidId employee notes w)
  = inr (Some
           (mkBid (id before) (customerId before) (lotNumber before)
              (maxBidAmount before) (serviceFee before)
              (depositAmount before) (totalPaid before) (str "rejected")
              (stripePaymentIntentId before) (stripeDepositRefundId before)
              (stripeFeeRefundId before) (isRefunded before)
              (approvedBy before) (approvedAt before) (Some employee)
              (Some (clock w)) (Some notes) (createdAt before)
              (later w))).
Proof.
  rewrite getBid_run. intros [= Hcur].
  rewrite (approveBid_run env _ _ _ _ Hcur),
    (rejectBid_run env _ _ _ _ _ Hcur).
  destruct before. split; reflexivity.
Qed.

(** X19. [updateBidPaymentInfo] writes the keys it is given and nothing
    else: each of the four payment columns takes the value of its key
    when the key is present and keeps its value when the key is absent;
    the update time is set; every other column, the status included, is
    left as it is, and no history row is written. *)
Theorem payment_update_writes_given_keys_only
    (bidId : jsstring) (paymentInfo : PaymentInfo) (w : World) (before : Bid) :
  getBid bidId w = (inr (Some before), w) ->
  fst (updateBidPaymentInfo bidId paymentInfo w)
  = inr (Some
           (mkBid (id before) (customerId before) (lotNumber before)
              (maxBidAmount before) (serviceFee before)
              (depositAmount before) (totalPaid before) (status before)
              (match p_stripePaymentIntentId paymentInfo with
               | Some v => Some v
               | None => stripePaymentIntentId before
               end)
              (match p_stripeDepositRefundId paymentInfo with
               | Some v => Some v
               | None => stripeDepositRefundId before
               end)
              (match p_stripeFeeRefundId paymentInfo with
               | Some v => Some v
               | None => stripeFeeRefundId before
               end)
              (default (isRefunded before) (p_isRefunded paymentInfo))
              (approvedBy before) (approvedAt before) (rejectedBy before)
              (rejectedAt before) (notes before) (createdAt before)
              (clock w))) /\
  bidHistory (snd (updateBidPaymentInfo bidId paymentInfo w)) = bidHistory w.
Proof.
  rewrite getBid_run. intros [= Hcur].
  rewrite updateBidPaymentInfo_run, Hcur. cbn [fst snd bidHistory].
  split; [|reflexivity].
  destruct before, paymentInfo as [[pi|] [dr|] [fr|] [r|]]; reflexivity.
Qed.

(** ** Accounts: the storage layer *)

Ltac run_MA :=
  cbv beta iota zeta delta
    [getUser upsertUser getUsersByType updateUserStatus createEmployeeAction
     getEmployeeActions bindA retA new_DateA next_uuidA get_users set_users
     get_employeeActions set_employeeActions try_catchA
     a_later a_clock_after a_ticks_after time_after Nat.iter];
  cbn [users employeeActions a_uuids a_clock a_ticks
       n_employeeId n_actionType n_performedBy n_notes].

Lemma getUser_run (userId : jsstring) (w : Accounts) :
  getUser userId w = (inr (head (where_user_id userId (users w))), w).
Proof. reflexivity. Qed.

Lemma u_id_set_user (d : UpsertUser) (now : Date) (u : User)
    (userId : jsstring) :
  u_id u = userId -> d_id d = None \/ d_id d = Some userId ->
  u_id (set_user d now u) = userId.
Proof. intros Hu [Hd | Hd]; unfold set_user; cbn; now rewrite Hd. Qed.

Lemma where_user_id_update (f : User -> User) (userId : jsstring)
    (rows : list User) :
  (forall u, u_id u = userId -> u_id (f u) = userId) ->
  where_user_id userId (update_users_where_id f userId rows)
  = List.map f (where_user_id userId rows).
Proof.
  intros Hf. unfold where_user_id, update_users_where_id.
  induction rows as [|u rows IH]; [reflexivity|].
  cbn [List.map]. rewrite !filter_cons.
  destruct (decide (u_id u = userId)) as [E|E].
  - rewrite decide_True by now apply Hf. cbn [List.map]. now rewrite IH.
  - rewrite decide_False by exact E. exact IH.
Qed.

Lemma where_user_id_update_other (f : User -> User)
    (target userId : jsstring) (rows : list User) :
  (forall u, u_id u = target -> u_id (f u) = target) ->
  target <> userId ->
  where_user_id userId (update_users_where_id f target rows)
  = where_user_id userId rows.
Proof.
  intros Hf Hne. unfold where_user_id, update_users_where_id.
  induction rows as [|u rows IH]; [reflexivity|].
  cbn [List.map]. rewrite !filter_cons, IH.
  destruct (decide (u_id u = target)) as [E|E]; [|reflexivity].
  rewrite (decide_False (P := u_id (f u) = userId))
    by (rewrite (Hf u E); exact Hne).
  now rewrite decide_False by congruence.
Qed.

Lemma ids_update_users (f : User -> User) (target : jsstring)
    (rows : list User) :
  (forall u, u_id u = target -> u_id (f u) = target) ->
  List.map u_id (update_users_where_id f target rows) = List.map u_id rows.
Proof.
  intros Hf. unfold update_users_where_id.
  induction rows as [|u rows IH]; [reflexivity|].
  cbn [List.map]. rewrite IH.
  destruct (decide (u_id u = target)) as [E|E]; [|reflexivity].
  now rewrite (Hf u E), E.
Qed.

Lemma where_user_id_nil_not_in (userId : jsstring) (rows : list User) :
  where_user_id userId rows = [] -> ~ In userId (List.map u_id rows).
Proof.
  unfold where_user_id. induction rows as [|u rows IH]; [intros _ []|].
  rewrite filter_cons.
  destruct (decide (u_id u = userId)) as [E|E]; [discriminate|].
  intros H [Hin | Hin]; [contradiction | now apply IH].
Qed.

Lemma updateUserStatus_run (userId : jsstring) (active : bool)
    (w : Accounts) :
  updateUserStatus userId active w
  = (inr (option_map (with_status active (a_clock w))
            (head (where_user_id userId (users w)))),
     mkAccounts
       (update_users_where_id (with_status active (a_clock w)) userId
          (users w))
       (employeeActions w) (a_uuids w) (a_later w) (tl (a_ticks w))).
Proof.
  run_MA. rewrite where_user_id_update by (intros u Hu; exact Hu).
  now destruct (where_user_id userId (users w)).
Qed.

(** ** Accounts: deactivation of an employee *)

Lemma delete_admin_employee_run (gen_uuid : nat -> jsstring)
    (admin target : jsstring) (w : Accounts) :
  delete_admin_employee gen_uuid admin target w
  = match head (where_user_id target (users w)) with
    | None => (text_json 404 "Employee not found", w)
    | Some employee =>
        if bool_decide (userType employee <> Some (str "employee"))
        then (text_json 400 "Can only delete employee accounts", w)
        else
          (text_json 200 "Employee account deleted successfully",
           mkAccounts
             (update_users_where_id (with_status false (a_clock w)) target
                (users w))
             (employeeActions w ++
              [mkEmployeeAction (gen_uuid (a_uuids w)) target (str "deleted")
                 admin
                 (Some (str "Employee account deactivated by super admin"))
                 (a_later w)])
             (S (a_uuids w)) (a_clock_after 2 w) (a_ticks_after 2 w))
    end.
Proof.
  unfold delete_admin_employee, try_catchA, bindA at 1.
  rewrite getUser_run.
  destruct (head (where_user_id target (users w))) as [employee|];
    [|reflexivity].
  destruct (bool_decide (userType employee <> Some (str "employee")));
    [reflexivity|].
  unfold bindA at 1. rewrite updateUserStatus_run. reflexivity.
Qed.

(** X20. Deactivation is a soft delete.  For an existing user of type
    employee the endpoint succeeds, whether the account is still active
    or not: the row stays in [users] with the active flag off and the
    update time set, every other column as before; no row is added or
    removed and the other users are untouched; and exactly one action
    is appended to the audit log, tagged "deleted", naming the employee
    and the super admin who did it. *)
Theorem employee_is_deactivated_not_removed
    (gen_uuid : nat -> jsstring) (admin target : jsstring) (w : Accounts)
    (employee : User) :
  getUser target w = (inr (Some employee), w) ->
  userType employee = Some (str "employee") ->
  exists w' action,
    delete_admin_employee gen_uuid admin target w
    = (text_json 200 "Employee account deleted successfully", w') /\
    getUser target w'
    = (inr (Some (with_status false (a_clock w) employee)), w') /\
    List.map u_id (users w') = List.map u_id (users w) /\
    (forall other,
       other <> target -> fst (getUser other w') = fst (getUser other w)) /\
    employeeActions w' = employeeActions w ++ [action] /\
    employeeId action = target /\
    actionType action = str "deleted" /\
    performedBy action = admin /\
    a_notes action = Some (str "Employee account deactivated by super admin").
Proof.
  rewrite getUser_run. intros [= Hcur] Htype.
  rewrite delete_admin_employee_run, Hcur.
  rewrite bool_decide_false by (intros H; now apply H).
  do 2 eexists. split; [reflexivity|]. rewrite getUser_run. cbn [users].
  rewrite where_user_id_update by (intros u Hu; exact Hu).
  split.
  { destruct (where_user_id target (users w)); [discriminate|].
    cbn in *. congruence. }
  split; [apply ids_update_users; intros u Hu; exact Hu|].
  split.
  { intros other Hne. rewrite !getUser_run. cbn [fst users].
    rewrite where_user_id_update_other;
      [reflexivity | intros u Hu; exact Hu | congruence]. }
  cbn [employeeActions]. repeat split.
Qed.

(** X21. Only employees can be deactivated: for an id that is not in
    [users] the endpoint answers 404 "Employee not found", for a user of
    any other type (a customer, a super admin, a user without a type) it
    answers 400 "Can only delete employee accounts"; in both cases
    neither table changes and no action is logged. *)
Theorem only_employees_are_deactivated
    (gen_uuid : nat -> jsstring) (admin target : jsstring) (w : Accounts) :
  (getUser target w = (inr None, w) ->
   delete_admin_employee gen_uuid admin target w
   = (text_json 404 "Employee not found", w)) /\
  (forall user,
     getUser target w = (inr (Some user), w) ->
     userType user <> Some (str "employee") ->
     delete_admin_employee gen_uuid admin target w
     = (text_json 400 "Can only delete employee accounts", w)).
Proof.
  rewrite !getUser_run, delete_admin_employee_run. split.
  - now intros [= ->].
  - intros user [= ->] Htype. now rewrite bool_decide_true.
Qed.

#[local] Instance desc_action_createdAt_total : Total desc_action_createdAt.
Proof. intros a b. unfold desc_action_createdAt. lia. Qed.

#[local] Instance desc_action_createdAt_trans :
  Transitive desc_action_createdAt.
Proof. intros a b c. unfold desc_action_createdAt. lia. Qed.

(** X22. The audit log of an employee lists exactly the actions recorded
    for that employee, and none of another, newest first; a deactivation
    adds its action to the log of the employee and leaves the log of
    every other employee as it was. *)
Theorem employee_actions_are_own_and_newest_first
    (gen_uuid : nat -> jsstring) (admin target employee : jsstring)
    (w : Accounts) :
  exists rows,
    get_admin_employee_actions employee w
    = (mkAccountResponse 200 (json_actions rows), w) /\
    rows ≡ₚ filter (fun a => employeeId a = employee) (employeeActions w) /\
    Forall (fun a => employeeId a = employee) rows /\
    StronglySorted (fun a b => a_createdAt b <= a_createdAt a) rows /\
    (a_statusCode (fst (delete_admin_employee gen_uuid admin target w)) = 200 ->
     exists action,
       employeeId action = target /\
       performedBy action = admin /\
       filter (fun a => employeeId a = employee)
         (employeeActions
            (snd (delete_admin_employee gen_uuid admin target w)))
       = filter (fun a => employeeId a = employee) (employeeActions w)
         ++ (if decide (target = employee) then [action] else [])).
Proof.
  eexists. split; [reflexivity|].
  assert (Hperm : merge_sort desc_action_createdAt
                    (filter (fun a => employeeId a = employee)
                       (employeeActions w))
                  ≡ₚ filter (fun a => employeeId a = employee)
                       (employeeActions w))
    by apply merge_sort_Permutation.
  split; [exact Hperm|]. split.
  { rewrite Hperm. apply Forall_forall. intros a Ha.
    apply list_elem_of_filter in Ha. tauto. }
  split; [apply (StronglySorted_merge_sort desc_action_createdAt)|].
  rewrite delete_admin_employee_run.
  destruct (head (where_user_id target (users w))) as [user|];
    [|discriminate].
  destruct (bool_decide (userType user <> Some (str "employee")));
    [discriminate|].
  intros _.
  exists (mkEmployeeAction (gen_uuid (a_uuids w)) target (str "deleted") admin
            (Some (str "Employee account deactivated by super admin"))
            (a_later w)).
  cbn [snd employeeActions employeeId performedBy].
  split; [reflexivity|]. split; [reflexivity|].
  rewrite filter_app, filter_cons, filter_nil. cbn [employeeId].
  now destruct (decide (target = employee)).
Qed.

(** X23. The list of employees holds exactly the users of type employee,
    in the order in which the database returns them, and a deactivated
    employee stays on it: after a successful deactivation the list has
    the same ids as before, possibly in another order, the id of the
    deactivated employee among them, and that employee is inactive. *)
Theorem deactivated_employee_stays_listed
    (gen_uuid : nat -> jsstring) (scan : Accounts -> list User)
    (admin target : jsstring) (w : Accounts) (employee : User) :
  (forall w, scan w ≡ₚ users w) ->
  getUser target w = (inr (Some employee), w) ->
  userType employee = Some (str "employee") ->
  exists before after,
    get_admin_employees scan w
    = (mkAccountResponse 200 (json_users before), w) /\
    before ≡ₚ filter (fun u => userType u = Some (str "employee")) (users w) /\
    fst (get_admin_employees scan
           (snd (delete_admin_employee gen_uuid admin target w)))
    = mkAccountResponse 200 (json_users after) /\
    List.map u_id after ≡ₚ List.map u_id before /\
    In target (List.map u_id after) /\
    Forall (fun u => u_id u = target -> isActive u = false) after.
Proof.
  intros Hscan. rewrite getUser_run. intros [= Hcur] Htype.
  set (employees := filter (fun u => userType u = Some (str "employee"))).
  set (w' := snd (delete_admin_employee gen_uuid admin target w)).
  exists (employees (scan w)), (employees (scan w')).
  split; [reflexivity|].
  split; [unfold employees; now rewrite Hscan|].
  split; [reflexivity|].
  assert (Hw' : users w'
                = update_users_where_id (with_status false (a_clock w))
                    target (users w)).
  { unfold w'. rewrite delete_admin_employee_run, Hcur.
    now rewrite bool_decide_false by (intros H; now apply H). }
  assert (Hlist : forall rows,
            employees
              (update_users_where_id (with_status false (a_clock w)) target
                 rows)
            = List.map
                (fun u => if decide (u_id u = target)
                          then with_status false (a_clock w) u else u)
                (employees rows)).
  { intros rows. unfold update_users_where_id, employees.
    induction rows as [|u rows IH]; [reflexivity|].
    cbn [List.map]. rewrite !filter_cons.
    destruct (decide (u_id u = target)) as [E|E].
    - change (userType (with_status false (a_clock w) u))
        with (userType u).
      destruct (decide (userType u = Some (str "employee"))) as [F|F].
      + cbn [List.map]. destruct (decide (u_id u = target)); [|contradiction].
        now rewrite IH.
      + exact IH.
    - destruct (decide (userType u = Some (str "employee"))) as [F|F].
      + cbn [List.map]. destruct (decide (u_id u = target)); [contradiction|].
        now rewrite IH.
      + exact IH. }
  assert (Hafter : employees (scan w')
                   ≡ₚ List.map
                        (fun u => if decide (u_id u = target)
                                  then with_status false (a_clock w) u else u)
                        (employees (users w))).
  { unfold employees at 1. rewrite (Hscan w'), Hw'. fold employees.
    now rewrite Hlist. }
  assert (Hids : List.map u_id (employees (scan w'))
                 ≡ₚ List.map u_id (employees (users w))).
  { rewrite Hafter, List.map_map.
    erewrite List.map_ext; [reflexivity|]. intros u. cbn beta.
    now destruct (decide (u_id u = target)). }
  split; [|split].
  - rewrite Hids. unfold employees. now rewrite (Hscan w).
  - apply list_elem_of_In. rewrite Hids. apply list_elem_of_In.
    assert (Hm : employee ∈ where_user_id target (users w)).
    { destruct (where_user_id target (users w)); [discriminate|].
      injection Hcur as ->. apply list_elem_of_here. }
    apply list_elem_of_filter in Hm as [Hid Hm].
    apply in_map_iff. exists employee. split; [exact Hid|].
    apply list_elem_of_In, list_elem_of_filter. now split.
  - rewrite Hafter. apply Forall_forall. intros u Hu.
    apply list_elem_of_In, in_map_iff in Hu as (u0 & <- & _).
    destruct (decide (u_id u0 = target)); [reflexivity | tauto].
Qed.

(** ** Accounts: upsert and onboarding *)

Lemma commit_users_run (rows' : list User) (w : Accounts) :
  commit_users rows' w
  = if bool_decide (users_constraints (users w))
       && negb (bool_decide (NoDup (emails rows')))
    then
      (inl (DatabaseError "duplicate key value violates unique constraint"),
       w)
    else
      (inr tt,
       mkAccounts rows' (employeeActions w) (a_uuids w) (a_clock w)
         (a_ticks w)).
Proof.
  unfold commit_users, bindA, get_users, throwA, set_users.
  now destruct (_ && _).
Qed.

Lemma accepted_iff (rows rows' : list User) :
  bool_decide (users_constraints rows)
  && negb (bool_decide (NoDup (emails rows'))) = false
  <-> (users_constraints rows -> NoDup (emails rows')).
Proof.
  destruct (decide (users_constraints rows)) as [Hc|Hc].
  - rewrite (bool_decide_true _ Hc). cbn [andb].
    destruct (decide (NoDup (emails rows'))) as [Hn|Hn].
    + rewrite (bool_decide_true _ Hn). tauto.
    + rewrite (bool_decide_false _ Hn). cbn. split; [discriminate | tauto].
  - rewrite (bool_decide_false _ Hc). cbn. tauto.
Qed.

Lemma refused_iff (rows rows' : list User) :
  bool_decide (users_constraints rows)
  && negb (bool_decide (NoDup (emails rows'))) = true
  <-> users_constraints rows /\ ~ NoDup (emails rows').
Proof.
  rewrite andb_true_iff, negb_true_iff, bool_decide_eq_true,
    bool_decide_eq_false. tauto.
Qed.

Lemma upsertUser_existing (gen_uuid : nat -> jsstring)
    (defaults : UserDefaults) (d : UpsertUser) (userId : jsstring)
    (w : Accounts) (u : User) :
  d_id d = Some userId ->
  head (where_user_id userId (users w)) = Some u ->
  (users_constraints (users w) ->
   NoDup (emails (update_users_where_id (set_user d (a_clock w)) userId
                    (users w)))) ->
  upsertUser gen_uuid defaults d w
  = (inr (Some (set_user d (a_clock w) u)),
     mkAccounts
       (update_users_where_id (set_user d (a_clock w)) userId (users w))
       (employeeActions w) (a_uuids w) (a_later w) (tl (a_ticks w))).
Proof.
  intros Hid Hcur Hok. run_MA. rewrite Hid. run_MA.
  destruct (where_user_id userId (users w)) as [|u0 rest] eqn:Hrows;
    [discriminate|].
  injection Hcur as ->. run_MA. rewrite commit_users_run. cbn [users].
  rewrite (proj2 (accepted_iff _ _) Hok).
  cbn [employeeActions a_uuids a_clock a_ticks].
  rewrite where_user_id_update, Hrows; [reflexivity|].
  intros v Hv. apply u_id_set_user; [exact Hv | now right].
Qed.

Lemma upsertUser_existing_refused (gen_uuid : nat -> jsstring)
    (defaults : UserDefaults) (d : UpsertUser) (userId : jsstring)
    (w : Accounts) (u : User) :
  d_id d = Some userId ->
  head (where_user_id userId (users w)) = Some u ->
  users_constraints (users w) ->
  ~ NoDup (emails (update_users_where_id (set_user d (a_clock w)) userId
                     (users w))) ->
  upsertUser gen_uuid defaults d w
  = (inl (DatabaseError "duplicate key value violates unique constraint"),
     mkAccounts (users w) (employeeActions w) (a_uuids w) (a_later w)
       (tl (a_ticks w))).
Proof.
  intros Hid Hcur Hc Hdup. run_MA. rewrite Hid. run_MA.
  destruct (where_user_id userId (users w)) as [|u0 rest] eqn:Hrows;
    [discriminate|].
  run_MA. rewrite commit_users_run. cbn [users].
  now rewrite (proj2 (refused_iff _ _) (conj Hc Hdup)).
Qed.

Lemma upsertUser_new (gen_uuid : nat -> jsstring)
    (defaults : UserDefaults) (d : UpsertUser) (userId : jsstring)
    (w : Accounts) :
  d_id d = Some userId ->
  head (where_user_id userId (users w)) = None ->
  (users_constraints (users w) ->
   NoDup (emails (users w ++ [new_user defaults d userId (a_later w)]))) ->
  upsertUser gen_uuid defaults d w
  = (inr (Some (new_user defaults d userId (a_later w))),
     mkAccounts (users w ++ [new_user defaults d userId (a_later w)])
       (employeeActions w) (a_uuids w) (a_clock_after 2 w)
       (a_ticks_after 2 w)).
Proof.
  intros Hid Hcur Hok. run_MA. rewrite Hid. run_MA.
  destruct (where_user_id userId (users w)) as [|u0 rest]; [|discriminate].
  run_MA. rewrite commit_users_run. cbn [users]. unfold a_later in Hok.
  now rewrite (proj2 (accepted_iff _ _) Hok).
Qed.

Lemma upsertUser_new_refused (gen_uuid : nat -> jsstring)
    (defaults : UserDefaults) (d : UpsertUser) (userId : jsstring)
    (w : Accounts) :
  d_id d = Some userId ->
  head (where_user_id userId (users w)) = None ->
  users_constraints (users w) ->
  ~ NoDup (emails (users w ++ [new_user defaults d userId (a_later w)])) ->
  upsertUser gen_uuid defaults d w
  = (inl (DatabaseError "duplicate key value violates unique constraint"),
     mkAccounts (users w) (employeeActions w) (a_uuids w)
       (a_clock_after 2 w) (a_ticks_after 2 w)).
Proof.
  intros Hid Hcur Hc Hdup. run_MA. rewrite Hid. run_MA.
  destruct (where_user_id userId (users w)) as [|u0 rest]; [|discriminate].
  run_MA. rewrite commit_users_run. cbn [users]. unfold a_later in Hdup.
  now rewrite (proj2 (refused_iff _ _) (conj Hc Hdup)).
Qed.

(** In a table with a primary key, the row of an id is the only one. *)
Lemma where_user_id_absent (userId : jsstring) (rows : list User) :
  userId ∉ List.map u_id rows -> where_user_id userId rows = [].
Proof.
  unfold where_user_id. induction rows as [|r rows IH]; [reflexivity|].
  cbn [List.map]. intros Hnot. rewrite filter_cons.
  destruct (decide (u_id r = userId)) as [E|E].
  - destruct Hnot. rewrite E. apply list_elem_of_here.
  - apply IH. intros Hin. apply Hnot. now apply list_elem_of_further.
Qed.

Lemma where_user_id_unique (userId : jsstring) (rows : list User) (u : User) :
  NoDup (List.map u_id rows) ->
  head (where_user_id userId rows) = Some u ->
  where_user_id userId rows = [u].
Proof.
  unfold where_user_id. induction rows as [|r rows IH]; [discriminate|].
  cbn [List.map]. intros Hnodup. apply NoDup_cons in Hnodup as [Hr Hrows].
  rewrite filter_cons. destruct (decide (u_id r = userId)) as [E|E].
  - intros [= ->]. rewrite <- E in *.
    pose proof (where_user_id_absent _ _ Hr) as Hnone.
    unfold where_user_id in Hnone. now rewrite Hnone.
  - now apply IH.
Qed.

Lemma others_of_update (f : User -> User) (userId : jsstring)
    (rows : list User) :
  (forall u, u_id u = userId -> u_id (f u) = userId) ->
  filter (fun u => u_id u <> userId) (update_users_where_id f userId rows)
  = filter (fun u => u_id u <> userId) rows.
Proof.
  intros Hf. unfold update_users_where_id.
  induction rows as [|r rows IH]; [reflexivity|].
  cbn [List.map]. rewrite !filter_cons, IH.
  destruct (decide (u_id r = userId)) as [E|E]; [|reflexivity].
  rewrite decide_False by (intros H; apply H; now apply Hf).
  now rewrite decide_False by (intros H; now apply H).
Qed.

Lemma table_split (userId : jsstring) (rows : list User) :
  rows ≡ₚ where_user_id userId rows ++ filter (fun u => u_id u <> userId) rows.
Proof.
  symmetry. unfold where_user_id.
  apply (filter_app_complement (fun u => u_id u = userId)).
Qed.

(** Whether the database accepts the table a statement on the row of
    [userId] leads to. *)
Lemma commit_iff (userId : jsstring) (rows rows' : list User)
    (written : User) :
  NoDup (emails rows) ->
  rows' ≡ₚ written :: filter (fun u => u_id u <> userId) rows ->
  NoDup (emails rows') <-> ~ email_taken userId (email written) rows.
Proof.
  intros Hnodup Hrows'. unfold email_taken, emails in *.
  assert (Hothers : NoDup (omap email
                             (filter (fun u => u_id u <> userId) rows))).
  { rewrite (table_split userId rows), omap_app in Hnodup.
    now apply NoDup_app in Hnodup as (_ & _ & Hnodup). }
  rewrite Hrows'. cbn [omap list_omap].
  destruct (email written) as [address|].
  - rewrite NoDup_cons. split.
    + intros [Hnot _] (a & [= <-] & Hin). contradiction.
    + intros Hnot. split; [|exact Hothers].
      intros Hin. apply Hnot. now exists address.
  - split; [|tauto]. intros _ (a & Ha & _). discriminate.
Qed.

Lemma emails_update_same (f : User -> User) (userId : jsstring)
    (rows : list User) :
  (forall u, u ∈ rows -> u_id u = userId -> email (f u) = email u) ->
  emails (update_users_where_id f userId rows) = emails rows.
Proof.
  unfold emails, update_users_where_id.
  induction rows as [|r rows IH]; [reflexivity|].
  intros Hf. cbn [List.map omap list_omap].
  rewrite IH by (intros u Hu; apply Hf; now apply list_elem_of_further).
  destruct (decide (u_id r = userId)) as [E|E]; [|reflexivity].
  now rewrite (Hf r (list_elem_of_here _ _) E).
Qed.

(** A statement that leaves the e-mail of its row as it is, is accepted. *)
Lemma emails_kept (d : UpsertUser) (now : Date) (userId : jsstring)
    (rows : list User) (user : User) :
  head (where_user_id userId rows) = Some user ->
  d_email d = Some (email user) ->
  users_constraints rows ->
  NoDup (emails (update_users_where_id (set_user d now) userId rows)).
Proof.
  intros Hcur Hemail [Hids Hemails].
  rewrite emails_update_same; [exact Hemails|].
  intros u Hu Hid.
  assert (Hm : u ∈ where_user_id userId rows)
    by (apply list_elem_of_filter; now split).
  rewrite (where_user_id_unique _ _ _ Hids Hcur) in Hm.
  apply list_elem_of_singleton in Hm as ->.
  unfold set_user. cbn. now rewrite Hemail.
Qed.

Lemma post_onboarding_complete_run (gen_uuid : nat -> jsstring)
    (defaults : UserDefaults) (env_COMPANY_CODE : option jsstring)
    (userId : jsstring) (body : OnboardingBody) (files : option Files)
    (w : Accounts) :
  post_onboarding_complete gen_uuid defaults env_COMPANY_CODE userId body
    files w
  = let userType := body_userType body in
    let companyCode := body_companyCode body in
    if negb (strict_eq_string userType (str "customer")
             || strict_eq_string userType (str "employee"))
    then (text_json 400 "Invalid user type", w)
    else
      if strict_eq_string userType (str "employee")
         && (negb (truthy companyCode)
             || negb (strict_eq_string companyCode
                        (COMPANY_CODE env_COMPANY_CODE)))
      then (text_json 400 "Invalid company code", w)
      else
        if strict_eq_string userType (str "customer")
           && (negb (bool_decide (is_Some (files_idDocument files)))
               || negb (bool_decide (is_Some (files_addressDocument files))))
        then (text_json 400 "ID and address documents are required", w)
        else
          match head (where_user_id userId (users w)) with
          | None => (text_json 404 "User not found", w)
          | Some user =>
              let d :=
                spread_user_updateData user
                  (build_updateData userType companyCode files) in
              (mkAccountResponse 200
                 (json_user (Some (set_user d (a_clock w) user))),
               mkAccounts
                 (update_users_where_id (set_user d (a_clock w)) userId
                    (users w))
                 (employeeActions w) (a_uuids w) (a_later w) (tl (a_ticks w)))
          end.
Proof.
  unfold post_onboarding_complete, try_catchA. cbv zeta.
  destruct (negb (strict_eq_string (body_userType body) (str "customer")
                  || strict_eq_string (body_userType body) (str "employee")));
    [reflexivity|].
  destruct (strict_eq_string (body_userType body) (str "employee")
            && (negb (truthy (body_companyCode body))
                || negb (strict_eq_string (body_companyCode body)
                           (COMPANY_CODE env_COMPANY_CODE))));
    [reflexivity|].
  destruct (strict_eq_string (body_userType body) (str "customer")
            && (negb (bool_decide (is_Some (files_idDocument files)))
                || negb (bool_decide
                           (is_Some (files_addressDocument files)))));
    [reflexivity|].
  unfold bindA at 1. rewrite getUser_run.
  destruct (head (where_user_id userId (users w))) as [user|] eqn:Hcur;
    [|reflexivity].
  unfold bindA at 1.
  assert (Hid : u_id user = userId).
  { assert (Hm : user ∈ where_user_id userId (users w)).
    { destruct (where_user_id userId (users w)); [discriminate|].
      injection Hcur as ->. apply list_elem_of_here. }
    apply list_elem_of_filter in Hm. tauto. }
  erewrite upsertUser_existing; [reflexivity| |exact Hcur|].
  - cbn [spread_user_updateData d_id]. now rewrite Hid.
  - now apply (emails_kept _ _ _ _ user).
Qed.

Lemma strict_eq_string_true (s : jsstring) :
  strict_eq_string (JsString s) s = true.
Proof. cbn. now rewrite bool_decide_true. Qed.

Lemma strict_eq_string_false (v : JsValue) (s : jsstring) :
  v <> JsString s -> strict_eq_string v s = false.
Proof.
  destruct v; try reflexivity. intros H. cbn.
  rewrite bool_decide_false; [reflexivity | congruence].
Qed.

Lemma customer_is_not_employee : str "customer" <> str "employee".
Proof. intros H. vm_compute in H. discriminate. Qed.


(** X24. What onboarding refuses, before it looks the user up and
    without changing anything: a user type that is not exactly the string
    "customer" or "employee" (400 "Invalid user type"); an employee whose
    company code is not exactly the configured code, which is "0037" when
    the environment sets none (400 "Invalid company code"); a customer
    without an uploaded id document or without an uploaded address
    document (400 "ID and address documents are required"). *)
Theorem onboarding_refusals
    (gen_uuid : nat -> jsstring) (defaults : UserDefaults)
    (env_COMPANY_CODE : option jsstring) (userId : jsstring)
    (body : OnboardingBody) (files : option Files) (w : Accounts) :
  COMPANY_CODE None = str "0037" /\
  (body_userType body <> JsString (str "customer") ->
   body_userType body <> JsString (str "employee") ->
   post_onboarding_complete gen_uuid defaults env_COMPANY_CODE userId body
     files w
   = (text_json 400 "Invalid user type", w)) /\
  (body_userType body = JsString (str "employee") ->
   body_companyCode body <> JsString (COMPANY_CODE env_COMPANY_CODE) ->
   post_onboarding_complete gen_uuid defaults env_COMPANY_CODE userId body
     files w
   = (text_json 400 "Invalid company code", w)) /\
  (body_userType body = JsString (str "customer") ->
   files_idDocument files = None \/ files_addressDocument files = None ->
   post_onboarding_complete gen_uuid defaults env_COMPANY_CODE userId body
     files w
   = (text_json 400 "ID and address documents are required", w)).
Proof.
  rewrite post_onboarding_complete_run. cbv zeta.
  split; [reflexivity|]. split; [|split].
  - intros Hc He.
    now rewrite (strict_eq_string_false _ _ Hc),
      (strict_eq_string_false _ _ He).
  - intros -> Hcode.
    rewrite strict_eq_string_true, (strict_eq_string_false _ _ Hcode).
    rewrite orb_true_r. cbn [negb andb]. now rewrite orb_true_r.
  - intros -> Hfiles.
    rewrite strict_eq_string_true.
    rewrite (strict_eq_string_false (JsString (str "customer"))
               (str "employee"))
      by (intros [= H]; exact (customer_is_not_employee H)).
    cbn [orb negb andb].
    destruct Hfiles as [-> | ->].
    + now rewrite bool_decide_false by (intros [x Hx]; discriminate).
    + rewrite (bool_decide_false (is_Some None))
        by (intros [x Hx]; discriminate).
      cbn [negb]. now rewrite orb_true_r.
Qed.


Lemma set_user_keeps_id (user : User) (updateData : UpdateData) (now : Date)
    (userId : jsstring) :
  u_id user = userId ->
  forall u, u_id u = userId ->
    u_id (set_user (spread_user_updateData user updateData) now u) = userId.
Proof. intros Hid u Hu. cbn. exact Hid. Qed.

Lemma head_where_user_id (userId : jsstring) (rows : list User) (u : User) :
  head (where_user_id userId rows) = Some u -> u_id u = userId.
Proof.
  intros H. assert (Hm : u ∈ where_user_id userId rows).
  { destruct (where_user_id userId rows); [discriminate|].
    injection H as ->. apply list_elem_of_here. }
  apply list_elem_of_filter in Hm. tauto.
Qed.

(** X26. Onboarding as a customer.  With both documents uploaded an
    existing user becomes a customer, auto-verified; the urls of the two
    documents are the names of the first uploaded file of each field (a
    field without a file leaves the stored url as it is); company code,
    name, e-mail, active flag and creation time are kept, no row is
    added and no action is logged. *)
Theorem onboarding_as_customer
    (gen_uuid : nat -> jsstring) (defaults : UserDefaults)
    (env_COMPANY_CODE : option jsstring) (userId : jsstring)
    (companyCode : JsValue) (idFiles addressFiles : list UploadedFile)
    (w : Accounts) (user : User) :
  getUser userId w = (inr (Some user), w) ->
  let onboarded :=
    mkUser (u_id user) (email user) (firstName user) (lastName user)
      (profileImageUrl user) (Some (str "customer")) (User_companyCode user)
      (match idFiles with
       | file :: _ => Some (filename file)
       | [] => idDocumentUrl user
       end)
      (match addressFiles with
       | file :: _ => Some (filename file)
       | [] => addressDocumentUrl user
       end)
      true (isActive user) (u_createdAt user) (a_clock w) in
  exists w',
    post_onboarding_complete gen_uuid defaults env_COMPANY_CODE userId
      (mkOnboardingBody (JsString (str "customer")) companyCode)
      (Some (mkFiles (Some idFiles) (Some addressFiles))) w
    = (mkAccountResponse 200 (json_user (Some onboarded)), w') /\
    getUser userId w' = (inr (Some onboarded), w') /\
    List.map u_id (users w') = List.map u_id (users w) /\
    employeeActions w' = employeeActions w.
Proof.
  rewrite getUser_run. intros [= Hcur] onboarded. subst onboarded.
  pose proof (head_where_user_id _ _ _ Hcur) as Hid.
  rewrite post_onboarding_complete_run. cbv zeta.
  cbn [body_userType body_companyCode files_idDocument
       files_addressDocument idDocument addressDocument].
  rewrite strict_eq_string_true.
  rewrite (strict_eq_string_false (JsString (str "customer"))
             (str "employee"))
    by (intros [= H]; exact (customer_is_not_employee H)).
  rewrite !bool_decide_true by (eexists; reflexivity).
  cbn [orb negb andb]. rewrite Hcur.
  unfold build_updateData. rewrite strict_eq_string_true.
  rewrite (strict_eq_string_false (JsString (str "customer"))
             (str "employee"))
    by (intros [= H]; exact (customer_is_not_employee H)).
  rewrite bool_decide_true by (eexists; reflexivity).
  cbn [andb string_of files_idDocument files_addressDocument idDocument
       addressDocument].
  eexists. split.
  { destruct user, idFiles, addressFiles; reflexivity. }
  rewrite getUser_run. cbn [users employeeActions].
  rewrite where_user_id_update by now apply set_user_keeps_id.
  split.
  { destruct (where_user_id userId (users w)); [discriminate|].
    injection Hcur as ->. destruct user, idFiles, addressFiles; reflexivity. }
  split; [|reflexivity].
  apply ids_update_users. now apply set_user_keeps_id.
Qed.

Lemma strict_eq_string_inv (v : JsValue) (s : jsstring) :
  strict_eq_string v s = true -> v = JsString s.
Proof.
  destruct v; try discriminate. cbn. intros H.
  apply bool_decide_eq_true in H. now subst.
Qed.

(** X27. What onboarding can do to an account.  When the endpoint does
    not answer 200 the store is exactly as before.  When it answers 200
    the user existed before and is now a customer or an employee, never
    anything else, and is verified; the active flag, the id and the
    e-mail are as before, and no action is logged.  This also holds for
    a user who already had a type: onboarding again overwrites it. *)
Theorem onboarding_outcome
    (gen_uuid : nat -> jsstring) (defaults : UserDefaults)
    (env_COMPANY_CODE : option jsstring) (userId : jsstring)
    (body : OnboardingBody) (files : option Files) (w w' : Accounts)
    (r : AccountResponse) :
  post_onboarding_complete gen_uuid defaults env_COMPANY_CODE userId body
    files w = (r, w') ->
  (a_statusCode r <> 200 -> w' = w) /\
  (a_statusCode r = 200 ->
   exists before after,
     getUser userId w = (inr (Some before), w) /\
     getUser userId w' = (inr (Some after), w') /\
     (userType after = Some (str "customer") \/
      userType after = Some (str "employee")) /\
     isVerified after = true /\
     isActive after = isActive before /\
     u_id after = u_id before /\
     email after = email before /\
     employeeActions w' = employeeActions w).
Proof.
  rewrite post_onboarding_complete_run. cbv zeta.
  destruct (strict_eq_string (body_userType body) (str "customer")) eqn:Hc,
           (strict_eq_string (body_userType body) (str "employee")) eqn:He;
    cbn [orb negb andb].
  - (* both: impossible *)
    apply strict_eq_string_inv in Hc, He. rewrite Hc in He.
    assert (Heq : str "customer" = str "employee") by congruence.
    destruct (customer_is_not_employee Heq).
  - (* customer *)
    destruct (negb (bool_decide (is_Some (files_idDocument files)))
              || negb (bool_decide (is_Some (files_addressDocument files))))
      eqn:Hdocs.
    { intros [= <- <-]. split; [reflexivity | discriminate]. }
    destruct (head (where_user_id userId (users w))) as [user|] eqn:Hcur.
    2:{ intros [= <- <-]. split; [reflexivity | discriminate]. }
    intros [= <- <-]. split; [intros H; now destruct H|]. intros _.
    pose proof (head_where_user_id _ _ _ Hcur) as Hid.
    apply orb_false_iff in Hdocs as [Hdoc _].
    apply negb_false_iff, bool_decide_eq_true in Hdoc.
    assert (Hfiles : is_Some files).
    { destruct files; [now eexists | destruct Hdoc; discriminate]. }
    exists user. eexists. rewrite !getUser_run. cbn [users employeeActions].
    rewrite where_user_id_update by now apply set_user_keeps_id.
    rewrite Hcur. split; [reflexivity|].
    split.
    { destruct (where_user_id userId (users w)); [discriminate|].
      injection Hcur as ->. reflexivity. }
    unfold build_updateData. rewrite He, Hc.
    rewrite bool_decide_true by exact Hfiles. cbn [andb].
    apply strict_eq_string_inv in Hc. rewrite Hc.
    destruct user. cbn. repeat split. now left.
  - (* employee *)
    destruct (negb (truthy (body_companyCode body))
              || negb (strict_eq_string (body_companyCode body)
                         (COMPANY_CODE env_COMPANY_CODE))) eqn:Hcode.
    { intros [= <- <-]. split; [reflexivity | discriminate]. }
    destruct (head (where_user_id userId (users w))) as [user|] eqn:Hcur.
    2:{ intros [= <- <-]. split; [reflexivity | discriminate]. }
    intros [= <- <-]. split; [intros H; now destruct H|]. intros _.
    pose proof (head_where_user_id _ _ _ Hcur) as Hid.
    exists user. eexists. rewrite !getUser_run. cbn [users employeeActions].
    rewrite where_user_id_update by now apply set_user_keeps_id.
    rewrite Hcur. split; [reflexivity|].
    split.
    { destruct (where_user_id userId (users w)); [discriminate|].
      injection Hcur as ->. reflexivity. }
    unfold build_updateData. rewrite He.
    apply strict_eq_string_inv in He. rewrite He.
    destruct user. cbn. repeat split. now right.
  - (* neither *)
    intros [= <- <-]. split; [reflexivity | discriminate].
Qed.

(** X28. Upsert and lookup round-trip.  On a table that satisfies its
    constraints, [upsertUser] with an id and with values that fit their
    columns writes one row: the row of that id with the keys that are
    present set (keys that are absent keep their column), or a new row
    when the id is not in the table.  The
    conflict target is the id alone: when the e-mail of that row is held
    by the row of another user the statement fails and the table stays
    as it is.  Otherwise it returns the row, which is the one [getUser]
    finds under the id afterwards; the other users are untouched, no row
    is added for an id that was there and one row is added for an id
    that was not, and the table still satisfies its constraints. *)
Theorem upsert_then_get
    (gen_uuid : nat -> jsstring) (defaults : UserDefaults)
    (userData : UpsertUser) (userId : jsstring) (w : Accounts) :
  d_id userData = Some userId ->
  fits_users userData ->
  users_constraints (users w) ->
  let written :=
    match head (where_user_id userId (users w)) with
    | Some before => set_user userData (a_clock w) before
    | None => new_user defaults userData userId (a_later w)
    end in
  (email_taken userId (email written) (users w) ->
   exists error w',
     upsertUser gen_uuid defaults userData w = (inl error, w') /\
     users w' = users w /\
     employeeActions w' = employeeActions w) /\
  (~ email_taken userId (email written) (users w) ->
   exists w',
     upsertUser gen_uuid defaults userData w = (inr (Some written), w') /\
     getUser userId w' = (inr (Some written), w') /\
     u_id written = userId /\
     (forall v, d_email userData = Some v -> email written = v) /\
     (forall v, d_userType userData = Some v -> userType written = v) /\
     (forall v, d_companyCode userData = Some v -> companyCode written = v) /\
     (forall v, d_isVerified userData = Some v -> isVerified written = v) /\
     (forall v, d_isActive userData = Some v -> isActive written = v) /\
     match head (where_user_id userId (users w)) with
     | Some _ => length (users w') = length (users w)
     | None => users w' = users w ++ [written]
     end /\
     (forall other,
        other <> userId -> fst (getUser other w') = fst (getUser other w)) /\
     users_constraints (users w')).
Proof.
  intros Hid _ [Hids Hemails] written.
  destruct (head (where_user_id userId (users w))) as [before|] eqn:Hcur;
    subst written.
  - assert (Hf : forall u, u_id u = userId ->
              u_id (set_user userData (a_clock w) u) = userId).
    { intros u Hu. apply u_id_set_user; [exact Hu | now right]. }
    pose proof (where_user_id_unique _ _ _ Hids Hcur) as Hone.
    pose proof (head_where_user_id _ _ _ Hcur) as Hbefore.
    assert (Hperm : update_users_where_id (set_user userData (a_clock w))
                      userId (users w)
                    ≡ₚ set_user userData (a_clock w) before
                       :: filter (fun u => u_id u <> userId) (users w)).
    { etransitivity; [exact (table_split userId _)|].
      rewrite where_user_id_update by exact Hf.
      now rewrite Hone, (others_of_update _ _ _ Hf). }
    pose proof (commit_iff userId _ _ _ Hemails Hperm) as Hiff.
    split.
    + intros Htaken.
      assert (Hdup : ~ NoDup (emails (update_users_where_id
                                        (set_user userData (a_clock w))
                                        userId (users w))))
        by (rewrite Hiff; tauto).
      rewrite (upsertUser_existing_refused _ _ _ _ _ _ Hid Hcur
                 (conj Hids Hemails) Hdup).
      do 2 eexists. repeat split.
    + intros Hfree.
      assert (Hok : NoDup (emails (update_users_where_id
                                     (set_user userData (a_clock w))
                                     userId (users w))))
        by (apply Hiff; exact Hfree).
      rewrite (upsertUser_existing _ _ _ _ _ _ Hid Hcur (fun _ => Hok)).
      eexists. split; [reflexivity|].
      rewrite getUser_run. cbn [users].
      rewrite where_user_id_update by exact Hf. rewrite Hone.
      split; [reflexivity|]. split; [now apply Hf|].
      repeat split;
        try (intros v Hv; unfold set_user; cbn; now rewrite Hv).
      * unfold update_users_where_id. now rewrite length_map.
      * intros other Hne. rewrite !getUser_run. cbn [fst users].
        rewrite where_user_id_update_other;
          [reflexivity | exact Hf | congruence].
      * now rewrite ids_update_users.
      * exact Hok.
  - assert (Hnew : u_id (new_user defaults userData userId (a_later w))
                   = userId).
    { unfold new_user. cbn. now rewrite Hid. }
    assert (Hrows : where_user_id userId (users w) = [])
      by now destruct (where_user_id userId (users w)).
    assert (Hperm : users w ++ [new_user defaults userData userId (a_later w)]
                    ≡ₚ new_user defaults userData userId (a_later w)
                       :: filter (fun u => u_id u <> userId) (users w)).
    { rewrite <- Permutation_cons_append. constructor.
      etransitivity; [exact (table_split userId _)|]. now rewrite Hrows. }
    pose proof (commit_iff userId _ _ _ Hemails Hperm) as Hiff.
    split.
    + intros Htaken.
      assert (Hdup : ~ NoDup (emails (users w ++
                                      [new_user defaults userData userId
                                         (a_later w)])))
        by (rewrite Hiff; tauto).
      rewrite (upsertUser_new_refused _ _ _ _ _ Hid Hcur
                 (conj Hids Hemails) Hdup).
      do 2 eexists. repeat split.
    + intros Hfree.
      assert (Hok : NoDup (emails (users w ++
                                   [new_user defaults userData userId
                                      (a_later w)])))
        by (apply Hiff; exact Hfree).
      rewrite (upsertUser_new _ _ _ _ _ Hid Hcur (fun _ => Hok)).
      eexists. split; [reflexivity|].
      rewrite getUser_run. cbn [users]. unfold where_user_id in *.
      rewrite filter_app, Hrows, filter_cons_True by exact Hnew.
      split; [reflexivity|]. split; [exact Hnew|].
      repeat split;
        try (intros v Hv; unfold new_user; cbn; now rewrite Hv).
      * intros other Hne. rewrite !getUser_run. cbn [fst users].
        unfold where_user_id. rewrite filter_app.
        rewrite filter_cons_False, filter_nil, app_nil_r; [reflexivity|].
        rewrite Hnew. congruence.
      * rewrite List.map_app. cbn [List.map]. rewrite Hnew.
        apply NoDup_app. split; [exact Hids|].
        split; [|apply NoDup_singleton].
        intros i Hi Hin. apply list_elem_of_singleton in Hin as ->.
        apply list_elem_of_In in Hi.
        exact (where_user_id_nil_not_in _ _ Hrows Hi).
      * exact Hok.
Qed.

Lemma upsertUser_users (gen_uuid : nat -> jsstring)
    (defaults : UserDefaults) (d : UpsertUser) (w : Accounts) :
  let userId := default (gen_uuid (a_uuids w)) (d_id d) in
  users (snd (upsertUser gen_uuid defaults d w)) = users w \/
  (where_user_id userId (users w) = [] /\
   exists now,
     users (snd (upsertUser gen_uuid defaults d w))
     = users w ++ [new_user defaults d userId now]) \/
  (where_user_id userId (users w) <> [] /\
   users (snd (upsertUser gen_uuid defaults d w))
   = update_users_where_id (set_user d (a_clock w)) userId (users w)).
Proof.
  intros userId. subst userId. run_MA.
  destruct (d_id d) as [i|]; run_MA; cbn [from_option Datatypes.id].
  - destruct (where_user_id i (users w)) eqn:Hrows; run_MA;
      rewrite commit_users_run; cbn [users];
      destruct (_ && _); cbn [snd users]; [now left| |now left|].
    + right. left. split; [reflexivity|]. eexists. reflexivity.
    + right. right. split; [discriminate | reflexivity].
  - destruct (where_user_id (gen_uuid (a_uuids w)) (users w)) eqn:Hrows;
      run_MA; rewrite commit_users_run; cbn [users];
      destruct (_ && _); cbn [snd users]; [now left| |now left|].
    + right. left. split; [reflexivity|]. eexists. reflexivity.
    + right. right. split; [discriminate | reflexivity].
Qed.

(** X29. User ids stay unique.  If no two rows of [users] share an id,
    the same holds after any [upsertUser], with or without an id in its
    argument, and after any [updateUserStatus]. *)
Theorem user_ids_stay_unique
    (gen_uuid : nat -> jsstring) (defaults : UserDefaults) (w : Accounts) :
  List.NoDup (List.map u_id (users w)) ->
  (forall userData,
     List.NoDup
       (List.map u_id (users (snd (upsertUser gen_uuid defaults userData w)))))
  /\
  (forall userId active,
     List.NoDup
       (List.map u_id (users (snd (updateUserStatus userId active w))))).
Proof.
  intros Hnodup. split.
  - intros d.
    destruct (upsertUser_users gen_uuid defaults d w)
      as [-> | [[Hrows (now & ->)] | [_ ->]]]; [exact Hnodup| |].
    + rewrite List.map_app. cbn [List.map].
      assert (Hid : u_id (new_user defaults d
                            (default (gen_uuid (a_uuids w)) (d_id d)) now)
                    = default (gen_uuid (a_uuids w)) (d_id d)).
      { unfold new_user. cbn. now destruct (d_id d). }
      rewrite Hid.
      apply List.NoDup_app; [exact Hnodup | repeat constructor; intros [] |].
      intros i Hin [Heq | []]. subst i.
      exact (where_user_id_nil_not_in _ _ Hrows Hin).
    + rewrite ids_update_users; [exact Hnodup|].
      intros u Hu. unfold set_user. cbn.
      destruct (d_id d); cbn in *; congruence.
  - intros userId active. rewrite updateUserStatus_run. cbn [snd users].
    rewrite ids_update_users; [exact Hnodup | intros u Hu; exact Hu].
Qed.

(** X30. A reject request whose notes are truthy but not a string (a
    number other than zero, [true], an object) is answered 500 "Failed
    to reject bid": the call of [trim] on such a value throws, before the
    bid is looked up, so the answer is the same for a known and an
    unknown bid, and nothing is stored, nothing is sent to the gateway
    and nobody is recorded as rejecter. *)
Theorem reject_with_notes_that_are_not_text
    (env : Env) (employeeId bidId : jsstring) (notes : JsValue) (w : World) :
  truthy notes = true ->
  (forall reason, notes <> JsString reason) ->
  post_reject env employeeId bidId notes w
  = (message_json 500 "Failed to reject bid", w) /\
  forall employeeId' bidId',
    post_reject env employeeId' bidId' notes w
    = post_reject env employeeId bidId notes w.
Proof.
  intros Htruthy Hnotes.
  assert (Hrun : forall e b,
            post_reject env e b notes w
            = (message_json 500 "Failed to reject bid", w)).
  { intros e b. rewrite post_reject_run, Htruthy. cbn [negb].
    destruct notes as [| |flag|q|reason|]; try reflexivity.
    destruct (Hnotes reason eq_refl). }
  split; [apply Hrun|]. intros e b. now rewrite !Hrun.
Qed.

(** ** The further theorems on the examples *)

Lemma unknown_bid_is_not_found_witness :
  target_of (PostApprove employee1 ghost) = Some ghost /\
  body_accepted (PostApprove employee1 ghost) = true /\
  getBid ghost pending_world = (inr None, pending_world) /\
  handle live_env (PostApprove employee1 ghost)
    pending_world
  = (message_json 404 "Bid not found", pending_world).
Proof.
  assert (Hnone : getBid ghost pending_world = (inr None, pending_world))
    by (vm_compute; reflexivity).
  split; [reflexivity|]. split; [reflexivity|]. split; [exact Hnone|].
  exact (unknown_bid_is_not_found live_env
           (PostApprove employee1 ghost) ghost pending_world
           eq_refl eq_refl Hnone).
Defined.

Lemma storage_ignores_unknown_bid_witness :
  getBid ghost pending_world = (inr None, pending_world) /\
  change_status live_env (Reject (str "late")) ghost employee1 pending_world
  = (inr None, pending_world) /\
  fst (updateBidPaymentInfo ghost
         (mkPaymentInfo (Some (str "pi_1")) None None (Some true))
         pending_world) = inr None /\
  bids (snd (updateBidPaymentInfo ghost
               (mkPaymentInfo (Some (str "pi_1")) None None (Some true))
               pending_world)) = bids pending_world.
Proof.
  assert (Hnone : getBid ghost pending_world = (inr None, pending_world))
    by (vm_compute; reflexivity).
  split; [exact Hnone|].
  destruct (storage_ignores_unknown_bid live_env ghost employee1
              (Reject (str "late"))
              (mkPaymentInfo (Some (str "pi_1")) None None (Some true))
              pending_world Hnone) as (Hchange & Hupd & Hbids & _).
  split; [exact Hchange|]. split; [exact Hupd | exact Hbids].
Defined.

Lemma bid_of_another_customer_is_forbidden_witness :
  getBid bid1 pending_world = (inr (Some pending_bid), pending_world) /\
  customerId pending_bid <> str "customer-B" /\
  get_customer_bid (str "customer-B") bid1 pending_world
  = (message_json 403 "Forbidden", pending_world) /\
  get_customer_bid_history (str "customer-B") bid1 pending_world
  = (message_json 403 "Forbidden", pending_world) /\
  post_create_payment_intent live_env (str "customer-B") bid1 pending_world
  = (message_json 403 "Forbidden", pending_world).
Proof.
  assert (Hbid : getBid bid1 pending_world
                 = (inr (Some pending_bid), pending_world))
    by (vm_compute; reflexivity).
  assert (Hother : customerId pending_bid <> str "customer-B")
    by (intros H; vm_compute in H; discriminate).
  split; [exact Hbid|]. split; [exact Hother|].
  exact (proj1 (bid_of_another_customer_is_forbidden live_env
                  (str "customer-B") bid1 pending_world pending_bid Hbid)
           Hother).
Defined.

Lemma created_bid_is_fetched_and_pending_witness :
  insertBidSchema lot1_form
  = inr (mkInsertBid (str "customer-B") (str "LOT-1") (str "1000.00")
           (Some (str "215.00")) (str "100.00") (str "315.00")
           (Some (str "pending")) None) /\
  getBid (gen_random_uuid live_env (uuids pending_world)) pending_world
  = (inr None, pending_world) /\
  (exists bid w',
     post_customer_bids live_env (str "customer-B") lot1_form pending_world
     = (res_status_json 201 (json_bid (Some bid)), w') /\
     maxBidAmount bid = 100000 /\
     serviceFee bid = 21500 /\
     depositAmount bid = 10000 /\
     totalPaid bid = 31500 /\
     status bid = str "pending" /\
     getBid (id bid) w' = (inr (Some bid), w') /\
     getBid bid1 w' = (inr (Some pending_bid), w') /\
     statusCode (fst (post_approve live_env employee1 (id bid) w')) = 200) /\
  post_customer_bids live_env (str "customer-B")
    (posted_bid "customer-B" "LOT-1" "1000.00" "215.00" "abc" "315.00")
    pending_world
  = (message_json 500 "Failed to create bid", pending_world) /\
  post_customer_bids live_env (str "customer-B") overlong_form pending_world
  = (message_json 500 "Failed to create bid", pending_world).
Proof.
  assert (Hvalid : insertBidSchema lot1_form
                   = inr (mkInsertBid (str "customer-B") (str "LOT-1")
                            (str "1000.00") (Some (str "215.00"))
                            (str "100.00") (str "315.00")
                            (Some (str "pending")) None))
    by (vm_compute; reflexivity).
  assert (Hfresh : getBid (gen_random_uuid live_env (uuids pending_world))
                     pending_world = (inr None, pending_world))
    by (vm_compute; reflexivity).
  assert (Hbid : getBid bid1 pending_world
                 = (inr (Some pending_bid), pending_world))
    by (vm_compute; reflexivity).
  assert (Habc : insertBidSchema
                   (posted_bid "customer-B" "LOT-1" "1000.00" "215.00" "abc"
                      "315.00")
                 = inr (mkInsertBid (str "customer-B") (str "LOT-1")
                          (str "1000.00") (Some (str "215.00")) (str "abc")
                          (str "315.00") (Some (str "pending")) None))
    by (vm_compute; reflexivity).
  assert (Hlong : insertBidSchema overlong_form
                  = inr (mkInsertBid (str "customer-B") overlong_lot
                           (str "1000.00") (Some (str "215.00"))
                           (str "100.00") (str "315.00")
                           (Some (str "pending")) None))
    by (vm_compute; reflexivity).
  split; [exact Hvalid|]. split; [exact Hfresh|]. split; [|split].
  - destruct (proj2 (created_bid_is_fetched_and_pending live_env
                       (str "customer-B") lot1_form _ pending_world Hvalid)
                (str "LOT-1") 100000 21500 10000 31500
                eq_refl eq_refl eq_refl eq_refl eq_refl)
      as (bid & w' & Hrun & Hrow & _ & _ & Hfetch).
    destruct (Hfetch ltac:(rewrite Hrow; exact Hfresh))
      as (Hget & Hothers & Happrove & _).
    exists bid, w'. split; [exact Hrun|]. rewrite Hrow at 1 2 3 4 5.
    do 5 (split; [reflexivity|]).
    split; [exact Hget|].
    split; [exact (Hothers bid1 pending_bid Hbid) | exact (Happrove employee1)].
  - apply (proj1 (created_bid_is_fetched_and_pending live_env
                    (str "customer-B") _ _ pending_world Habc)).
    right. right. right. left. reflexivity.
  - apply (proj1 (created_bid_is_fetched_and_pending live_env
                    (str "customer-B") _ _ pending_world Hlong)).
    left. reflexivity.
Defined.

Lemma approve_and_reject_exclude_each_other_witness :
  getBid bid1 pending_world = (inr (Some pending_bid), pending_world) /\
  status pending_bid = str "pending" /\
  whitespace_only (str "lot withdrawn") = false /\
  post_approve live_env employee1 bid1 rejected_world
  = (message_json 400 "Only pending bids can be approved", rejected_world) /\
  post_reject live_env employee1 bid1 (JsString (str "lot withdrawn"))
    approved_world
  = (message_json 400 "Only pending bids can be rejected", approved_world).
Proof.
  assert (Hbid : getBid bid1 pending_world
                 = (inr (Some pending_bid), pending_world))
    by (vm_compute; reflexivity).
  assert (Hpending : status pending_bid = str "pending") by reflexivity.
  assert (Hreason : whitespace_only (str "lot withdrawn") = false)
    by reflexivity.
  split; [exact Hbid|]. split; [exact Hpending|]. split; [exact Hreason|].
  split.
  - exact (proj1 (approve_and_reject_exclude_each_other live_env employee1
                    bid1 (str "lot withdrawn") pending_world pending_bid
                    Hbid Hpending Hreason rejected_world
                    (or_intror eq_refl) employee1 (str "lot withdrawn")
                    Hreason)).
  - exact (proj2 (approve_and_reject_exclude_each_other live_env employee1
                    bid1 (str "lot withdrawn") pending_world pending_bid
                    Hbid Hpending Hreason approved_world
                    (or_introl eq_refl) employee1 (str "lot withdrawn")
                    Hreason)).
Defined.

Lemma refund_amount_in_minor_units_witness :
  stripe live_env = Some accepting_client /\
  stripe_log
    (snd (createRefund live_env (str "pi_9") (Some (Number 0))
            lost_paid_world))
  = [refunds_create (str "pi_9") None] /\
  stripe_log
    (snd (createRefund live_env (str "pi_9") (Some (Number 2500))
            lost_paid_world))
  = [refunds_create (str "pi_9") (Some 2500)].
Proof.
  assert (Hclient : stripe live_env = Some accepting_client) by reflexivity.
  split; [exact Hclient|].
  destruct (refund_amount_in_minor_units live_env accepting_client
              (str "pi_9") lost_paid_world Hclient) as (_ & Hzero & Hsome).
  split.
  - rewrite Hzero. reflexivity.
  - rewrite (Hsome 2500); [reflexivity | reflexivity | discriminate].
Defined.

Lemma without_stripe_nothing_happens_witness :
  stripe unconfigured_env = None /\
  getBid bid1 lost_paid_world = (inr (Some lost_paid_bid), lost_paid_world) /\
  post_refund unconfigured_env bid1 lost_paid_world
  = (message_json 500 "Stripe not configured", lost_paid_world) /\
  post_create_payment_intent unconfigured_env customerA bid1 lost_paid_world
  = (message_json 500 "Failed to create payment intent", lost_paid_world).
Proof.
  assert (Hnone : stripe unconfigured_env = None) by reflexivity.
  assert (Hbid : getBid bid1 lost_paid_world
                 = (inr (Some lost_paid_bid), lost_paid_world))
    by (vm_compute; reflexivity).
  split; [exact Hnone|]. split; [exact Hbid|].
  destruct (without_stripe_nothing_happens unconfigured_env customerA bid1
              lost_paid_world lost_paid_bid Hnone Hbid)
    as (_ & _ & Hintent & Hrefund).
  split.
  - apply Hrefund; [right; reflexivity | reflexivity | reflexivity].
  - apply Hintent. reflexivity.
Defined.

Lemma service_refund_does_not_look_at_status_witness :
  getBid bid1 won_paid_world = (inr (Some won_paid_bid), won_paid_world) /\
  status won_paid_bid = str "won" /\
  exists w' refunded,
    refundBidPayment live_env bid1 won_paid_world
    = (inr (mkRefund (str "re_0")), w') /\
    getBid bid1 w' = (inr (Some refunded), w') /\
    isRefunded refunded = true /\
    status refunded = str "won".
Proof.
  assert (Hbid : getBid bid1 won_paid_world
                 = (inr (Some won_paid_bid), won_paid_world))
    by (vm_compute; reflexivity).
  split; [exact Hbid|]. split; [reflexivity|].
  destruct (service_refund_does_not_look_at_status live_env bid1
              won_paid_world won_paid_bid Hbid) as (_ & _ & Hrefund).
  destruct (Hrefund (str "pi_9") accepting_client (mkRefund (str "re_0")))
    as (w' & refunded & Hrun & Hget & Href & Hst & _);
    try reflexivity; [discriminate|].
  exists w', refunded. split; [exact Hrun|]. split; [exact Hget|].
  split; [exact Href | exact Hst].
Defined.

Lemma failed_intent_creation_stores_nothing_witness :
  getBid bid1 pending_world = (inr (Some pending_bid), pending_world) /\
  customerId pending_bid = customerA /\
  truthy_opt (stripePaymentIntentId pending_bid) = false /\
  stripe failing_env = Some rejecting_client /\
  exists w',
    post_create_payment_intent failing_env customerA bid1 pending_world
    = (message_json 500 "Failed to create payment intent", w') /\
    bids w' = bids pending_world /\
    getBid bid1 w' = (inr (Some pending_bid), w').
Proof.
  assert (Hbid : getBid bid1 pending_world
                 = (inr (Some pending_bid), pending_world))
    by (vm_compute; reflexivity).
  split; [exact Hbid|]. split; [reflexivity|]. split; [reflexivity|].
  split; [reflexivity|].
  destruct (failed_intent_creation_stores_nothing failing_env customerA bid1
              pending_world pending_bid rejecting_client StripeError
              Hbid eq_refl eq_refl eq_refl eq_refl)
    as (w' & Hrun & Hbids & Hget & _).
  exists w'. split; [exact Hrun|]. split; [exact Hbids | exact Hget].
Defined.

Lemma approve_and_reject_change_their_columns_only_witness :
  getBid bid1 (swift_world_of [lost_paid_bid])
  = (inr (Some lost_paid_bid), swift_world_of [lost_paid_bid]) /\
  getBid bid1 lost_paid_world = (inr (Some lost_paid_bid), lost_paid_world) /\
  exists approved rejected,
    fst (approveBid live_env bid1 employee1 (swift_world_of [lost_paid_bid]))
    = inr (Some approved) /\
    fst (rejectBid live_env bid1 employee1 (str "late") lost_paid_world)
    = inr (Some rejected) /\
    status approved = str "approved" /\
    approvedAt approved = Some 1000 /\
    updatedAt approved = 1000 /\
    stripePaymentIntentId approved = Some (str "pi_9") /\
    rejectedBy approved = None /\
    status rejected = str "rejected" /\
    rejectedAt rejected = Some 1000 /\
    updatedAt rejected = 1001 /\
    totalPaid rejected = 31500 /\
    approvedBy rejected = None.
Proof.
  assert (Hswift : getBid bid1 (swift_world_of [lost_paid_bid])
                   = (inr (Some lost_paid_bid), swift_world_of [lost_paid_bid]))
    by (vm_compute; reflexivity).
  assert (Hbid : getBid bid1 lost_paid_world
                 = (inr (Some lost_paid_bid), lost_paid_world))
    by (vm_compute; reflexivity).
  split; [exact Hswift|]. split; [exact Hbid|].
  destruct (approve_and_reject_change_their_columns_only live_env bid1
              employee1 (str "late") (swift_world_of [lost_paid_bid])
              lost_paid_bid Hswift) as (Happrove & _).
  destruct (approve_and_reject_change_their_columns_only live_env bid1
              employee1 (str "late") lost_paid_world lost_paid_bid Hbid)
    as (_ & Hreject).
  do 2 eexists. split; [exact Happrove|]. split; [exact Hreject|].
  repeat split.
Defined.

Lemma payment_update_writes_given_keys_only_witness :
  getBid bid1 lost_paid_world = (inr (Some lost_paid_bid), lost_paid_world) /\
  exists updated,
    fst (updateBidPaymentInfo bid1
           (mkPaymentInfo None (Some (str "re_7")) None None)
           lost_paid_world) = inr (Some updated) /\
    stripeDepositRefundId updated = Some (str "re_7") /\
    stripeFeeRefundId updated = None /\
    stripePaymentIntentId updated = Some (str "pi_9") /\
    isRefunded updated = false /\
    status updated = str "lost".
Proof.
  assert (Hbid : getBid bid1 lost_paid_world
                 = (inr (Some lost_paid_bid), lost_paid_world))
    by (vm_compute; reflexivity).
  split; [exact Hbid|].
  destruct (payment_update_writes_given_keys_only bid1
              (mkPaymentInfo None (Some (str "re_7")) None None)
              lost_paid_world lost_paid_bid Hbid) as (Hupd & _).
  eexists. split; [exact Hupd|]. repeat split.
Defined.

Lemma employee_is_deactivated_not_removed_witness :
  getUser (str "bob") office = (inr (Some bob), office) /\
  userType bob = Some (str "employee") /\
  exists w' action,
    delete_admin_employee serial_uuid (str "root") (str "bob") office
    = (text_json 200 "Employee account deleted successfully", w') /\
    getUser (str "bob") w' = (inr (Some (with_status false 500 bob)), w') /\
    List.map u_id (users w') = [str "ann"; str "bob"; str "root"] /\
    employeeActions w' = [action] /\
    employeeId action = str "bob" /\
    performedBy action = str "root".
Proof.
  assert (Hbob : getUser (str "bob") office = (inr (Some bob), office))
    by (vm_compute; reflexivity).
  assert (Htype : userType bob = Some (str "employee")) by reflexivity.
  split; [exact Hbob|]. split; [exact Htype|].
  destruct (employee_is_deactivated_not_removed serial_uuid (str "root")
              (str "bob") office bob Hbob Htype)
    as (w' & action & Hrun & Hget & Hids & _ & Hlog & Hwho & _ & Hby & _).
  exists w', action.
  split; [exact Hrun|]. split; [exact Hget|]. split; [exact Hids|].
  split; [exact Hlog|]. split; [exact Hwho | exact Hby].
Defined.

Lemma only_employees_are_deactivated_witness :
  getUser (str "zed") office = (inr None, office) /\
  getUser (str "root") office = (inr (Some root), office) /\
  userType root <> Some (str "employee") /\
  delete_admin_employee serial_uuid (str "root") (str "zed") office
  = (text_json 404 "Employee not found", office) /\
  delete_admin_employee serial_uuid (str "root") (str "root") office
  = (text_json 400 "Can only delete employee accounts", office).
Proof.
  assert (Hzed : getUser (str "zed") office = (inr None, office))
    by (vm_compute; reflexivity).
  assert (Hroot : getUser (str "root") office = (inr (Some root), office))
    by (vm_compute; reflexivity).
  assert (Htype : userType root <> Some (str "employee"))
    by (intros H; vm_compute in H; discriminate).
  split; [exact Hzed|]. split; [exact Hroot|]. split; [exact Htype|].
  split.
  - exact (proj1 (only_employees_are_deactivated serial_uuid (str "root")
                    (str "zed") office) Hzed).
  - exact (proj2 (only_employees_are_deactivated serial_uuid (str "root")
                    (str "root") office) root Hroot Htype).
Defined.

Lemma deactivated_employee_stays_listed_witness :
  (forall w, last_updated_last w ≡ₚ users w) /\
  getUser (str "bob") staffed_office = (inr (Some bob), staffed_office) /\
  userType bob = Some (str "employee") /\
  get_admin_employees last_updated_last staffed_office
  = (mkAccountResponse 200 (json_users listed_before), staffed_office) /\
  fst (get_admin_employees last_updated_last
         (snd (delete_admin_employee serial_uuid (str "root") (str "bob")
                 staffed_office)))
  = mkAccountResponse 200 (json_users listed_after) /\
  List.map u_id listed_before = [str "bob"; str "carl"] /\
  List.map u_id listed_after = [str "carl"; str "bob"] /\
  List.map u_id listed_after ≡ₚ List.map u_id listed_before /\
  Forall (fun u => u_id u = str "bob" -> isActive u = false) listed_after.
Proof.
  assert (Hscan : forall w, last_updated_last w ≡ₚ users w)
    by (intros w; apply merge_sort_Permutation).
  assert (Hbob : getUser (str "bob") staffed_office
                 = (inr (Some bob), staffed_office))
    by (vm_compute; reflexivity).
  assert (Htype : userType bob = Some (str "employee")) by reflexivity.
  assert (Hlisted : get_admin_employees last_updated_last staffed_office
                    = (mkAccountResponse 200 (json_users listed_before),
                       staffed_office))
    by (vm_compute; reflexivity).
  assert (Hlater : fst (get_admin_employees last_updated_last
                          (snd (delete_admin_employee serial_uuid
                                  (str "root") (str "bob") staffed_office)))
                   = mkAccountResponse 200 (json_users listed_after))
    by (vm_compute; reflexivity).
  split; [exact Hscan|]. split; [exact Hbob|]. split; [exact Htype|].
  split; [exact Hlisted|]. split; [exact Hlater|].
  split; [reflexivity|]. split; [reflexivity|].
  destruct (deactivated_employee_stays_listed serial_uuid last_updated_last
              (str "root") (str "bob") staffed_office bob Hscan Hbob Htype)
    as (before & after & Hbefore & _ & Hafter & Hids & _ & Hoff).
  assert (Hb : before = listed_before) by congruence.
  assert (Ha : after = listed_after) by congruence.
  subst before after. split; [exact Hids | exact Hoff].
Defined.

Lemma onboarding_refusals_witness :
  post_onboarding_complete serial_uuid plain_defaults None (str "ann")
    (mkOnboardingBody (JsString (str "admin")) JsUndefined) None office
  = (text_json 400 "Invalid user type", office) /\
  post_onboarding_complete serial_uuid plain_defaults None (str "ann")
    (mkOnboardingBody (JsString (str "employee")) (JsString (str "0038")))
    None office
  = (text_json 400 "Invalid company code", office) /\
  post_onboarding_complete serial_uuid plain_defaults None (str "ann")
    (mkOnboardingBody (JsString (str "customer")) JsUndefined)
    (Some (mkFiles (Some [id_scan]) None)) office
  = (text_json 400 "ID and address documents are required", office).
Proof.
  split; [|split].
  - apply (onboarding_refusals serial_uuid plain_defaults None (str "ann")
             (mkOnboardingBody (JsString (str "admin")) JsUndefined) None
             office); intros H; vm_compute in H; discriminate.
  - apply (onboarding_refusals serial_uuid plain_defaults None (str "ann")
             (mkOnboardingBody (JsString (str "employee"))
                (JsString (str "0038"))) None office);
      [reflexivity | intros H; vm_compute in H; discriminate].
  - apply (onboarding_refusals serial_uuid plain_defaults None (str "ann")
             (mkOnboardingBody (JsString (str "customer")) JsUndefined)
             (Some (mkFiles (Some [id_scan]) None)) office);
      [reflexivity | right; reflexivity].
Defined.


Lemma onboarding_as_customer_witness :
  getUser (str "ann") office = (inr (Some ann), office) /\
  exists w' onboarded,
    post_onboarding_complete serial_uuid plain_defaults None (str "ann")
      (mkOnboardingBody (JsString (str "customer")) JsUndefined)
      (Some (mkFiles (Some [id_scan]) (Some [bill_scan]))) office
    = (mkAccountResponse 200 (json_user (Some onboarded)), w') /\
    getUser (str "ann") w' = (inr (Some onboarded), w') /\
    userType onboarded = Some (str "customer") /\
    idDocumentUrl onboarded = Some (str "idDocument-1.png") /\
    addressDocumentUrl onboarded = Some (str "addressDocument-2.png") /\
    isVerified onboarded = true.
Proof.
  assert (Hann : getUser (str "ann") office = (inr (Some ann), office))
    by (vm_compute; reflexivity).
  split; [exact Hann|].
  destruct (onboarding_as_customer serial_uuid plain_defaults None
              (str "ann") JsUndefined [id_scan] [bill_scan] office ann Hann)
    as (w' & Hrun & Hget & _).
  exists w'. eexists. split; [exact Hrun|]. split; [exact Hget|].
  repeat split.
Defined.

Lemma onboarding_outcome_witness :
  exists r w',
    post_onboarding_complete serial_uuid plain_defaults None (str "bob")
      (mkOnboardingBody (JsString (str "customer")) JsUndefined)
      (Some (mkFiles (Some [id_scan]) (Some [bill_scan]))) office
    = (r, w') /\
    a_statusCode r = 200 /\
    exists after,
      getUser (str "bob") w' = (inr (Some after), w') /\
      (userType after = Some (str "customer") \/
       userType after = Some (str "employee")) /\
      isVerified after = true /\
      employeeActions w' = [].
Proof.
  destruct (post_onboarding_complete serial_uuid plain_defaults None
              (str "bob")
              (mkOnboardingBody (JsString (str "customer")) JsUndefined)
              (Some (mkFiles (Some [id_scan]) (Some [bill_scan]))) office)
    as [r w'] eqn:Hrun.
  assert (Hok : a_statusCode r = 200).
  { vm_compute in Hrun. injection Hrun as <- _. reflexivity. }
  exists r, w'. split; [reflexivity|]. split; [exact Hok|].
  destruct (proj2 (onboarding_outcome serial_uuid plain_defaults None
                     (str "bob")
                     (mkOnboardingBody (JsString (str "customer")) JsUndefined)
                     (Some (mkFiles (Some [id_scan]) (Some [bill_scan])))
                     office w' r Hrun) Hok)
    as (before & after & _ & Hget & Htype & Hver & _ & _ & _ & Hlog).
  exists after. split; [exact Hget|]. split; [exact Htype|].
  split; [exact Hver | exact Hlog].
Defined.

Lemma upsert_then_get_witness :
  d_id ann_as_customer = Some (str "ann") /\
  d_id dora_with_the_email_of_bob = Some (str "dora") /\
  fits_users ann_as_customer /\
  fits_users dora_with_the_email_of_bob /\
  users_constraints (users office) /\
  ~ email_taken (str "ann") (email (set_user ann_as_customer 500 ann))
      (users office) /\
  email_taken (str "dora") (Some (str "bob@example.com")) (users office) /\
  (exists w',
     upsertUser serial_uuid plain_defaults ann_as_customer office
     = (inr (Some (set_user ann_as_customer 500 ann)), w') /\
     getUser (str "ann") w'
     = (inr (Some (set_user ann_as_customer 500 ann)), w') /\
     userType (set_user ann_as_customer 500 ann) = Some (str "customer") /\
     length (users w') = 3%nat) /\
  (exists error w',
     upsertUser serial_uuid plain_defaults dora_with_the_email_of_bob office
     = (inl error, w') /\
     users w' = users office).
Proof.
  assert (Hann : d_id ann_as_customer = Some (str "ann")) by reflexivity.
  assert (Hdora : d_id dora_with_the_email_of_bob = Some (str "dora"))
    by reflexivity.
  assert (Hc : users_constraints (users office)).
  { apply (bool_decide_unpack (users_constraints (users office))).
    vm_compute. exact I. }
  assert (Hfree : ~ email_taken (str "ann")
                      (email (set_user ann_as_customer 500 ann))
                      (users office)).
  { apply (bool_decide_unpack
             (~ email_taken (str "ann")
                  (email (set_user ann_as_customer 500 ann)) (users office))).
    vm_compute. exact I. }
  assert (Htaken : email_taken (str "dora") (Some (str "bob@example.com"))
                     (users office)).
  { apply (bool_decide_unpack
             (email_taken (str "dora") (Some (str "bob@example.com"))
                (users office))).
    vm_compute. exact I. }
  assert (Hfits : fits_users ann_as_customer) by (split; cbn; lia).
  assert (Hfits' : fits_users dora_with_the_email_of_bob)
    by (split; exact I).
  split; [exact Hann|]. split; [exact Hdora|]. split; [exact Hfits|].
  split; [exact Hfits'|]. split; [exact Hc|].
  split; [exact Hfree|]. split; [exact Htaken|]. split.
  - destruct (proj2 (upsert_then_get serial_uuid plain_defaults
                       ann_as_customer (str "ann") office Hann Hfits Hc)
                Hfree)
      as (w' & Hrun & Hget & _ & _ & Htype & _ & _ & _ & Hlen & _).
    exists w'. split; [exact Hrun|]. split; [exact Hget|].
    split; [exact (Htype _ eq_refl) | exact Hlen].
  - destruct (proj1 (upsert_then_get serial_uuid plain_defaults
                       dora_with_the_email_of_bob (str "dora") office
                       Hdora Hfits' Hc) Htaken)
      as (error & w' & Hrun & Husers & _).
    exists error, w'. split; [exact Hrun | exact Husers].
Defined.

Lemma user_ids_stay_unique_witness :
  List.NoDup (List.map u_id (users office)) /\
  List.NoDup
    (List.map u_id
       (users (snd (upsertUser serial_uuid plain_defaults ann_as_customer
                      office)))) /\
  List.NoDup
    (List.map u_id (users (snd (updateUserStatus (str "bob") false office)))).
Proof.
  assert (Hnodup : List.NoDup (List.map u_id (users office))).
  { vm_compute. repeat constructor; cbn; intuition discriminate. }
  split; [exact Hnodup|].
  destruct (user_ids_stay_unique serial_uuid plain_defaults office Hnodup)
    as (Hupsert & Hstatus).
  split; [exact (Hupsert ann_as_customer) | exact (Hstatus (str "bob") false)].
Defined.

Lemma reject_with_notes_that_are_not_text_witness :
  truthy (JsNumber 7) = true /\
  (forall reason, JsNumber 7 <> JsString reason) /\
  post_reject live_env employee1 bid1 (JsNumber 7) pending_world
  = (message_json 500 "Failed to reject bid", pending_world).
Proof.
  assert (Htruthy : truthy (JsNumber 7) = true) by reflexivity.
  assert (Hnotes : forall reason, JsNumber 7 <> JsString reason)
    by (intros reason H; discriminate H).
  split; [exact Htruthy|]. split; [exact Hnotes|].
  exact (proj1 (reject_with_notes_that_are_not_text live_env employee1 bid1
                  (JsNumber 7) pending_world Htruthy Hnotes)).
Defined.
